(** * Fine-tuning and checkpoint reselection scripts: a shallow embedding

    The development follows the two Python scripts of the repository:

    - [dataset/main/stl10_resnet18/finetune.py]: fine-tunes the last two
      normalisation layers of a ResNet-18 and writes partial state
      dictionaries to the directory [checkpoint];
    - [dataset/ablation/numberckpt_001/reselect.py]: copies one checkpoint
      file to [./checkpoint/origin.pth] and [./checkpoint/repeat.pth].

    Module [Py] holds the Python built-ins the scripts call (integer and
    float formatting, [str.zfill], the substring test [in], [os.path.join],
    [list.sort]); [Torch] the tensors and the optimizer; [FS] the part of
    the file system the scripts touch; [Finetune] and [Reselect] the two
    scripts; [Spec] the notions the specification uses to describe them.
    The definitions come first, the lemmas and theorems after them. *)

From Stdlib Require Import ZArith QArith Qabs List String Ascii Bool Lia
  Permutation Sorted FinFun.
Import ListNotations.

Local Open Scope Z_scope.

(* ================================================================== *)
(** * Python built-ins                                                  *)
(* ================================================================== *)

Module Py.

(** ** [str(n)] for an [int] *)

Definition digit_char (d : Z) : ascii := ascii_of_nat (48 + Z.to_nat d).

(** Most significant digit first; [fuel] bounds the number of digits. *)
Fixpoint digits_aux (fuel : nat) (n : Z) (acc : string) : string :=
  match fuel with
  | O => acc
  | S fuel' =>
      let acc' := String (digit_char (n mod 10)) acc in
      if n <? 10 then acc' else digits_aux fuel' (n / 10) acc'
  end.

(** Decimal digits of a non-negative integer: a number has no more decimal
    digits than binary ones. *)
Definition digits (n : Z) : string :=
  digits_aux (S (Z.to_nat (Z.log2 n))) n EmptyString.

Definition str (n : Z) : string :=
  if n <? 0 then String "-" (digits (- n)) else digits n.

(** Reading a digit string back (used to state what [str] prints). *)
Definition digit_value (c : ascii) : Z := Z.of_nat (nat_of_ascii c) - 48.

Definition is_digit (c : ascii) : bool :=
  (48 <=? nat_of_ascii c)%nat && (nat_of_ascii c <=? 57)%nat.

Fixpoint value_aux (s : string) (acc : Z) : Z :=
  match s with
  | EmptyString => acc
  | String c s' => value_aux s' (10 * acc + digit_value c)
  end.

Definition value (s : string) : Z := value_aux s 0.

Fixpoint all_digits (s : string) : bool :=
  match s with
  | EmptyString => true
  | String c s' => is_digit c && all_digits s'
  end.

(** ** [s.zfill(width)] *)

Fixpoint zeros (k : nat) : string :=
  match k with
  | O => EmptyString
  | S k' => String "0" (zeros k')
  end.

(** Pads on the left with ['0'] up to [width]; a leading sign stays in
    front of the padding. *)
Definition zfill (width : nat) (s : string) : string :=
  if (width <=? String.length s)%nat then s
  else
    let pad := zeros (width - String.length s) in
    match s with
    | String c rest =>
        if (Ascii.eqb c "+" || Ascii.eqb c "-")%bool
        then String c (pad ++ rest)
        else pad ++ s
    | EmptyString => pad
    end.

(** ** [format(n, "0<width>d")] for an [int]: sign, zero fill, digits *)

Definition format_0d (width : nat) (n : Z) : string :=
  let sign := if n <? 0 then "-"%string else EmptyString in
  let body := digits (Z.abs n) in
  sign ++ zeros (width - String.length sign - String.length body) ++ body.

(** ** [format(x, ".4f")] for a [float]

    A float is a finite number, the negative zero, an infinity or a NaN.  A
    finite float is a rational number ([Finite 0] is [0.0]); the conversion
    prints the decimal with four fractional digits nearest to it, ties to
    the even one, and the names of the other values. *)

Inductive pyfloat :=
| Finite (q : Q)          (* a finite number other than [-0.0] *)
| NegZero                 (* [-0.0] *)
| Inf (negative : bool)   (* [float('inf')], [float('-inf')] *)
| NaN.

Definition round_half_even (n : Z) (d : positive) : Z :=
  let q := n / Zpos d in
  let r := n mod Zpos d in
  match (2 * r ?= Zpos d) with
  | Lt => q
  | Gt => q + 1
  | Eq => if Z.even q then q else q + 1
  end.

Definition format_4f_finite (x : Q) : string :=
  let sign := if Qnum x <? 0 then "-"%string else EmptyString in
  let scaled := round_half_even (Z.abs (Qnum x) * 10000) (Qden x) in
  sign ++ digits (scaled / 10000) ++ "." ++ format_0d 4 (scaled mod 10000).

Definition format_4f (x : pyfloat) : string :=
  match x with
  | Finite q => format_4f_finite q
  | NegZero => "-0.0000"
  | Inf false => "inf"
  | Inf true => "-inf"
  | NaN => "nan"
  end.

(** ** [needle in hay] for strings *)

Fixpoint contains (needle hay : string) : bool :=
  (String.prefix needle hay ||
   match hay with
   | EmptyString => false
   | String _ hay' => contains needle hay'
   end)%bool.

(** ** [os.path.join(a, b)] (posixpath) *)

Definition ends_with_sep (s : string) : bool :=
  match String.get (String.length s - 1) s with
  | Some c => Ascii.eqb c "/"
  | None => false
  end.

Definition path_join (a b : string) : string :=
  if String.prefix "/" b then b
  else if (String.eqb a EmptyString || ends_with_sep a)%bool then a ++ b
  else a ++ "/" ++ b.

(** ** [os.path.basename] and [os.path.dirname] are only applied to
    [__file__] when the default tag is computed; the tag is an input here. *)

(** ** [list.sort()] on strings: ascending by code point *)

Fixpoint insert_sorted (x : string) (l : list string) : list string :=
  match l with
  | [] => [x]
  | y :: l' => if String.leb x y then x :: l else y :: insert_sorted x l'
  end.

Fixpoint sort (l : list string) : list string :=
  match l with
  | [] => []
  | x :: l' => insert_sorted x (sort l')
  end.

(** [any(p(x) for x in xs)] is [existsb]; [l[:1]] is [firstn 1];
    [range(n)] and the indices of [enumerate] over [n] items are: *)

Definition range (n : nat) : list Z := map Z.of_nat (seq 0 n).

(** ** Exceptions the scripts can meet *)

Inductive exn :=
| FileExistsError
| FileNotFoundError
| NotADirectoryError
| IsADirectoryError
| RuntimeError
| SystemExit (code : Z).

End Py.


(* ================================================================== *)
(** * Effects: a trace, a state and exceptions                          *)
(* ================================================================== *)

Module Eff.

Section Monad.
Context {St Ev : Type}.

(** What a computation leaves behind: the events it produced, the state it
    ended in, and its value or the exception that ended it. *)
Record out (A : Type) := Out {
  trace : list Ev;
  final : St;
  result : Py.exn + A
}.
Arguments Out {A}.
Arguments trace {A}.
Arguments final {A}.
Arguments result {A}.

Definition M (A : Type) : Type := St -> out A.

Definition ret {A} (a : A) : M A := fun s => Out [] s (inr a).

Definition bind {A B} (m : M A) (k : A -> M B) : M B := fun s =>
  match result (m s) with
  | inr a =>
      let r := k a (final (m s)) in
      Out (trace (m s) ++ trace r) (final r) (result r)
  | inl e => Out (trace (m s)) (final (m s)) (inl e)
  end.

Definition get : M St := fun s => Out [] s (inr s).
Definition put (s : St) : M unit := fun _ => Out [] s (inr tt).
Definition emit (e : Ev) : M unit := fun s => Out [e] s (inr tt).
Definition raise {A} (e : Py.exn) : M A := fun s => Out [] s (inl e).

(** A [for] loop: an exception in the body ends the loop. *)
Fixpoint for_each {A} (l : list A) (body : A -> M unit) : M unit :=
  match l with
  | [] => ret tt
  | x :: l' => bind (body x) (fun _ => for_each l' body)
  end.

End Monad.

Arguments out : clear implicits.
Arguments M : clear implicits.
Arguments Out {St Ev A}.
Arguments trace {St Ev A}.
Arguments final {St Ev A}.
Arguments result {St Ev A}.

End Eff.

Declare Scope eff_scope.
Delimit Scope eff_scope with eff.
Notation "x <- m ;; k" := (Eff.bind m (fun x => k))
  (at level 61, m at next level, right associativity) : eff_scope.
Notation "m ;; k" := (Eff.bind m (fun _ => k))
  (at level 61, right associativity) : eff_scope.

(* ================================================================== *)
(** * The tensor library                                                *)
(* ================================================================== *)

Module Torch.

Inductive device := CPU | CUDA.
Inductive dtype := Float32 | Float64 | Float16 | BFloat16 | Int64.

(** The numbers a tensor holds and their conversion between element types
    belong to the library; the scripts never look inside. *)
Class Backend := {
  data : Type;
  cast : dtype -> dtype -> data -> data
}.

Section Tensors.
Context {backend : Backend}.

Record tensor := Tensor {
  t_device : device;
  t_dtype : dtype;
  t_data : data
}.

(** [t.cpu()] *)
Definition cpu (t : tensor) : tensor :=
  Tensor CPU (t_dtype t) (t_data t).

(** [t.to(dtype)] *)
Definition to (d : dtype) (t : tensor) : tensor :=
  Tensor (t_device t) d (cast (t_dtype t) d (t_data t)).

(** A module's named tensors, in registration order: parameters carry the
    [requires_grad] flag, buffers (running statistics) do not. *)
Inductive kind := Param (requires_grad : bool) | Buffer.

Record entry := Entry {
  e_name : string;
  e_kind : kind;
  e_value : tensor
}.

Definition nn_module := list entry.

(** [model.state_dict().items()]: parameters and buffers. *)
Definition state_dict (model : nn_module) : list (string * tensor) :=
  map (fun e => (e_name e, e_value e)) model.

Definition is_parameter (e : entry) : bool :=
  match e_kind e with Param _ => true | Buffer => false end.

Definition requires_grad (e : entry) : bool :=
  match e_kind e with Param g => g | Buffer => false end.

(** [param.requires_grad = g] *)
Definition set_requires_grad (g : bool) (e : entry) : entry :=
  Entry (e_name e) (Param g) (e_value e).

Definition set_value (v : tensor) (e : entry) : entry :=
  Entry (e_name e) (e_kind e) v.

(** [optim.AdamW(params, lr, weight_decay)]: the optimizer keeps references
    to the parameters it is given, here their positions in the module. *)
Record optimizer := Optimizer {
  params : list nat;
  lr : Q;
  weight_decay : Q
}.

(** [lr_scheduler.CosineAnnealingLR(optimizer, T_max, eta_min)] *)
Record scheduler := Scheduler {
  T_max : Z;
  eta_min : Q
}.

(** [optimizer.step()]: each parameter the optimizer holds and that has a
    gradient gets a new value [upd i v]; nothing else is written. *)
Fixpoint step_from (i : nat) (upd : nat -> tensor -> tensor)
  (opt : optimizer) (model : nn_module) : nn_module :=
  match model with
  | [] => []
  | e :: model' =>
      (if (existsb (Nat.eqb i) (params opt) && requires_grad e)%bool
       then set_value (upd i (e_value e)) e
       else e) :: step_from (S i) upd opt model'
  end.

Definition optimizer_step (upd : nat -> tensor -> tensor)
  (opt : optimizer) (model : nn_module) : nn_module :=
  step_from 0 upd opt model.

(** A forward pass in training mode refreshes the buffers (the running
    statistics of the normalisation layers) and no parameter. *)
Fixpoint buffers_from (i : nat) (stat : nat -> tensor -> tensor)
  (model : nn_module) : nn_module :=
  match model with
  | [] => []
  | e :: model' =>
      (if is_parameter e then e else set_value (stat i (e_value e)) e)
        :: buffers_from (S i) stat model'
  end.

Definition forward_train (stat : nat -> tensor -> tensor)
  (model : nn_module) : nn_module :=
  buffers_from 0 stat model.

End Tensors.

End Torch.

(* ================================================================== *)
(** * The file system the scripts touch                                 *)
(* ================================================================== *)

Module FS.

Section Directories.
Variable file : Type.

(** What a path the scripts use as a directory holds: nothing, something
    that is no directory, or a directory of regular files in listing
    order. *)
Inductive slot :=
| Missing
| NotADirectory
| Directory (files : list (string * file)).

Fixpoint lookup (name : string) (files : list (string * file)) : option file :=
  match files with
  | [] => None
  | (n, f) :: files' => if String.eqb n name then Some f else lookup name files'
  end.

(** Create or overwrite the file [name]. *)
Fixpoint store (name : string) (f : file) (files : list (string * file))
  : list (string * file) :=
  match files with
  | [] => [(name, f)]
  | (n, g) :: files' =>
      if String.eqb n name then (n, f) :: files'
      else (n, g) :: store name f files'
  end.

(** A name of a directory entry: not empty, no separator. *)
Definition valid_name (name : string) : bool :=
  (negb (String.eqb name EmptyString) && negb (Py.contains "/" name))%bool.

(** The files of a directory (none when there is no directory). *)
Definition files_of (s : slot) : list (string * file) :=
  match s with Directory files => files | _ => [] end.

(** [os.path.isdir] *)
Definition isdir (s : slot) : bool :=
  match s with Directory _ => true | _ => false end.

(** [os.mkdir] *)
Definition mkdir (s : slot) : Py.exn + slot :=
  match s with
  | Missing => inr (Directory [])
  | _ => inl Py.FileExistsError
  end.

(** [os.makedirs(path, exist_ok=True)] *)
Definition makedirs_exist_ok (s : slot) : Py.exn + slot :=
  match s with
  | Missing => inr (Directory [])
  | Directory files => inr (Directory files)
  | NotADirectory => inl Py.FileExistsError
  end.

(** [os.listdir] *)
Definition listdir (s : slot) : Py.exn + list string :=
  match s with
  | Directory files => inr (map fst files)
  | Missing => inl Py.FileNotFoundError
  | NotADirectory => inl Py.NotADirectoryError
  end.

(** Opening [name] in the directory for reading. *)
Definition read_file (name : string) (s : slot) : Py.exn + file :=
  match s with
  | Directory files =>
      match lookup name files with
      | Some f => inr f
      | None => inl Py.FileNotFoundError
      end
  | Missing => inl Py.FileNotFoundError
  | NotADirectory => inl Py.NotADirectoryError
  end.

(** Opening [name] in the directory for writing and writing [f]. *)
Definition write_file (name : string) (f : file) (s : slot) : Py.exn + slot :=
  match s with
  | Directory files =>
      if String.eqb name EmptyString then inl Py.IsADirectoryError
      else if Py.contains "/" name then inl Py.FileNotFoundError
      else inr (Directory (store name f files))
  | Missing => inl Py.FileNotFoundError
  | NotADirectory => inl Py.NotADirectoryError
  end.

End Directories.

Arguments Missing {file}.
Arguments NotADirectory {file}.
Arguments Directory {file}.
Arguments lookup {file}.
Arguments store {file}.
Arguments files_of {file}.
Arguments isdir {file}.
Arguments mkdir {file}.
Arguments makedirs_exist_ok {file}.
Arguments listdir {file}.
Arguments read_file {file}.
Arguments write_file {file}.

(** The part of a path after a directory prefix. *)
Fixpoint strip_prefix (p s : string) : option string :=
  match p, s with
  | EmptyString, _ => Some s
  | String a p', String b s' => if Ascii.eqb a b then strip_prefix p' s' else None
  | String _ _, EmptyString => None
  end.

End FS.

(* ================================================================== *)
(** * finetune.py                                                       *)
(* ================================================================== *)

(** The script loads its configuration, seeds the generators, builds the
    data loaders and the model, and runs the training loop.  Seeding, data
    loading, the forward and backward passes and the test run belong to the
    libraries; of these the embedding keeps what the loop and
    [save_checkpoint] depend on: the number of batches of the training
    loader and the tensors a step writes. *)

Module Finetune.

Local Open Scope string_scope.
Local Open Scope eff_scope.

(** ** Configuration *)

Record config := Config {
  dataset_root : string;
  batch_size : Z;
  num_workers : Z;
  learning_rate : Q;
  weight_decay : Q;
  epochs : Z;
  save_learning_rate : Q;
  total_save_number : Z;
  tag : string;
  freeze_epochs : Z;
  seed : Z
}.

(** The keys [config.json] may set; a key it leaves out keeps its default. *)
Record additional_config := Additional {
  a_dataset_root : option string;
  a_batch_size : option Z;
  a_num_workers : option Z;
  a_learning_rate : option Q;
  a_weight_decay : option Q;
  a_epochs : option Z;
  a_save_learning_rate : option Q;
  a_total_save_number : option Z;
  a_tag : option string;
  a_freeze_epochs : option Z;
  a_seed : option Z
}.

Definition or_default {A : Type} (o : option A) (d : A) : A :=
  match o with Some a => a | None => d end.

(** [config.update(additional_config)] *)
Definition update (c : config) (a : additional_config) : config :=
  Config
    (or_default (a_dataset_root a) (dataset_root c))
    (or_default (a_batch_size a) (batch_size c))
    (or_default (a_num_workers a) (num_workers c))
    (or_default (a_learning_rate a) (learning_rate c))
    (or_default (a_weight_decay a) (weight_decay c))
    (or_default (a_epochs a) (epochs c))
    (or_default (a_save_learning_rate a) (save_learning_rate c))
    (or_default (a_total_save_number a) (total_save_number c))
    (or_default (a_tag a) (tag c))
    (or_default (a_freeze_epochs a) (freeze_epochs c))
    (or_default (a_seed a) (seed c)).

(** [get_config()]; [dirname] is the name of the directory the script is
    in, [additional] the content of [config.json]. *)
Definition get_config (dirname : string) (additional : additional_config) : config :=
  let config :=
    Config "from_additional_config" 64 4 (5 # 100) (5 # 10000) 1 (5 # 100)
           300 dirname 0 40 in
  update config additional.

Definition no_additional_config : additional_config :=
  Additional None None None None None None None None None None None.

(** ** The last two normalisation layers *)

Definition last_two_norms : list string :=
  ["layer4.1.bn1.weight"; "layer4.1.bn1.bias";
   "layer4.1.bn2.weight"; "layer4.1.bn2.bias"].

(** [any(norm in name for norm in last_two_norms)] *)
Definition any_norm_in (name : string) : bool :=
  existsb (fun norm => Py.contains norm name) last_two_norms.

Section Script.
Context {backend : Torch.Backend}.

(** ** [get_optimizer_and_scheduler] *)

(** The loop over [model.named_parameters()], from position [i] on: the
    flags it sets and the parameters it collects. *)
Fixpoint select_trainable (i : nat) (model : Torch.nn_module)
  : Torch.nn_module * list nat :=
  match model with
  | [] => ([], [])
  | e :: model' =>
      let (rest, trainable_params) := select_trainable (S i) model' in
      if Torch.is_parameter e then
        if any_norm_in (Torch.e_name e)
        then (Torch.set_requires_grad true e :: rest, i :: trainable_params)
        else (Torch.set_requires_grad false e :: rest, trainable_params)
      else (e :: rest, trainable_params)
  end.

Definition get_optimizer_and_scheduler (model : Torch.nn_module)
  (config : config) (total_batches : nat)
  : Torch.nn_module * Torch.optimizer * Torch.scheduler :=
  let (model', trainable_params) := select_trainable 0 model in
  let optimizer :=
    Torch.Optimizer trainable_params (learning_rate config) (weight_decay config) in
  let scheduler :=
    Torch.Scheduler (Z.of_nat total_batches) (save_learning_rate config) in
  (model', optimizer, scheduler).

(** What the loop of [get_optimizer_and_scheduler] does to one named
    tensor. *)
Definition flagged (e : Torch.entry) : Torch.entry :=
  if Torch.is_parameter e
  then Torch.set_requires_grad (any_norm_in (Torch.e_name e)) e
  else e.

(** ** [save_checkpoint] *)

(** A saved object: the dictionary handed to [torch.save]. *)
Definition saved := list (string * Torch.tensor).

Record machine := Machine {
  checkpoint : FS.slot saved;   (* the path 'checkpoint' *)
  model : Torch.nn_module;      (* the global [model] *)
  ckpt_num : Z                  (* the counter of the main loop *)
}.

Inductive event :=
| Step (j batch_idx : Z)              (* one optimisation step was made *)
| Saved (path : string) (obj : saved) (* [torch.save] wrote a file *)
| Printed (line : string).

Definition M := Eff.M machine event.

Definition lift {A : Type} (r : Py.exn + A) : M A :=
  match r with
  | inr a => Eff.ret a
  | inl e => Eff.raise e
  end.

Definition print (line : string) : M unit := Eff.emit (Printed line).

Definition set_checkpoint (d : FS.slot saved) (st : machine) : machine :=
  Machine d (model st) (ckpt_num st).

Definition set_model (m : Torch.nn_module) (st : machine) : machine :=
  Machine (checkpoint st) m (ckpt_num st).

Definition set_ckpt_num (n : Z) (st : machine) : machine :=
  Machine (checkpoint st) (model st) n.

(** [os.mkdir('checkpoint')] *)
Definition mkdir_checkpoint : M unit :=
  st <- Eff.get ;;
  d <- lift (FS.mkdir (checkpoint st)) ;;
  Eff.put (set_checkpoint d st).

(** [torch.save(obj, path)] for a path below ['checkpoint']; when the file
    cannot be opened for writing it raises [RuntimeError]. *)
Definition torch_save (obj : saved) (path : string) : M unit :=
  st <- Eff.get ;;
  match FS.strip_prefix "checkpoint/" path with
  | Some name =>
      match FS.write_file name obj (checkpoint st) with
      | inr d =>
          Eff.put (set_checkpoint d st) ;;
          Eff.emit (Saved path obj)
      | inl _ => Eff.raise Py.RuntimeError
      end
  | None => Eff.raise Py.RuntimeError
  end.

(** The dictionary comprehension of [save_checkpoint]. *)
Definition save_state (model : Torch.nn_module) : saved :=
  map (fun kv => (fst kv, Torch.to Torch.Float32 (Torch.cpu (snd kv))))
      (filter (fun kv => any_norm_in (fst kv)) (Torch.state_dict model)).

(** The f-string of [save_checkpoint]. *)
Definition checkpoint_path (batch_idx : Z) (acc : Py.pyfloat) (config : config)
  : string :=
  "checkpoint/" ++ Py.zfill 4 (Py.str batch_idx) ++ "_acc" ++ Py.format_4f acc
  ++ "_seed" ++ Py.format_0d 4 (seed config) ++ "_" ++ tag config ++ ".pth".

Definition save_checkpoint (model : Torch.nn_module) (batch_idx : Z)
  (acc : Py.pyfloat) (config : config) : M unit :=
  st <- Eff.get ;;
  (if negb (FS.isdir (checkpoint st)) then mkdir_checkpoint else Eff.ret tt) ;;
  torch_save (save_state model) (checkpoint_path batch_idx acc config) ;;
  print ("Saved: " ++ checkpoint_path batch_idx acc config).

(** ** The main loop *)

(** What the library computes in one step: the new running statistics of
    the forward pass and the new values AdamW gives the parameters, both as
    functions of the pass, the batch and the model before the step. *)
Class Training := {
  running_stats : Z -> Z -> Torch.nn_module -> nat -> Torch.tensor -> Torch.tensor;
  adamw : Z -> Z -> Torch.nn_module -> nat -> Torch.tensor -> Torch.tensor
}.

Context {training : Training}.

Definition save_interval : Z := 1.

(** The test that guards [save_checkpoint] in the loop. *)
Definition save_due (batch_idx total_batches : Z) : bool :=
  ((((batch_idx + 1) mod save_interval =? 0)%Z
    || (batch_idx =? total_batches - 1)%Z)
   && (1 <? batch_idx)%Z)%bool.

(** The model after the forward pass, [loss.backward()], [optimizer.step()]
    and [scheduler.step()] of one batch. *)
Definition trained (optimizer : Torch.optimizer) (j batch_idx : Z)
  (m : Torch.nn_module) : Torch.nn_module :=
  Torch.optimizer_step (adamw j batch_idx m) optimizer
    (Torch.forward_train (running_stats j batch_idx m) m).

Definition train_step (optimizer : Torch.optimizer) (j batch_idx : Z) : M unit :=
  st <- Eff.get ;;
  Eff.put (set_model (trained optimizer j batch_idx (model st)) st) ;;
  Eff.emit (Step j batch_idx).

(** The body of the inner [for]. *)
Definition body (config : config) (total_batches : nat)
  (optimizer : Torch.optimizer) (j batch_idx : Z) : M unit :=
  train_step optimizer j batch_idx ;;
  (if save_due batch_idx (Z.of_nat total_batches) then
     let acc : Py.pyfloat := Py.Finite (1 # 1) in
     st <- Eff.get ;;
     save_checkpoint (model st) (ckpt_num st) acc config ;;
     st' <- Eff.get ;;
     Eff.put (set_ckpt_num (ckpt_num st' + 1) st')
   else Eff.ret tt) ;;
  st <- Eff.get ;;
  if (ckpt_num st >=? total_save_number config)%Z then
    print "Fine-tuning completed." ;;
    Eff.raise (Py.SystemExit 0)
  else Eff.ret tt.

(** The [__main__] block from [ckpt_num = 0] on; the initial test before
    it only evaluates the model. *)
Definition main (config : config) (total_batches : nat)
  (optimizer : Torch.optimizer) : M unit :=
  st <- Eff.get ;;
  Eff.put (set_ckpt_num 0 st) ;;
  Eff.for_each (Py.range 6) (fun j =>
    Eff.for_each (Py.range total_batches) (fun batch_idx =>
      body config total_batches optimizer j batch_idx)).

(** The whole script: [pretrained] is the model after [load_state_dict],
    [dir] what the path ['checkpoint'] holds at the start, [total_batches]
    is [len(train_loader)]. *)
Definition script (config : config) (total_batches : nat)
  (pretrained : Torch.nn_module) (dir : FS.slot saved)
  : Eff.out machine event unit :=
  let '(model, optimizer, _) :=
    get_optimizer_and_scheduler pretrained config total_batches in
  main config total_batches optimizer (Machine dir model 0).

(** ** Reading a run *)

(** The paths [torch.save] wrote, in order. *)
Fixpoint saved_paths (t : list event) : list string :=
  match t with
  | [] => []
  | Saved path _ :: t' => path :: saved_paths t'
  | _ :: t' => saved_paths t'
  end.

(** The (pass, batch) pairs of the optimisation steps, in order. *)
Fixpoint steps (t : list event) : list (Z * Z) :=
  match t with
  | [] => []
  | Step j b :: t' => (j, b) :: steps t'
  | _ :: t' => steps t'
  end.

Definition count_saved (t : list event) : nat := List.length (saved_paths t).

(** The name of a checkpoint file inside the directory. *)
Definition checkpoint_file (batch_idx : Z) (acc : Py.pyfloat) (config : config)
  : string :=
  Py.zfill 4 (Py.str batch_idx) ++ "_acc" ++ Py.format_4f acc
  ++ "_seed" ++ Py.format_0d 4 (seed config) ++ "_" ++ tag config ++ ".pth".

(** The (pass, batch) pairs of [passes] passes over [total_batches] batches. *)
Definition schedule (passes total_batches : nat) : list (Z * Z) :=
  flat_map (fun j => map (pair j) (Py.range total_batches)) (Py.range passes).

(** The path ['checkpoint'] is free or a directory, and the tag can be part
    of a file name. *)
Definition writable (config : config) (dir : FS.slot saved) : bool :=
  match dir with
  | FS.NotADirectory => false
  | _ => negb (Py.contains "/" (tag config))
  end.

(** The two nested loops as one loop over the (pass, batch) pairs. *)
Definition loop (config : config) (total_batches : nat)
  (optimizer : Torch.optimizer) (its : list (Z * Z)) : M unit :=
  Eff.for_each its
    (fun jb => body config total_batches optimizer (fst jb) (snd jb)).

(** The first iteration left makes no save. *)
Definition head_small (its : list (Z * Z)) : Prop :=
  match its with
  | (_, b) :: _ => b <= 1
  | [] => True
  end.

(** The form of the events of a run of the loop that starts with the
    counter at [k] and has the iterations [its] before it, together with the
    way the run ends. *)
Inductive shape (config : config) (total_batches : nat)
  : Z -> list (Z * Z) -> list event -> Py.exn + unit -> Prop :=
| shape_done k :
    shape config total_batches k [] [] (inr tt)
| shape_skip k j b its t r :
    save_due b (Z.of_nat total_batches) = false ->
    (k >=? total_save_number config)%Z = false ->
    shape config total_batches k its t r ->
    shape config total_batches k ((j, b) :: its) (Step j b :: t) r
| shape_skip_exit k j b its :
    save_due b (Z.of_nat total_batches) = false ->
    (k >=? total_save_number config)%Z = true ->
    shape config total_batches k ((j, b) :: its)
          [Step j b; Printed "Fine-tuning completed."]
          (inl (Py.SystemExit 0))
| shape_save k j b its obj t r :
    save_due b (Z.of_nat total_batches) = true ->
    (k + 1 >=? total_save_number config)%Z = false ->
    shape config total_batches (k + 1) its t r ->
    shape config total_batches k ((j, b) :: its)
          (Step j b
           :: Saved (checkpoint_path k (Py.Finite (1 # 1)) config) obj
           :: Printed ("Saved: " ++ checkpoint_path k (Py.Finite (1 # 1)) config)
           :: t) r
| shape_save_exit k j b its obj :
    save_due b (Z.of_nat total_batches) = true ->
    (k + 1 >=? total_save_number config)%Z = true ->
    shape config total_batches k ((j, b) :: its)
          [Step j b;
           Saved (checkpoint_path k (Py.Finite (1 # 1)) config) obj;
           Printed ("Saved: " ++ checkpoint_path k (Py.Finite (1 # 1)) config);
           Printed "Fine-tuning completed."]
          (inl (Py.SystemExit 0))
| shape_fail k j b its e :
    save_due b (Z.of_nat total_batches) = true ->
    e = Py.FileExistsError \/ e = Py.RuntimeError ->
    shape config total_batches k ((j, b) :: its) [Step j b] (inl e).

End Script.

End Finetune.

(* ================================================================== *)
(** * reselect.py                                                       *)
(* ================================================================== *)

Module Reselect.

Local Open Scope string_scope.
Local Open Scope eff_scope.

Definition bytes := list Byte.byte.

Definition source_dir : string := "../../main/cifar100_resnet18/checkpoint".
Definition dst : string := "./checkpoint".

(** The two directories of the script; they are different directories when
    the script runs where it lies. *)
Record world := World {
  source : FS.slot bytes;   (* ../../main/cifar100_resnet18/checkpoint *)
  dest : FS.slot bytes      (* ./checkpoint *)
}.

Inductive event :=
| Copied (from to : string).   (* [shutil.copy] copied a file *)

Definition M := Eff.M world event.

Definition lift {A : Type} (r : Py.exn + A) : M A :=
  match r with
  | inr a => Eff.ret a
  | inl e => Eff.raise e
  end.

(** Reading the file at a path. *)
Definition read_path (path : string) (w : world) : Py.exn + bytes :=
  match FS.strip_prefix (source_dir ++ "/") path with
  | Some name => FS.read_file name (source w)
  | None =>
      match FS.strip_prefix (dst ++ "/") path with
      | Some name => FS.read_file name (dest w)
      | None => inl Py.FileNotFoundError
      end
  end.

(** Writing the file at a path. *)
Definition write_path (path : string) (content : bytes) (w : world)
  : Py.exn + world :=
  match FS.strip_prefix (source_dir ++ "/") path with
  | Some name =>
      match FS.write_file name content (source w) with
      | inr d => inr (World d (dest w))
      | inl e => inl e
      end
  | None =>
      match FS.strip_prefix (dst ++ "/") path with
      | Some name =>
          match FS.write_file name content (dest w) with
          | inr d => inr (World (source w) d)
          | inl e => inl e
          end
      | None => inl Py.FileNotFoundError
      end
  end.

(** [shutil.copy(from, to)] where [to] names a file. *)
Definition copy (from to : string) : M unit :=
  w <- Eff.get ;;
  content <- lift (read_path from w) ;;
  w' <- lift (write_path to content w) ;;
  Eff.put w' ;;
  Eff.emit (Copied from to).

(** The script. *)
Definition reselect : M unit :=
  w <- Eff.get ;;
  names <- lift (FS.listdir (source w)) ;;
  let src := map (fun i => Py.path_join source_dir i) names in
  d <- lift (FS.makedirs_exist_ok (dest w)) ;;
  Eff.put (World (source w) d) ;;
  let src := Py.sort src in
  let src := firstn 1 src in
  Eff.for_each src (fun i => copy i (Py.path_join dst "origin.pth")) ;;
  Eff.for_each src (fun i => copy i (Py.path_join dst "repeat.pth")).

End Reselect.

(* ================================================================== *)
(** * Notions of the specification                                      *)
(* ================================================================== *)

Module Spec.

Local Open Scope string_scope.

(** A non-negative integer zero-padded to [width] digits (a number with
    more digits keeps them all). *)
Definition zero_padded (width : nat) (n : Z) : string :=
  Py.zeros (width - String.length (Py.digits n)) ++ Py.digits n.

(** The name of a checkpoint file: index, accuracy, seed and tag. *)
Definition checkpoint_name (index : Z) (accuracy : string) (seed : Z)
  (tag : string) : string :=
  zero_padded 4 index ++ "_acc" ++ accuracy ++ "_seed" ++ zero_padded 4 seed
  ++ "_" ++ tag ++ ".pth".

(** A list of strings in ascending (lexicographic) order. *)
Definition ascending : list string -> Prop :=
  StronglySorted (fun a b => String.leb a b = true).

(** "The training loop iterates over the training set exactly
    [config["epochs"]] times unless the checkpoint quota stops it earlier":
    the steps of a run [r] are an initial part of the steps of [epochs]
    passes, and all of them when the run reaches the end of the loop. *)
Definition passes_as_configured {backend : Torch.Backend}
  (config : Finetune.config) (total_batches : nat)
  (r : Eff.out Finetune.machine Finetune.event unit) : Prop :=
  (exists n,
     Finetune.steps (Eff.trace r) =
     firstn n (Finetune.schedule (Z.to_nat (Finetune.epochs config))
                                 total_batches)) /\
  (Eff.result r = inr tt ->
   Finetune.steps (Eff.trace r) =
   Finetune.schedule (Z.to_nat (Finetune.epochs config)) total_batches).

(** "The number of checkpoints saved never exceeds
    [config["total_save_number"]]: as soon as the count of saved checkpoints
    reaches that quota, the script stops (exits with status 0) and performs
    no further training steps or saves": the saves of a run [r] are within
    the quota, and from a point of the run where the count has reached the
    quota there is no step and no save, and the run ends by [exit(0)]. *)
Definition quota_respected {backend : Torch.Backend}
  (config : Finetune.config)
  (r : Eff.out Finetune.machine Finetune.event unit) : Prop :=
  Z.of_nat (Finetune.count_saved (Eff.trace r))
    <= Finetune.total_save_number config /\
  forall pre post,
    Eff.trace r = (pre ++ post)%list ->
    Finetune.total_save_number config
      <= Z.of_nat (Finetune.count_saved pre) ->
    Finetune.steps post = [] /\ Finetune.saved_paths post = [] /\
    Eff.result r = inl (Py.SystemExit 0).

End Spec.

(* ================================================================== *)
(** * Concrete inputs                                                   *)
(* ================================================================== *)

Module Sample.

Local Open Scope string_scope.

(** Tensors that hold one integer; conversions keep it. *)
Definition backend : Torch.Backend :=
  {| Torch.data := Z; Torch.cast := fun _ _ x => x |}.

(** Every step adds one to each tensor it writes. *)
Definition bump (t : @Torch.tensor backend) : @Torch.tensor backend :=
  @Torch.Tensor backend (Torch.t_device t) (Torch.t_dtype t) (Torch.t_data t + 1).

Definition training : @Finetune.Training backend :=
  {| Finetune.running_stats := fun _ _ _ _ t => bump t;
     Finetune.adamw := fun _ _ _ _ t => bump t |}.

Definition weights : @Torch.tensor backend :=
  @Torch.Tensor backend Torch.CUDA Torch.BFloat16 0.

(** The end of a ResNet-18: the last block and the classifier. *)
Definition resnet : @Torch.nn_module backend :=
  [Torch.Entry "layer4.1.conv1.weight" (Torch.Param true) weights;
   Torch.Entry "layer4.1.bn1.weight" (Torch.Param true) weights;
   Torch.Entry "layer4.1.bn1.bias" (Torch.Param true) weights;
   Torch.Entry "layer4.1.bn1.running_mean" Torch.Buffer weights;
   Torch.Entry "layer4.1.bn1.running_var" Torch.Buffer weights;
   Torch.Entry "layer4.1.bn1.num_batches_tracked" Torch.Buffer weights;
   Torch.Entry "layer4.1.conv2.weight" (Torch.Param true) weights;
   Torch.Entry "layer4.1.bn2.weight" (Torch.Param true) weights;
   Torch.Entry "layer4.1.bn2.bias" (Torch.Param true) weights;
   Torch.Entry "layer4.1.bn2.running_mean" Torch.Buffer weights;
   Torch.Entry "layer4.1.bn2.running_var" Torch.Buffer weights;
   Torch.Entry "layer4.1.bn2.num_batches_tracked" Torch.Buffer weights;
   Torch.Entry "fc.weight" (Torch.Param true) weights;
   Torch.Entry "fc.bias" (Torch.Param true) weights].

(** The defaults of [get_config]. *)
Definition config : Finetune.config :=
  Finetune.get_config "stl10_resnet18" Finetune.no_additional_config.

(** The defaults with a quota of three checkpoints. *)
Definition config3 : Finetune.config :=
  Finetune.update config
    (Finetune.Additional None None None None None None None (Some 3%Z)
                         None None None).

(** The defaults with a quota of zero checkpoints, and of minus one. *)
Definition config0 : Finetune.config :=
  Finetune.update config
    (Finetune.Additional None None None None None None None (Some 0%Z)
                         None None None).

Definition config_minus : Finetune.config :=
  Finetune.update config
    (Finetune.Additional None None None None None None None (Some (-1)%Z)
                         None None None).

Definition machine : @Finetune.machine backend :=
  @Finetune.Machine backend FS.Missing resnet 0.

(** A source directory of three checkpoints, in listing order. *)
Definition checkpoints : list (string * Reselect.bytes) :=
  [("0002_acc1.0000_seed0040_cifar100_resnet18.pth", [Byte.x02]);
   ("0000_acc1.0000_seed0040_cifar100_resnet18.pth", [Byte.x00]);
   ("0001_acc1.0000_seed0040_cifar100_resnet18.pth", [Byte.x01])].

Definition world : Reselect.world :=
  Reselect.World (FS.Directory checkpoints) FS.Missing.

Definition empty_world : Reselect.world :=
  Reselect.World (FS.Directory []) FS.Missing.

End Sample.

(* ================================================================== *)
(** * Reading a run further; further inputs                             *)
(* ================================================================== *)

(** The iterations the loop makes of [its] when no save fails, from the
    counter [k] on: it stops after the first one that leaves the counter at
    the quota or above. *)
Fixpoint planned (quota k : Z) (its : list (Z * Z)) : list (Z * Z) :=
  match its with
  | [] => []
  | (j, b) :: its' =>
      let k' := if 1 <? b then k + 1 else k in
      (j, b) :: if k' >=? quota then [] else planned quota k' its'
  end.

(** The model after the steps [its], from the model [m]. *)
Definition model_after {backend : Torch.Backend}
  {training : Finetune.Training} (optimizer : Torch.optimizer)
  (its : list (Z * Z)) (m : Torch.nn_module) : Torch.nn_module :=
  fold_left (fun m jb => Finetune.trained optimizer (fst jb) (snd jb) m) its m.

(** The iterations of [its] whose batch index is above 1. *)
Definition dues (its : list (Z * Z)) : nat :=
  List.length (filter (fun jb => 1 <? snd jb) its).

(** The objects [torch.save] wrote, in order. *)
Fixpoint saved_objects {backend : Torch.Backend} (t : list Finetune.event)
  : list Finetune.saved :=
  match t with
  | [] => []
  | Finetune.Saved _ obj :: t' => obj :: saved_objects t'
  | _ :: t' => saved_objects t'
  end.

(** The lines the training loop prints, in order. *)
Fixpoint printed {backend : Torch.Backend} (t : list Finetune.event)
  : list string :=
  match t with
  | [] => []
  | Finetune.Printed line :: t' => line :: printed t'
  | _ :: t' => printed t'
  end.

(** The last line of a run that ends with [r], if it prints one. *)
Definition last_words (r : Py.exn + unit) : list string :=
  match r with
  | inl (Py.SystemExit _) => ["Fine-tuning completed."%string]
  | _ => []
  end.

(** What [reselect.py] leaves alone between two states: the source
    directory and, in [./checkpoint], every file but [origin.pth] and
    [repeat.pth]. *)
Definition untouched (w w' : Reselect.world) : Prop :=
  Reselect.source w' = Reselect.source w /\
  forall name, name <> "origin.pth"%string -> name <> "repeat.pth"%string ->
    FS.lookup name (FS.files_of (Reselect.dest w')) =
    FS.lookup name (FS.files_of (Reselect.dest w)).

Module Cases.

(** No source directory. *)
Definition no_source : Reselect.world :=
  Reselect.World FS.Missing FS.Missing.

(** [./checkpoint] is a regular file. *)
Definition blocked : Reselect.world :=
  Reselect.World (FS.Directory Sample.checkpoints) FS.NotADirectory.

(** The configuration of the run that wrote [Sample.checkpoints]. *)
Definition cifar_config : Finetune.config :=
  Finetune.get_config "cifar100_resnet18" Finetune.no_additional_config.

End Cases.

(* ================================================================== *)
(** * Facts about the Python built-ins                                  *)
(* ================================================================== *)

Section PyFacts.
Import Py.

#[local] Arguments digit_char : simpl never.
#[local] Arguments is_digit : simpl never.
#[local] Arguments digit_value : simpl never.
#[local] Arguments Z.modulo : simpl never.
#[local] Arguments Z.div : simpl never.
#[local] Arguments Z.pow : simpl never.
#[local] Arguments Z.mul : simpl never.

Lemma digit_cases (d : Z) :
  0 <= d < 10 ->
  d = 0 \/ d = 1 \/ d = 2 \/ d = 3 \/ d = 4 \/ d = 5 \/ d = 6 \/ d = 7 \/ d = 8 \/ d = 9.
Proof. lia. Qed.

Lemma digit_char_is_digit (d : Z) :
  0 <= d < 10 -> is_digit (digit_char d) = true.
Proof.
  intros H. destruct (digit_cases d H) as [-> | [-> | [-> | [-> | [-> | [-> | [-> | [-> | [-> | ->]]]]]]]]];
    reflexivity.
Qed.

Lemma digit_value_char (d : Z) :
  0 <= d < 10 -> digit_value (digit_char d) = d.
Proof.
  intros H. destruct (digit_cases d H) as [-> | [-> | [-> | [-> | [-> | [-> | [-> | [-> | [-> | ->]]]]]]]]];
    reflexivity.
Qed.

Lemma append_assoc (s t u : string) : ((s ++ t) ++ u = s ++ (t ++ u))%string.
Proof.
  induction s as [| c s IH]; simpl; [reflexivity | now rewrite IH].
Qed.

Lemma append_nil_r (s : string) : (s ++ EmptyString = s)%string.
Proof.
  induction s as [| c s IH]; simpl; [reflexivity | now rewrite IH].
Qed.

Lemma digits_aux_app (fuel : nat) :
  forall n acc, digits_aux fuel n acc = (digits_aux fuel n EmptyString ++ acc)%string.
Proof.
  induction fuel as [| fuel IH]; intros n acc; simpl.
  - reflexivity.
  - destruct (n <? 10).
    + reflexivity.
    + rewrite IH. rewrite (IH _ (String _ EmptyString)).
      rewrite append_assoc. reflexivity.
Qed.

Lemma digits_aux_step (fuel : nat) (n : Z) :
  digits_aux (S fuel) n EmptyString =
  if n <? 10 then String (digit_char (n mod 10)) EmptyString
  else (digits_aux fuel (n / 10) EmptyString ++ String (digit_char (n mod 10)) EmptyString)%string.
Proof.
  simpl. destruct (n <? 10); [reflexivity | apply digits_aux_app].
Qed.

Lemma value_aux_app (s t : string) :
  forall a, value_aux (s ++ t) a = value_aux t (value_aux s a).
Proof.
  induction s as [| c s IH]; intros a; simpl; [reflexivity | apply IH].
Qed.

Lemma all_digits_app (s t : string) :
  all_digits (s ++ t) = (all_digits s && all_digits t)%bool.
Proof.
  induction s as [| c s IH]; simpl; [reflexivity |].
  rewrite IH. apply andb_assoc.
Qed.

Lemma length_app (s t : string) :
  String.length (s ++ t) = (String.length s + String.length t)%nat.
Proof.
  induction s as [| c s IH]; simpl; [reflexivity | now rewrite IH].
Qed.

Lemma digits_aux_all_digits (fuel : nat) :
  forall n, all_digits (digits_aux fuel n EmptyString) = true.
Proof.
  induction fuel as [| fuel IH]; intros n.
  - reflexivity.
  - rewrite digits_aux_step.
    assert (Hd : is_digit (digit_char (n mod 10)) = true)
      by (apply digit_char_is_digit, Z.mod_pos_bound; lia).
    destruct (n <? 10).
    + cbn [all_digits]. rewrite Hd. reflexivity.
    + rewrite all_digits_app, IH. cbn [all_digits]. rewrite Hd. reflexivity.
Qed.

Lemma digits_aux_value (fuel : nat) :
  forall n, 0 <= n < 2 ^ Z.of_nat fuel -> value (digits_aux fuel n EmptyString) = n.
Proof.
  induction fuel as [| fuel IH]; intros n Hn.
  - change (2 ^ Z.of_nat 0) with 1 in Hn. assert (n = 0) by lia. subst. reflexivity.
  - rewrite digits_aux_step.
    assert (Hm : 0 <= n mod 10 < 10) by (apply Z.mod_pos_bound; lia).
    rewrite Nat2Z.inj_succ, Z.pow_succ_r in Hn by lia.
    destruct (n <? 10) eqn:E.
    + apply Z.ltb_lt in E. unfold value. cbn [value_aux].
      rewrite digit_value_char by assumption.
      rewrite Z.mod_small; lia.
    + apply Z.ltb_ge in E. unfold value. rewrite value_aux_app. cbn [value_aux].
      fold (value (digits_aux fuel (n / 10) EmptyString)).
      rewrite IH
        by (split; [apply Z.div_pos; lia | apply Z.div_lt_upper_bound; lia]).
      rewrite digit_value_char by assumption.
      pose proof (Z.div_mod n 10). lia.
Qed.

Lemma digits_aux_length_pos (fuel : nat) (n : Z) :
  (1 <= String.length (digits_aux (S fuel) n EmptyString))%nat.
Proof.
  rewrite digits_aux_step. destruct (n <? 10); [cbn [String.length]; lia |].
  rewrite length_app. cbn [String.length]. lia.
Qed.

Lemma digits_aux_length_le (fuel : nat) :
  forall n k, 0 <= n < 10 ^ Z.of_nat (S k) ->
  (String.length (digits_aux (S fuel) n EmptyString) <= S k)%nat.
Proof.
  induction fuel as [| fuel IH]; intros n k Hn.
  - rewrite digits_aux_step.
    destruct (n <? 10); cbn [digits_aux append String.length]; lia.
  - rewrite digits_aux_step. destruct (n <? 10) eqn:E; [cbn [String.length]; lia |].
    apply Z.ltb_ge in E. rewrite length_app. cbn [String.length].
    destruct k as [| k].
    + change (10 ^ Z.of_nat 1) with 10 in Hn. lia.
    + assert (0 <= n / 10 < 10 ^ Z.of_nat (S k)).
      { rewrite (Nat2Z.inj_succ (S k)), Z.pow_succ_r in Hn by lia.
        split; [apply Z.div_pos; lia | apply Z.div_lt_upper_bound; lia]. }
      specialize (IH (n / 10) k H). lia.
Qed.

Lemma digits_all_digits (n : Z) : all_digits (digits n) = true.
Proof. apply digits_aux_all_digits. Qed.

Lemma digits_value (n : Z) : 0 <= n -> value (digits n) = n.
Proof.
  intros Hn. apply digits_aux_value.
  rewrite Nat2Z.inj_succ, Z2Nat.id by apply Z.log2_nonneg.
  destruct (Z.eq_dec n 0) as [-> | Hz]; [simpl; lia |].
  split; [lia | apply Z.log2_spec; lia].
Qed.

Lemma digits_length_pos (n : Z) : (1 <= String.length (digits n))%nat.
Proof. apply digits_aux_length_pos. Qed.

Lemma digits_length_le (n : Z) (k : nat) :
  0 <= n < 10 ^ Z.of_nat (S k) -> (String.length (digits n) <= S k)%nat.
Proof. apply digits_aux_length_le. Qed.


Lemma is_digit_not_sign (c : ascii) :
  is_digit c = true -> (Ascii.eqb c "+" || Ascii.eqb c "-")%bool = false.
Proof.
  intros H.
  destruct (Ascii.eqb_spec c "+") as [-> | _]; [discriminate H |].
  destruct (Ascii.eqb_spec c "-") as [-> | _]; [discriminate H | reflexivity].
Qed.

Lemma zfill_digits (width : nat) (n : Z) :
  0 <= n ->
  zfill width (str n) = (zeros (width - String.length (digits n)) ++ digits n)%string.
Proof.
  intros Hn. unfold str.
  destruct (n <? 0) eqn:E; [apply Z.ltb_lt in E; lia |].
  unfold zfill.
  destruct (width <=? String.length (digits n))%nat eqn:W.
  - apply Nat.leb_le in W.
    replace (width - String.length (digits n))%nat with O by lia. reflexivity.
  - pose proof (digits_all_digits n) as D.
    destruct (digits n) as [| c rest]; [now rewrite append_nil_r |].
    cbn [all_digits] in D. apply andb_true_iff in D as [D _].
    now rewrite (is_digit_not_sign c D).
Qed.

Lemma format_0d_digits (width : nat) (n : Z) :
  0 <= n ->
  format_0d width n = (zeros (width - String.length (digits n)) ++ digits n)%string.
Proof.
  intros Hn. unfold format_0d.
  destruct (n <? 0) eqn:E; [apply Z.ltb_lt in E; lia |].
  rewrite Z.abs_eq by assumption. cbn [String.length append].
  now rewrite Nat.sub_0_r.
Qed.

Lemma zeros_length (k : nat) : String.length (zeros k) = k.
Proof. induction k as [| k IH]; simpl; [reflexivity | now rewrite IH]. Qed.

Lemma zeros_all_digits (k : nat) : all_digits (zeros k) = true.
Proof. induction k as [| k IH]; [reflexivity | exact IH]. Qed.

Lemma zeros_value (k : nat) : forall a, value_aux (zeros k) a = 10 ^ Z.of_nat k * a.
Proof.
  induction k as [| k IH]; intros a.
  - simpl. rewrite Z.pow_0_r. lia.
  - cbn [zeros value_aux]. rewrite IH.
    rewrite Nat2Z.inj_succ, Z.pow_succ_r by lia.
    change (digit_value "0") with 0. lia.
Qed.

(** ** The substring test *)

Lemma prefix_nil (s : string) : String.prefix EmptyString s = true.
Proof. destruct s; reflexivity. Qed.

Lemma prefix_app (a b : string) : String.prefix a (a ++ b) = true.
Proof.
  induction a as [| c a IH]; simpl; [apply prefix_nil |].
  destruct (ascii_dec c c); [exact IH | congruence].
Qed.

Lemma prefix_inv (a : string) :
  forall h, String.prefix a h = true -> exists b, h = (a ++ b)%string.
Proof.
  induction a as [| c a IH]; intros h H.
  - exists h. reflexivity.
  - destruct h as [| d h]; simpl in H; [discriminate |].
    destruct (ascii_dec c d) as [-> | _]; [| discriminate].
    destruct (IH h H) as [b ->]. exists b. reflexivity.
Qed.

Lemma contains_spec (needle hay : string) :
  contains needle hay = true <->
  exists a b, hay = (a ++ needle ++ b)%string.
Proof.
  induction hay as [| c hay IH].
  - cbn [contains]. rewrite orb_false_r. split.
    + intros H. destruct (prefix_inv _ _ H) as [b Hb].
      exists EmptyString, b. exact Hb.
    + intros [a [b H]]. destruct a as [| ? ?]; [| discriminate H].
      simpl in H. rewrite H. apply prefix_app.
  - cbn [contains]. rewrite orb_true_iff, IH. split.
    + intros [H | [a [b H]]].
      * destruct (prefix_inv _ _ H) as [b Hb]. exists EmptyString, b. exact Hb.
      * exists (String c a), b. simpl. now rewrite H.
    + intros [a [b H]]. destruct a as [| d a].
      * left. simpl in H. rewrite H. apply prefix_app.
      * right. simpl in H. injection H as _ H. exists a, b. exact H.
Qed.

Lemma prefix_sep_cons (c : ascii) (s : string) :
  String.prefix "/" (String c s) = Ascii.eqb c "/".
Proof.
  change (String.prefix "/" (String c s)) with
    (if ascii_dec "/" c then String.prefix EmptyString s else false).
  destruct (ascii_dec "/" c) as [<- | N].
  - apply prefix_nil.
  - symmetry. apply Ascii.eqb_neq. congruence.
Qed.

Lemma contains_sep_cons (c : ascii) (s : string) :
  contains "/" (String c s) = (Ascii.eqb c "/" || contains "/" s)%bool.
Proof. cbn [contains]. now rewrite prefix_sep_cons. Qed.

Lemma contains_sep_app (a b : string) :
  contains "/" (a ++ b) = (contains "/" a || contains "/" b)%bool.
Proof.
  induction a as [| c a IH].
  - reflexivity.
  - cbn [append]. rewrite !contains_sep_cons, IH. apply orb_assoc.
Qed.

Lemma all_digits_no_sep (s : string) :
  all_digits s = true -> contains "/" s = false.
Proof.
  induction s as [| c s IH]; intros H; [reflexivity |].
  cbn [all_digits] in H. apply andb_true_iff in H as [Hc Hs].
  rewrite contains_sep_cons, (IH Hs), orb_false_r.
  destruct (Ascii.eqb_spec c "/") as [-> | _]; [discriminate Hc | reflexivity].
Qed.

Lemma contains_sep_prefix (s : string) :
  contains "/" s = false -> String.prefix "/" s = false.
Proof.
  destruct s as [| c s]; [reflexivity |].
  rewrite contains_sep_cons, prefix_sep_cons. intros H.
  now apply orb_false_iff in H.
Qed.


(** ** Order of strings and sorting *)

Lemma ascii_compare_refl (c : ascii) : Ascii.compare c c = Eq.
Proof. unfold Ascii.compare. apply N.compare_refl. Qed.

Lemma ascii_compare_lt_trans (a b c : ascii) :
  Ascii.compare a b = Lt -> Ascii.compare b c = Lt -> Ascii.compare a c = Lt.
Proof.
  unfold Ascii.compare. rewrite !N.compare_lt_iff. lia.
Qed.

Lemma string_compare_refl (s : string) : String.compare s s = Eq.
Proof.
  induction s as [| c s IH]; cbn [String.compare]; [reflexivity |].
  now rewrite ascii_compare_refl.
Qed.

Lemma string_compare_lt_trans (a : string) :
  forall b c, String.compare a b = Lt -> String.compare b c = Lt ->
  String.compare a c = Lt.
Proof.
  induction a as [| x a IH]; intros [| y b] [| z c]; cbn [String.compare];
    try congruence.
  destruct (Ascii.compare x y) eqn:Exy; try discriminate;
  destruct (Ascii.compare y z) eqn:Eyz; try discriminate; intros H1 H2.
  - apply Ascii.compare_eq_iff in Exy, Eyz. subst.
    rewrite ascii_compare_refl. eapply IH; eassumption.
  - apply Ascii.compare_eq_iff in Exy. subst. now rewrite Eyz.
  - apply Ascii.compare_eq_iff in Eyz. subst. now rewrite Exy.
  - now rewrite (ascii_compare_lt_trans _ _ _ Exy Eyz).
Qed.

Lemma leb_refl (s : string) : String.leb s s = true.
Proof. unfold String.leb. now rewrite string_compare_refl. Qed.

Lemma leb_trans (a b c : string) :
  String.leb a b = true -> String.leb b c = true -> String.leb a c = true.
Proof.
  unfold String.leb.
  destruct (String.compare a b) eqn:Eab; try discriminate;
  destruct (String.compare b c) eqn:Ebc; try discriminate; intros _ _.
  - apply String.compare_eq_iff in Eab, Ebc. subst. now rewrite string_compare_refl.
  - apply String.compare_eq_iff in Eab. subst. now rewrite Ebc.
  - apply String.compare_eq_iff in Ebc. subst. now rewrite Eab.
  - now rewrite (string_compare_lt_trans _ _ _ Eab Ebc).
Qed.

Lemma compare_app (p a b : string) :
  String.compare (p ++ a) (p ++ b) = String.compare a b.
Proof.
  induction p as [| c p IH]; cbn [append String.compare]; [reflexivity |].
  now rewrite ascii_compare_refl.
Qed.

Lemma leb_app (p a b : string) :
  String.leb (p ++ a) (p ++ b) = String.leb a b.
Proof. unfold String.leb. now rewrite compare_app. Qed.

Lemma insert_sorted_perm (x : string) (l : list string) :
  Permutation (insert_sorted x l) (x :: l).
Proof.
  induction l as [| y l IH]; cbn [insert_sorted]; [reflexivity |].
  destruct (String.leb x y); [reflexivity |].
  rewrite IH. apply perm_swap.
Qed.

Lemma sort_perm (l : list string) : Permutation (sort l) l.
Proof.
  induction l as [| x l IH]; cbn [sort]; [reflexivity |].
  rewrite insert_sorted_perm. now constructor.
Qed.

Lemma insert_sorted_ascending (x : string) (l : list string) :
  Spec.ascending l -> Spec.ascending (insert_sorted x l).
Proof.
  unfold Spec.ascending. induction 1 as [| y l Hl IH Hy]; cbn [insert_sorted].
  - repeat constructor.
  - destruct (String.leb x y) eqn:E.
    + constructor; [now constructor |].
      constructor; [exact E |].
      eapply Forall_impl; [| exact Hy].
      intros z Hz. eapply leb_trans; eassumption.
    + constructor; [exact IH |].
      assert (Hyx : String.leb y x = true)
        by (destruct (String.leb_total x y); congruence).
      eapply Permutation_Forall;
        [symmetry; apply insert_sorted_perm | now constructor].
Qed.

Lemma sort_ascending (l : list string) : Spec.ascending (sort l).
Proof.
  induction l as [| x l IH]; cbn [sort]; [constructor |].
  now apply insert_sorted_ascending.
Qed.

(** The first element of the sorted list is a least element of the list. *)
Lemma sort_head_least (l : list string) (x : string) (rest : list string) :
  sort l = x :: rest ->
  In x l /\ forall y, In y l -> String.leb x y = true.
Proof.
  intros E. pose proof (sort_perm l) as P. pose proof (sort_ascending l) as A.
  rewrite E in P, A. split.
  - eapply Permutation_in; [exact P | now left].
  - intros y Hy. apply (Permutation_in _ (Permutation_sym P)) in Hy.
    destruct Hy as [<- | Hy]; [apply leb_refl |].
    inversion A as [| ? ? _ F]; subst.
    rewrite Forall_forall in F. now apply F.
Qed.

Lemma sort_nil_inv (l : list string) : sort l = [] -> l = [].
Proof.
  intros E. pose proof (sort_perm l) as P. rewrite E in P.
  now apply Permutation_nil.
Qed.

(** ** Paths *)

Lemma strip_prefix_app (p s : string) : FS.strip_prefix p (p ++ s) = Some s.
Proof.
  induction p as [| c p IH]; cbn [append FS.strip_prefix]; [reflexivity |].
  now rewrite Ascii.eqb_refl.
Qed.

End PyFacts.

(* ================================================================== *)
(** * Facts about the effects                                           *)
(* ================================================================== *)

Section EffFacts.
Context {St Ev : Type}.
Implicit Types s : St.

Lemma out_eta {A : Type} (r : Eff.out St Ev A) :
  Eff.Out (Eff.trace r) (Eff.final r) (Eff.result r) = r.
Proof. destruct r; reflexivity. Qed.

Lemma bind_inr {A B : Type} (m : Eff.M St Ev A) (k : A -> Eff.M St Ev B) s a :
  Eff.result (m s) = inr a ->
  Eff.bind m k s =
  Eff.Out (Eff.trace (m s) ++ Eff.trace (k a (Eff.final (m s))))
          (Eff.final (k a (Eff.final (m s))))
          (Eff.result (k a (Eff.final (m s)))).
Proof. intros H. unfold Eff.bind. now rewrite H. Qed.

Lemma bind_inl {A B : Type} (m : Eff.M St Ev A) (k : A -> Eff.M St Ev B) s e :
  Eff.result (m s) = inl e ->
  Eff.bind m k s = Eff.Out (Eff.trace (m s)) (Eff.final (m s)) (inl e).
Proof. intros H. unfold Eff.bind. now rewrite H. Qed.

Lemma bind_assoc {A B C : Type} (m : Eff.M St Ev A) (k1 : A -> Eff.M St Ev B)
  (k2 : B -> Eff.M St Ev C) s :
  Eff.bind (Eff.bind m k1) k2 s = Eff.bind m (fun a => Eff.bind (k1 a) k2) s.
Proof.
  unfold Eff.bind.
  destruct (Eff.result (m s)) as [e | a]; cbn [Eff.result Eff.final Eff.trace];
    [reflexivity |].
  destruct (Eff.result (k1 a (Eff.final (m s)))) as [e | b];
    cbn [Eff.result Eff.final Eff.trace]; [reflexivity |].
  now rewrite app_assoc.
Qed.

Lemma bind_ext {A B : Type} (m : Eff.M St Ev A) (k k' : A -> Eff.M St Ev B) s :
  (forall a s', k a s' = k' a s') -> Eff.bind m k s = Eff.bind m k' s.
Proof.
  intros H. unfold Eff.bind. destruct (Eff.result (m s)); [reflexivity |].
  now rewrite H.
Qed.

Lemma for_each_ext {A : Type} (l : list A) (f g : A -> Eff.M St Ev unit) :
  (forall x s, f x s = g x s) -> forall s, Eff.for_each l f s = Eff.for_each l g s.
Proof.
  intros H. induction l as [| x l IH]; intros s; cbn [Eff.for_each];
    [reflexivity |].
  unfold Eff.bind. rewrite H. destruct (Eff.result (g x s)); [reflexivity |].
  now rewrite IH.
Qed.

Lemma for_each_app {A : Type} (l1 l2 : list A) (f : A -> Eff.M St Ev unit) :
  forall s,
  Eff.for_each (l1 ++ l2) f s =
  Eff.bind (Eff.for_each l1 f) (fun _ => Eff.for_each l2 f) s.
Proof.
  induction l1 as [| x l1 IH]; intros s; cbn [Eff.for_each app].
  - unfold Eff.bind, Eff.ret. cbn [Eff.result Eff.final Eff.trace app].
    symmetry. apply out_eta.
  - rewrite bind_assoc. apply bind_ext. intros _ s'. apply IH.
Qed.

Lemma for_each_map {A B : Type} (h : A -> B) (l : list A)
  (f : B -> Eff.M St Ev unit) :
  forall s, Eff.for_each (map h l) f s = Eff.for_each l (fun x => f (h x)) s.
Proof.
  induction l as [| x l IH]; intros s; cbn [Eff.for_each map]; [reflexivity |].
  apply bind_ext. intros _ s'. apply IH.
Qed.

Lemma for_each_flat_map {A B : Type} (g : A -> list B) (l : list A)
  (f : B -> Eff.M St Ev unit) :
  forall s,
  Eff.for_each (flat_map g l) f s =
  Eff.for_each l (fun x => Eff.for_each (g x) f) s.
Proof.
  induction l as [| x l IH]; intros s; cbn [Eff.for_each flat_map];
    [reflexivity |].
  rewrite for_each_app. apply bind_ext. intros _ s'. apply IH.
Qed.

(** One more iteration in front of a loop. *)
Lemma for_each_cons_inr {A : Type} (x : A) (l : list A)
  (f : A -> Eff.M St Ev unit) s :
  Eff.result (f x s) = inr tt ->
  Eff.for_each (x :: l) f s =
  Eff.Out (Eff.trace (f x s) ++ Eff.trace (Eff.for_each l f (Eff.final (f x s))))
          (Eff.final (Eff.for_each l f (Eff.final (f x s))))
          (Eff.result (Eff.for_each l f (Eff.final (f x s)))).
Proof. intros H. cbn [Eff.for_each]. now rewrite (bind_inr _ _ _ _ H). Qed.

Lemma for_each_cons_inl {A : Type} (x : A) (l : list A)
  (f : A -> Eff.M St Ev unit) s e :
  Eff.result (f x s) = inl e ->
  Eff.for_each (x :: l) f s =
  Eff.Out (Eff.trace (f x s)) (Eff.final (f x s)) (inl e).
Proof. intros H. cbn [Eff.for_each]. now rewrite (bind_inl _ _ _ _ H). Qed.

End EffFacts.

(* ================================================================== *)
(** * Facts about finetune.py                                           *)
(* ================================================================== *)

Section NameFacts.
Import Py.

Lemma zeros_no_sep (k : nat) : contains "/" (zeros k) = false.
Proof. apply all_digits_no_sep, zeros_all_digits. Qed.

Lemma digits_no_sep (n : Z) : contains "/" (digits n) = false.
Proof. apply all_digits_no_sep, digits_all_digits. Qed.

Lemma str_no_sep (n : Z) : contains "/" (str n) = false.
Proof.
  unfold str. destruct (n <? 0); [| apply digits_no_sep].
  rewrite contains_sep_cons, digits_no_sep. reflexivity.
Qed.

Lemma zfill_no_sep (width : nat) (s : string) :
  contains "/" s = false -> contains "/" (zfill width s) = false.
Proof.
  intros H. unfold zfill.
  destruct (width <=? String.length s)%nat; [exact H |].
  destruct s as [| c rest]; [apply zeros_no_sep |].
  destruct (Ascii.eqb c "+" || Ascii.eqb c "-")%bool.
  - rewrite contains_sep_cons in *. apply orb_false_iff in H as [Hc Hr].
    now rewrite Hc, contains_sep_app, zeros_no_sep, Hr.
  - now rewrite contains_sep_app, zeros_no_sep, H.
Qed.

Lemma format_0d_no_sep (width : nat) (n : Z) :
  contains "/" (format_0d width n) = false.
Proof.
  unfold format_0d.
  rewrite !contains_sep_app, zeros_no_sep, digits_no_sep.
  now destruct (n <? 0).
Qed.

Lemma format_4f_no_sep (x : pyfloat) : contains "/" (format_4f x) = false.
Proof.
  destruct x as [q | | [|] |]; try reflexivity.
  unfold format_4f, format_4f_finite.
  rewrite !contains_sep_app, digits_no_sep, format_0d_no_sep.
  now destruct (Qnum q <? 0).
Qed.

End NameFacts.

(** Running the effects of a term whose branches are decided. *)
Ltac run_eff :=
  repeat first
    [ progress cbn [Eff.result Eff.final Eff.trace app Finetune.checkpoint
                    Finetune.model Finetune.ckpt_num Finetune.set_checkpoint
                    Finetune.set_model Finetune.set_ckpt_num FS.files_of
                    negb FS.isdir FS.mkdir FS.write_file]
    | progress unfold Eff.bind, Eff.get, Eff.put, Eff.emit, Eff.ret, Eff.raise,
        Finetune.lift ].

Section FinetuneFacts.
Context {backend : Torch.Backend} {training : Finetune.Training}.
Import Finetune.

Lemma checkpoint_path_file (idx : Z) (acc : Py.pyfloat) (cfg : config) :
  checkpoint_path idx acc cfg = ("checkpoint/" ++ checkpoint_file idx acc cfg)%string.
Proof. reflexivity. Qed.

Lemma checkpoint_file_sep (idx : Z) (acc : Py.pyfloat) (cfg : config) :
  Py.contains "/" (checkpoint_file idx acc cfg) = Py.contains "/" (tag cfg).
Proof.
  unfold checkpoint_file.
  rewrite !contains_sep_app, (zfill_no_sep _ _ (str_no_sep idx)),
    format_4f_no_sep, format_0d_no_sep.
  cbn. now rewrite orb_false_r.
Qed.

Lemma append_not_empty (a : string) (c : ascii) (b : string) :
  String.eqb (a ++ String c b) EmptyString = false.
Proof. destruct a; reflexivity. Qed.

Lemma checkpoint_file_not_empty (idx : Z) (acc : Py.pyfloat) (cfg : config) :
  String.eqb (checkpoint_file idx acc cfg) EmptyString = false.
Proof. unfold checkpoint_file. apply append_not_empty. Qed.

(** What one call of [save_checkpoint] does, case by case. *)
Lemma save_checkpoint_run (m : Torch.nn_module) (idx : Z) (acc : Py.pyfloat)
  (cfg : config) (st : machine) :
  save_checkpoint m idx acc cfg st =
  match checkpoint st with
  | FS.NotADirectory => Eff.Out [] st (inl Py.FileExistsError)
  | d =>
      if Py.contains "/" (tag cfg)
      then Eff.Out [] (set_checkpoint (FS.Directory (FS.files_of d)) st)
                   (inl Py.RuntimeError)
      else Eff.Out [Saved (checkpoint_path idx acc cfg) (save_state m);
                    Printed ("Saved: " ++ checkpoint_path idx acc cfg)]
                   (set_checkpoint
                      (FS.Directory
                         (FS.store (checkpoint_file idx acc cfg) (save_state m)
                                   (FS.files_of d))) st)
                   (inr tt)
  end.
Proof.
  unfold save_checkpoint, torch_save, mkdir_checkpoint, print.
  rewrite checkpoint_path_file, strip_prefix_app.
  destruct st as [d mo k].
  destruct d as [| | files]; run_eff; try reflexivity;
    rewrite checkpoint_file_not_empty, checkpoint_file_sep;
    destruct (Py.contains "/" (tag cfg)); run_eff; reflexivity.
Qed.


Lemma save_due_gt (b tb : Z) : save_due b tb = (1 <? b).
Proof.
  unfold save_due, save_interval. rewrite Z.mod_1_r. reflexivity.
Qed.

(** What one iteration of the loop does, case by case. *)
Lemma body_run (cfg : config) (tb : nat) (opt : Torch.optimizer) (j b : Z)
  (st : machine) :
  body cfg tb opt j b st =
  let m := trained opt j b (model st) in
  let k := ckpt_num st in
  if save_due b (Z.of_nat tb) then
    match checkpoint st with
    | FS.NotADirectory =>
        Eff.Out [Step j b] (set_model m st) (inl Py.FileExistsError)
    | d =>
        if Py.contains "/" (tag cfg)
        then Eff.Out [Step j b] (Machine (FS.Directory (FS.files_of d)) m k)
                     (inl Py.RuntimeError)
        else
          let path := checkpoint_path k (Py.Finite (1 # 1)) cfg in
          let d' := FS.Directory
                      (FS.store (checkpoint_file k (Py.Finite (1 # 1)) cfg) (save_state m)
                                (FS.files_of d)) in
          if (k + 1 >=? total_save_number cfg)%Z
          then Eff.Out [Step j b; Saved path (save_state m);
                        Printed ("Saved: " ++ path);
                        Printed "Fine-tuning completed."]
                       (Machine d' m (k + 1)) (inl (Py.SystemExit 0))
          else Eff.Out [Step j b; Saved path (save_state m);
                        Printed ("Saved: " ++ path)]
                       (Machine d' m (k + 1)) (inr tt)
    end
  else
    if (k >=? total_save_number cfg)%Z
    then Eff.Out [Step j b; Printed "Fine-tuning completed."]
                 (set_model m st) (inl (Py.SystemExit 0))
    else Eff.Out [Step j b] (set_model m st) (inr tt).
Proof.
  cbv zeta. unfold body, train_step, print.
  destruct (save_due b (Z.of_nat tb)).
  - destruct st as [d mo k]. run_eff. rewrite save_checkpoint_run.
    destruct d as [| | files]; run_eff; try reflexivity;
      destruct (Py.contains "/" (tag cfg)); run_eff; try reflexivity;
      destruct (k + 1 >=? total_save_number cfg)%Z; run_eff; reflexivity.
  - destruct st as [d mo k]. run_eff.
    destruct (k >=? total_save_number cfg)%Z; run_eff; reflexivity.
Qed.


Lemma loop_cons (cfg : config) (tb : nat) (opt : Torch.optimizer) (j b : Z)
  (its : list (Z * Z)) (st : machine) :
  loop cfg tb opt ((j, b) :: its) st =
  Eff.bind (body cfg tb opt j b) (fun _ => loop cfg tb opt its) st.
Proof. reflexivity. Qed.

(** The two nested [for] loops run the body over the schedule. *)
Lemma main_loop (cfg : config) (tb : nat) (opt : Torch.optimizer) (st : machine) :
  main cfg tb opt st = loop cfg tb opt (schedule 6 tb) (set_ckpt_num 0 st).
Proof.
  unfold main, loop, schedule.
  rewrite for_each_flat_map.
  unfold Eff.bind at 1 2. unfold Eff.get, Eff.put.
  cbn [Eff.result Eff.final Eff.trace app].
  rewrite out_eta.
  apply for_each_ext. intros j s. now rewrite for_each_map.
Qed.

Lemma loop_shape (cfg : config) (tb : nat) (opt : Torch.optimizer)
  (its : list (Z * Z)) :
  forall st,
  shape cfg tb (ckpt_num st) its
        (Eff.trace (loop cfg tb opt its st)) (Eff.result (loop cfg tb opt its st)).
Proof.
  induction its as [| [j b] its IH]; intros st.
  - constructor.
  - rewrite loop_cons. unfold Eff.bind. rewrite body_run. cbv zeta.
    destruct (save_due b (Z.of_nat tb)) eqn:Due.
    + destruct (checkpoint st) as [| | files] eqn:D;
        [ | run_eff; constructor; [exact Due | now left] | ];
        (destruct (Py.contains "/" (tag cfg));
         [ run_eff; constructor; [exact Due | now right] | ];
         destruct (ckpt_num st + 1 >=? total_save_number cfg) eqn:Q; run_eff;
         [ now constructor
         | constructor; [exact Due | exact Q |];
           match goal with
           | |- context [loop cfg tb opt its ?s] => exact (IH s)
           end ]).
    + destruct (ckpt_num st >=? total_save_number cfg) eqn:Q; run_eff.
      * now constructor.
      * constructor; [exact Due | exact Q |].
        match goal with
        | |- context [loop cfg tb opt its ?s] => exact (IH s)
        end.
Qed.

(** With a free or existing directory and a tag without separator no save
    fails: the run ends by itself or by [exit(0)]. *)
Lemma loop_writable (cfg : config) (tb : nat) (opt : Torch.optimizer)
  (its : list (Z * Z)) :
  forall st, writable cfg (checkpoint st) = true ->
  Eff.result (loop cfg tb opt its st) = inr tt \/
  Eff.result (loop cfg tb opt its st) = inl (Py.SystemExit 0).
Proof.
  induction its as [| [j b] its IH]; intros st W.
  - now left.
  - rewrite loop_cons. unfold Eff.bind. rewrite body_run. cbv zeta.
    assert (T : Py.contains "/" (tag cfg) = false).
    { unfold writable in W. destruct (checkpoint st);
        try discriminate W; now apply negb_true_iff in W. }
    rewrite T.
    destruct (save_due b (Z.of_nat tb)).
    + destruct (checkpoint st) as [| | files] eqn:D;
        [ | discriminate W | ];
        (destruct (ckpt_num st + 1 >=? total_save_number cfg); run_eff;
         [ now right | apply IH; cbn; now rewrite T ]).
    + destruct (ckpt_num st >=? total_save_number cfg); run_eff;
        [ now right | apply IH; exact W ].
Qed.

(** A property of the model that every step keeps holds at the end. *)
Lemma loop_model (cfg : config) (tb : nat) (opt : Torch.optimizer)
  (P : Torch.nn_module -> Prop) :
  (forall j b m, P m -> P (trained opt j b m)) ->
  forall its st, P (model st) -> P (model (Eff.final (loop cfg tb opt its st))).
Proof.
  intros Step. induction its as [| [j b] its IH]; intros st H.
  - exact H.
  - rewrite loop_cons. unfold Eff.bind. rewrite body_run. cbv zeta.
    specialize (Step j b _ H).
    destruct (save_due b (Z.of_nat tb)).
    + destruct (checkpoint st) as [| | files]; [ | run_eff; exact Step | ];
        (destruct (Py.contains "/" (tag cfg)); [ run_eff; exact Step |];
         destruct (ckpt_num st + 1 >=? total_save_number cfg); run_eff;
         [ exact Step | apply IH; exact Step ]).
    + destruct (ckpt_num st >=? total_save_number cfg); run_eff;
        [ exact Step | apply IH; exact Step ].
Qed.

End FinetuneFacts.

(** ** The events of a run *)

Lemma geb_false (a b : Z) : (a >=? b) = false -> a < b.
Proof. rewrite Z.geb_leb. apply Z.leb_gt. Qed.

Lemma geb_true (a b : Z) : (a >=? b) = true -> b <= a.
Proof. rewrite Z.geb_leb. apply Z.leb_le. Qed.

(** Splitting a trace at one of its events. *)
Ltac peel :=
  match goal with
  | H : _ :: _ = ?pre ++ _ :: _ |- _ =>
      destruct pre as [| ? pre]; cbn [app] in H; inversion H; subst; clear H
  | H : [] = ?pre ++ _ :: _ |- _ => destruct pre; discriminate H
  end.

Section ShapeFacts.
Context {backend : Torch.Backend}.
Import Finetune.
Variable cfg : config.
Variable tb : nat.

#[local] Abbreviation quota := (total_save_number cfg).
#[local] Abbreviation path k := (checkpoint_path k (Py.Finite (1 # 1)) cfg).
#[local] Abbreviation done := (Printed "Fine-tuning completed.").

Lemma save_due_true (b : Z) : save_due b (Z.of_nat tb) = true -> 1 < b.
Proof. rewrite save_due_gt. apply Z.ltb_lt. Qed.

Lemma save_due_false (b : Z) : save_due b (Z.of_nat tb) = false -> b <= 1.
Proof. rewrite save_due_gt. apply Z.ltb_ge. Qed.

Lemma shape_head k its t r :
  shape cfg tb k its t r -> t = [] \/ exists j b t', t = Step j b :: t'.
Proof. destruct 1; [now left | right; eauto ..]. Qed.

Lemma shape_count k its t r :
  shape cfg tb k its t r ->
  k < quota \/ head_small its ->
  Z.of_nat (count_saved t) <= Z.max 0 (quota - k).
Proof.
  unfold count_saved.
  induction 1 as [k | k j b its t r Due Q _ IH | k j b its Due Q
                 | k j b its obj t r Due Q _ IH | k j b its obj Due Q
                 | k j b its e Due E]; intros I; cbn [saved_paths List.length].
  - lia.
  - apply geb_false in Q. specialize (IH (or_introl Q)). lia.
  - lia.
  - apply geb_false in Q. specialize (IH (or_introl Q)). lia.
  - apply save_due_true in Due. destruct I as [I | I]; cbn in I; lia.
  - lia.
Qed.

Lemma shape_paths k its t r :
  shape cfg tb k its t r ->
  saved_paths t =
  map (fun n => path (k + Z.of_nat n)) (seq 0 (count_saved t)).
Proof.
  unfold count_saved.
  induction 1 as [k | k j b its t r Due Q _ IH | k j b its Due Q
                 | k j b its obj t r Due Q _ IH | k j b its obj Due Q
                 | k j b its e Due E]; cbn [saved_paths List.length seq map];
    try reflexivity; try exact IH.
  - rewrite Z.add_0_r. f_equal. rewrite IH at 1.
    rewrite <- seq_shift, map_map. apply map_ext. intros n.
    f_equal. lia.
  - now rewrite Z.add_0_r.
Qed.

Lemma shape_stop k its t r :
  shape cfg tb k its t r ->
  k < quota \/ head_small its ->
  forall pre p o post,
  t = pre ++ Saved p o :: post ->
  quota <= k + Z.of_nat (count_saved pre) + 1 ->
  post = [Printed ("Saved: " ++ p); done] /\ r = inl (Py.SystemExit 0).
Proof.
  unfold count_saved.
  induction 1 as [k | k j b its t r Due Q _ IH | k j b its Due Q
                 | k j b its obj t r Due Q _ IH | k j b its obj Due Q
                 | k j b its e Due E]; intros I pre p o post H C.
  - peel.
  - peel. apply geb_false in Q.
    apply (IH (or_introl Q) pre p o post eq_refl).
    cbn [saved_paths List.length] in C. exact C.
  - repeat peel.
  - apply geb_false in Q. peel. peel.
    + cbn [saved_paths List.length] in C. lia.
    + peel. apply (IH (or_introl Q) pre p o post eq_refl).
      cbn [saved_paths List.length] in C. lia.
  - peel. peel; [now split |]. repeat peel.
  - repeat peel.
Qed.

Lemma shape_steps k its t r :
  shape cfg tb k its t r ->
  (exists n, steps t = firstn n its) /\
  (r = inr tt -> steps t = its) /\
  (forall c, r = inl (Py.SystemExit c) ->
             c = 0 /\ quota <= k + Z.of_nat (count_saved t)).
Proof.
  unfold count_saved.
  induction 1 as [k | k j b its t r Due Q _ IH | k j b its Due Q
                 | k j b its obj t r Due Q _ IH | k j b its obj Due Q
                 | k j b its e Due E]; cbn [steps saved_paths List.length].
  - split; [now exists O |]. split; [reflexivity | discriminate].
  - destruct IH as [[n Hn] [Hr Hc]]. split; [| split].
    + exists (S n). cbn [firstn]. now rewrite Hn.
    + intros E. now rewrite (Hr E).
    + exact Hc.
  - apply geb_true in Q. split; [now exists 1%nat |].
    split; [discriminate |]. intros c E. injection E as <-. lia.
  - destruct IH as [[n Hn] [Hr Hc]]. split; [| split].
    + exists (S n). cbn [firstn]. now rewrite Hn.
    + intros E. now rewrite (Hr E).
    + intros c E. destruct (Hc c E). lia.
  - apply geb_true in Q. split; [now exists 1%nat |].
    split; [discriminate |]. intros c E. injection E as <-. lia.
  - split; [now exists 1%nat |]. split; [discriminate |].
    intros c E'. destruct E as [-> | ->]; discriminate E'.
Qed.

Lemma shape_no_save_after k its t r :
  shape cfg tb k its t r ->
  forall pre j b post,
  t = pre ++ Step j b :: post -> b <= 1 ->
  forall p o post', post <> Saved p o :: post'.
Proof.
  induction 1 as [k | k j0 b0 its t r Due Q Sh IH | k j0 b0 its Due Q
                 | k j0 b0 its obj t r Due Q Sh IH | k j0 b0 its obj Due Q
                 | k j0 b0 its e Due E]; intros pre j b post H B p o post'.
  - peel.
  - peel.
    + destruct (shape_head _ _ _ _ Sh) as [-> | [j' [b' [t' ->]]]]; discriminate.
    + now apply (IH pre j b post eq_refl).
  - peel; [discriminate |]. repeat peel.
  - apply save_due_true in Due. peel; [lia |]. peel. peel.
    now apply (IH pre j b post eq_refl).
  - apply save_due_true in Due. peel; [lia |]. repeat peel.
  - apply save_due_true in Due. peel; [lia |]. repeat peel.
Qed.

Lemma shape_save_after k its t r :
  shape cfg tb k its t r ->
  r = inr tt \/ r = inl (Py.SystemExit 0) ->
  forall pre j b post,
  t = pre ++ Step j b :: post -> 1 < b ->
  exists o post',
    post = Saved (path (k + Z.of_nat (count_saved pre))) o :: post'.
Proof.
  unfold count_saved.
  induction 1 as [k | k j0 b0 its t r Due Q Sh IH | k j0 b0 its Due Q
                 | k j0 b0 its obj t r Due Q Sh IH | k j0 b0 its obj Due Q
                 | k j0 b0 its e Due E]; intros R pre j b post H B.
  - peel.
  - apply save_due_false in Due. peel; [lia |].
    cbn [saved_paths List.length]. now apply (IH R pre j b post eq_refl).
  - apply save_due_false in Due. peel; [lia |]. repeat peel.
  - peel.
    + cbn [saved_paths List.length]. rewrite Z.add_0_r. eauto.
    + peel. peel. cbn [saved_paths List.length].
      destruct (IH R pre j b post eq_refl B) as [o' [post' ->]].
      exists o', post'. do 3 f_equal. lia.
  - peel.
    + cbn [saved_paths List.length]. rewrite Z.add_0_r. eauto.
    + repeat peel.
  - destruct R as [R | R], E as [-> | ->]; discriminate R.
Qed.

End ShapeFacts.

(** ** Directories *)

Section FSFacts.
Context {file : Type}.

Lemma lookup_store_eq (name : string) (f : file) (files : list (string * file)) :
  FS.lookup name (FS.store name f files) = Some f.
Proof.
  induction files as [| [n g] files IH]; cbn [FS.store FS.lookup].
  - now rewrite String.eqb_refl.
  - destruct (String.eqb n name) eqn:E; cbn [FS.lookup]; now rewrite E.
Qed.

Lemma lookup_store_ne (name other : string) (f : file)
  (files : list (string * file)) :
  name <> other ->
  FS.lookup other (FS.store name f files) = FS.lookup other files.
Proof.
  intros N. induction files as [| [n g] files IH]; cbn [FS.store FS.lookup].
  - apply String.eqb_neq in N. now rewrite N.
  - destruct (String.eqb n name) eqn:E; cbn [FS.lookup].
    + apply String.eqb_eq in E. subst n.
      apply String.eqb_neq in N. now rewrite N.
    + now rewrite IH.
Qed.

Lemma lookup_in (name : string) (files : list (string * file)) :
  In name (map fst files) -> exists f, FS.lookup name files = Some f.
Proof.
  induction files as [| [n g] files IH]; cbn [map fst In FS.lookup]; [easy |].
  intros [-> | H].
  - rewrite String.eqb_refl. eauto.
  - destruct (String.eqb n name); eauto.
Qed.

End FSFacts.

(** ** The last two normalisation layers *)

Lemma any_norm_in_spec (name : string) :
  Finetune.any_norm_in name = true <->
  exists norm a b,
    In norm Finetune.last_two_norms /\ name = (a ++ norm ++ b)%string.
Proof.
  unfold Finetune.any_norm_in. rewrite existsb_exists. split.
  - intros [norm [Hin H]]. apply contains_spec in H as [a [b H]].
    exists norm, a, b. now split.
  - intros [norm [a [b [Hin H]]]]. exists norm. split; [exact Hin |].
    apply contains_spec. eauto.
Qed.

Section TorchFacts.
Context {backend : Torch.Backend}.
Import Torch.

Lemma select_trainable_model (m : nn_module) :
  forall i, fst (Finetune.select_trainable i m) = map Finetune.flagged m.
Proof.
  induction m as [| e m IH]; intros i; cbn [Finetune.select_trainable map];
    [reflexivity |].
  specialize (IH (S i)).
  destruct (Finetune.select_trainable (S i) m) as [rest tr]. cbn [fst] in IH.
  unfold Finetune.flagged at 1.
  destruct (is_parameter e); [| cbn [fst]; now rewrite IH].
  destruct (Finetune.any_norm_in (e_name e)); cbn [fst]; now rewrite IH.
Qed.

Lemma select_trainable_params (m : nn_module) :
  forall i p,
  In p (snd (Finetune.select_trainable i m)) <->
  exists n e, p = (i + n)%nat /\ nth_error m n = Some e /\
              is_parameter e = true /\ Finetune.any_norm_in (e_name e) = true.
Proof.
  induction m as [| e m IH]; intros i p; cbn [Finetune.select_trainable].
  - cbn [snd In]. split; [easy |].
    intros [n [e [_ [H _]]]]. destruct n; discriminate H.
  - specialize (IH (S i) p).
    destruct (Finetune.select_trainable (S i) m) as [rest tr]. cbn [snd] in IH.
    assert (Tail : In p tr <->
                   exists n e0, p = (i + S n)%nat /\ nth_error m n = Some e0 /\
                     is_parameter e0 = true /\
                     Finetune.any_norm_in (e_name e0) = true).
    { rewrite IH. split; intros [n [e0 [-> H]]]; exists n, e0;
        (split; [lia | exact H]). }
    clear IH.
    destruct (is_parameter e) eqn:P;
      [destruct (Finetune.any_norm_in (e_name e)) eqn:A |]; cbn [snd In];
      rewrite ?Tail; split.
    + intros [<- | [n [e0 [-> H]]]].
      * exists O, e. rewrite Nat.add_0_r. now repeat split.
      * exists (S n), e0. now split.
    + intros [[| n] [e0 [-> [H1 H2]]]].
      * left. now rewrite Nat.add_0_r.
      * right. exists n, e0. now split.
    + intros [n [e0 [-> H]]]. exists (S n), e0. now split.
    + intros [[| n] [e0 [-> [H1 [H2 H3]]]]].
      * cbn in H1. injection H1 as <-. congruence.
      * exists n, e0. now repeat split.
    + intros [n [e0 [-> H]]]. exists (S n), e0. now split.
    + intros [[| n] [e0 [-> [H1 [H2 H3]]]]].
      * cbn in H1. injection H1 as <-. congruence.
      * exists n, e0. now repeat split.
Qed.

Lemma step_from_nth (upd : nat -> tensor -> tensor) (opt : optimizer)
  (m : nn_module) :
  forall i n e, nth_error m n = Some e ->
  nth_error (step_from i upd opt m) n =
  Some (if (existsb (Nat.eqb (i + n)) (params opt) && requires_grad e)%bool
        then set_value (upd (i + n)%nat (e_value e)) e else e).
Proof.
  induction m as [| e0 m IH]; intros i n e H; [destruct n; discriminate H |].
  destruct n as [| n]; cbn [step_from nth_error] in *.
  - injection H as <-. now rewrite Nat.add_0_r.
  - rewrite (IH (S i) n e H). now rewrite Nat.add_succ_r.
Qed.

Lemma buffers_from_nth (stat : nat -> tensor -> tensor) (m : nn_module) :
  forall i n e, nth_error m n = Some e ->
  nth_error (buffers_from i stat m) n =
  Some (if is_parameter e then e else set_value (stat (i + n)%nat (e_value e)) e).
Proof.
  induction m as [| e0 m IH]; intros i n e H; [destruct n; discriminate H |].
  destruct n as [| n]; cbn [buffers_from nth_error] in *.
  - injection H as <-. now rewrite Nat.add_0_r.
  - rewrite (IH (S i) n e H). now rewrite Nat.add_succ_r.
Qed.

(** A step leaves alone a parameter the optimizer does not hold. *)
Lemma optimizer_step_frame (upd : nat -> tensor -> tensor) (opt : optimizer)
  (m : nn_module) (n : nat) (e : entry) :
  nth_error m n = Some e -> ~ In n (params opt) ->
  nth_error (optimizer_step upd opt m) n = Some e.
Proof.
  intros H N. unfold optimizer_step. rewrite (step_from_nth _ _ _ _ _ _ H).
  cbn [Nat.add].
  destruct (existsb (Nat.eqb n) (params opt)) eqn:E; [| reflexivity].
  apply existsb_exists in E as [x [Hx Ex]]. apply Nat.eqb_eq in Ex. now subst.
Qed.

Lemma forward_train_frame (stat : nat -> tensor -> tensor) (m : nn_module)
  (n : nat) (e : entry) :
  nth_error m n = Some e -> is_parameter e = true ->
  nth_error (forward_train stat m) n = Some e.
Proof.
  intros H P. unfold forward_train. rewrite (buffers_from_nth _ _ _ _ _ H).
  now rewrite P.
Qed.

(** ** The saved dictionary *)

Lemma save_state_keys (m : nn_module) :
  map fst (Finetune.save_state m) =
  filter Finetune.any_norm_in (map fst (state_dict m)).
Proof.
  unfold Finetune.save_state. rewrite map_map. cbn [fst].
  induction (state_dict m) as [| [k v] l IH]; cbn [filter map fst];
    [reflexivity |].
  destruct (Finetune.any_norm_in k); cbn [map fst]; now rewrite IH.
Qed.

Lemma save_state_in (m : nn_module) (key : string) (v : tensor) :
  In (key, v) (Finetune.save_state m) <->
  Finetune.any_norm_in key = true /\
  exists v0, In (key, v0) (state_dict m) /\ v = to Float32 (cpu v0).
Proof.
  unfold Finetune.save_state. rewrite in_map_iff. split.
  - intros [[k v0] [E H]]. cbn [fst snd] in E. injection E as -> <-.
    apply filter_In in H as [H A]. cbn [fst] in A. eauto.
  - intros [A [v0 [H ->]]]. exists (key, v0). split; [reflexivity |].
    apply filter_In. now split.
Qed.

Lemma save_state_cpu_float32 (m : nn_module) :
  Forall (fun kv => t_device (snd kv) = CPU /\ t_dtype (snd kv) = Float32)
         (Finetune.save_state m).
Proof.
  unfold Finetune.save_state. apply Forall_map, Forall_forall.
  intros kv _. now split.
Qed.

End TorchFacts.

(** ** Whole runs *)

Section RunFacts.
Context {backend : Torch.Backend} {training : Finetune.Training}.
Import Finetune.

Lemma save_checkpoint_written (m : Torch.nn_module) (idx : Z) (acc : Py.pyfloat)
  (cfg : config) (st : machine) (p : string) (obj : saved) :
  In (Saved p obj) (Eff.trace (save_checkpoint m idx acc cfg st)) ->
  p = checkpoint_path idx acc cfg /\ obj = save_state m.
Proof.
  rewrite save_checkpoint_run.
  destruct (checkpoint st); [| intros [] |];
    (destruct (Py.contains "/" (tag cfg)); cbn [Eff.trace In];
     [ intros []
     | intros [E | [E | []]]; [injection E as <- <-; now split | discriminate E] ]).
Qed.

(** Every object the loop saves is the [save_state] of some model. *)
Lemma loop_saved (cfg : config) (tb : nat) (opt : Torch.optimizer)
  (its : list (Z * Z)) :
  forall st p obj,
  In (Saved p obj) (Eff.trace (loop cfg tb opt its st)) ->
  exists m, obj = save_state m.
Proof.
  induction its as [| [j b] its IH]; intros st p obj; [intros [] |].
  rewrite loop_cons. unfold Eff.bind. rewrite body_run. cbv zeta.
  destruct (save_due b (Z.of_nat tb)).
  - destruct (checkpoint st) as [| | files];
      [ | run_eff; intros [E | []]; discriminate E | ];
      (destruct (Py.contains "/" (tag cfg));
       [ run_eff; intros [E | []]; discriminate E |];
       destruct (ckpt_num st + 1 >=? total_save_number cfg); run_eff;
       [ intros [E | [E | [E | [E | []]]]]; try discriminate E;
         injection E as _ <-; eauto
       | intros [E | [E | [E | H]]]; try discriminate E;
         [ injection E as _ <-; eauto | now apply IH in H ] ]).
  - destruct (ckpt_num st >=? total_save_number cfg); run_eff.
    + intros [E | [E | []]]; discriminate E.
    + intros [E | H]; [discriminate E | now apply IH in H].
Qed.

Lemma script_loop (cfg : config) (tb : nat) (pretrained : Torch.nn_module)
  (dir : FS.slot saved) :
  script cfg tb pretrained dir =
  loop cfg tb
    (Torch.Optimizer (snd (select_trainable 0 pretrained))
                     (learning_rate cfg) (weight_decay cfg))
    (schedule 6 tb)
    (Machine dir (map flagged pretrained) 0).
Proof.
  unfold script, get_optimizer_and_scheduler.
  rewrite <- (select_trainable_model pretrained 0).
  destruct (select_trainable 0 pretrained) as [m' tr]. cbn [fst snd].
  now rewrite main_loop.
Qed.

(** Every object a run saves is a filtered and converted state dictionary:
    its keys contain one of the four names and its tensors are on the CPU
    with element type float32. *)
Lemma script_saved (cfg : config) (tb : nat) (pretrained : Torch.nn_module)
  (dir : FS.slot saved) (p : string) (obj : saved) :
  In (Saved p obj) (Eff.trace (script cfg tb pretrained dir)) ->
  Forall (fun kv => any_norm_in (fst kv) = true /\
                    Torch.t_device (snd kv) = Torch.CPU /\
                    Torch.t_dtype (snd kv) = Torch.Float32) obj.
Proof.
  rewrite script_loop. intros H. apply loop_saved in H as [m ->].
  apply Forall_forall. intros [key v] I.
  apply save_state_in in I as [A [v0 [_ ->]]]. cbn [fst snd]. now split.
Qed.

Lemma schedule_no_batches (passes : nat) : schedule passes 0 = [].
Proof.
  unfold schedule. induction (Py.range passes) as [| j l IH];
    [reflexivity | exact IH].
Qed.

Lemma schedule_head_small (passes tb : nat) : head_small (schedule passes tb).
Proof.
  destruct tb as [| tb]; [now rewrite schedule_no_batches |].
  destruct passes as [| passes]; [exact I |].
  unfold schedule, Py.range. cbn [seq map flat_map app head_small]. lia.
Qed.

End RunFacts.

(** ** The file name in the words of the specification *)

Lemma zero_padded_length (k : nat) (n : Z) :
  0 <= n < 10 ^ Z.of_nat (S k) ->
  String.length (Spec.zero_padded (S k) n) = S k.
Proof.
  intros H. unfold Spec.zero_padded.
  rewrite length_app, zeros_length.
  pose proof (digits_length_le n k H). lia.
Qed.

Lemma zero_padded_all_digits (width : nat) (n : Z) :
  Py.all_digits (Spec.zero_padded width n) = true.
Proof.
  unfold Spec.zero_padded.
  now rewrite all_digits_app, zeros_all_digits, digits_all_digits.
Qed.

Lemma zero_padded_value (width : nat) (n : Z) :
  0 <= n -> Py.value (Spec.zero_padded width n) = n.
Proof.
  intros H. unfold Spec.zero_padded, Py.value.
  rewrite value_aux_app, zeros_value, Z.mul_0_r.
  now apply digits_value.
Qed.

Lemma round_half_even_near (n : Z) (d : positive) :
  2 * Z.abs (Py.round_half_even n d * Zpos d - n) <= Zpos d.
Proof.
  unfold Py.round_half_even.
  pose proof (Z.div_mod n (Zpos d) ltac:(lia)) as E.
  pose proof (Z.mod_pos_bound n (Zpos d) ltac:(lia)) as B.
  revert E B. generalize (n / Zpos d) (n mod Zpos d). intros q r E B.
  assert (Down : q * Zpos d - n = - r) by (rewrite E; ring).
  assert (Up : (q + 1) * Zpos d - n = Zpos d - r) by (rewrite E; ring).
  destruct (2 * r ?= Zpos d) eqn:C.
  - apply Z.compare_eq in C.
    destruct (Z.even q); [rewrite Down | rewrite Up]; clear E Down Up; lia.
  - rewrite Z.compare_lt_iff in C. rewrite Down. clear E Down Up. lia.
  - rewrite Z.compare_gt_iff in C. rewrite Up. clear E Down Up. lia.
Qed.

(** What [format(x, ".4f")] prints for a finite number. *)
Lemma format_4f_shape (x : Q) :
  Py.format_4f (Py.Finite x) =
  ((if (Qnum x <? 0)%Z then "-" else EmptyString) ++
   Py.digits
     (Py.round_half_even (Z.abs (Qnum x) * 10000) (Qden x) / 10000) ++ "." ++
   Spec.zero_padded 4
     (Py.round_half_even (Z.abs (Qnum x) * 10000) (Qden x) mod 10000))%string.
Proof.
  unfold Py.format_4f, Py.format_4f_finite. cbv zeta.
  rewrite format_0d_digits by (apply Z.mod_pos_bound; lia).
  reflexivity.
Qed.

Section Claims.
Context {backend : Torch.Backend} {training : Finetune.Training}.
Import Finetune.

Lemma checkpoint_path_spec (idx : Z) (acc : Py.pyfloat) (cfg : config) :
  0 <= idx -> 0 <= seed cfg ->
  checkpoint_path idx acc cfg =
  ("checkpoint/" ++
   Spec.checkpoint_name idx (Py.format_4f acc) (seed cfg) (tag cfg))%string.
Proof.
  intros Hi Hs. unfold checkpoint_path, Spec.checkpoint_name, Spec.zero_padded.
  rewrite zfill_digits, format_0d_digits by assumption.
  now rewrite !append_assoc.
Qed.

Lemma script_shape (cfg : config) (tb : nat) (pretrained : Torch.nn_module)
  (dir : FS.slot saved) :
  shape cfg tb 0 (schedule 6 tb)
        (Eff.trace (script cfg tb pretrained dir))
        (Eff.result (script cfg tb pretrained dir)).
Proof. rewrite script_loop. apply (loop_shape cfg tb _ _ (Machine dir _ 0)). Qed.

Lemma script_writable (cfg : config) (tb : nat) (pretrained : Torch.nn_module)
  (dir : FS.slot saved) :
  writable cfg dir = true ->
  Eff.result (script cfg tb pretrained dir) = inr tt \/
  Eff.result (script cfg tb pretrained dir) = inl (Py.SystemExit 0).
Proof. intros W. rewrite script_loop. now apply loop_writable. Qed.

(** C1 (amended). The number of checkpoints a run saves never exceeds
    [max(config["total_save_number"], 0)].  The quota is tested at the end
    of every iteration of the loop: the save that brings the count to the
    quota is followed only by the two messages and [exit(0)], no further
    training step and no further save; a run exits only with status 0 and
    only once the quota is reached; and with a quota of 0 or less the first
    training step is still made, then the run exits without a save. *)
Theorem C1_quota_respected (cfg : config) (tb : nat)
  (pretrained : Torch.nn_module) (dir : FS.slot saved) :
  Z.of_nat (count_saved (Eff.trace (script cfg tb pretrained dir)))
    <= Z.max 0 (total_save_number cfg) /\
  (forall pre path obj post,
     Eff.trace (script cfg tb pretrained dir) = pre ++ Saved path obj :: post ->
     total_save_number cfg <= Z.of_nat (count_saved pre) + 1 ->
     post = [Printed ("Saved: " ++ path); Printed "Fine-tuning completed."] /\
     Eff.result (script cfg tb pretrained dir) = inl (Py.SystemExit 0)) /\
  (forall code,
     Eff.result (script cfg tb pretrained dir) = inl (Py.SystemExit code) ->
     code = 0 /\
     total_save_number cfg
       <= Z.of_nat (count_saved (Eff.trace (script cfg tb pretrained dir)))) /\
  (total_save_number cfg <= 0 -> (0 < tb)%nat ->
   Eff.trace (script cfg tb pretrained dir) =
     [Step 0 0; Printed "Fine-tuning completed."] /\
   Eff.result (script cfg tb pretrained dir) = inl (Py.SystemExit 0)).
Proof.
  pose proof (script_shape cfg tb pretrained dir) as Sh.
  pose proof (schedule_head_small 6 tb) as Hd.
  split; [| split; [| split]].
  - pose proof (shape_count _ _ _ _ _ _ Sh (or_intror Hd)). lia.
  - intros pre path obj post E C.
    apply (shape_stop _ _ _ _ _ _ Sh (or_intror Hd) pre path obj post E). lia.
  - intros code E.
    destruct (shape_steps _ _ _ _ _ _ Sh) as [_ [_ H]].
    destruct (H code E). split; [assumption | lia].
  - intros Q T. clear Sh Hd. rewrite script_loop.
    destruct tb as [| n]; [lia |].
    assert (First : exists rest, schedule 6 (S n) = (0, 0) :: rest)
      by (eexists; reflexivity).
    destruct First as [rest ->].
    assert (Q0 : (0 >=? total_save_number cfg) = true)
      by (rewrite Z.geb_leb; apply Z.leb_le; lia).
    rewrite loop_cons. unfold Eff.bind. rewrite body_run. cbv zeta.
    rewrite save_due_gt. change (1 <? 0) with false. cbn [ckpt_num].
    rewrite Q0. run_eff. now split.
Qed.

Lemma save_checkpoint_stored (m : Torch.nn_module) (idx : Z) (acc : Py.pyfloat)
  (cfg : config) (st : machine) :
  Eff.result (save_checkpoint m idx acc cfg st) = inr tt ->
  checkpoint (Eff.final (save_checkpoint m idx acc cfg st)) =
  FS.Directory
    (FS.store (checkpoint_file idx acc cfg) (save_state m)
              (FS.files_of (checkpoint st))).
Proof.
  rewrite save_checkpoint_run.
  destruct (checkpoint st); destruct (Py.contains "/" (tag cfg));
    cbn [Eff.result Eff.final checkpoint set_checkpoint FS.files_of];
    intros E; try discriminate E; reflexivity.
Qed.

(** C3. The [n]-th file a run saves ([n] from 0) is named, inside
    ['checkpoint'], by [n] zero-padded to 4 digits, ['_acc'] and the accuracy
    with 4 decimals (the loop always passes 1.0), ['_seed'] and the seed
    zero-padded to 4 digits, ['_'], the tag and ['.pth']; so the index grows by
    one from a save to the next.  [save_checkpoint] names its file that way
    for every index and accuracy. *)
Theorem C3_checkpoint_names (cfg : config) (tb : nat)
  (pretrained : Torch.nn_module) (dir : FS.slot saved) :
  0 <= seed cfg ->
  saved_paths (Eff.trace (script cfg tb pretrained dir)) =
  map (fun n =>
         ("checkpoint/" ++
          Spec.checkpoint_name (Z.of_nat n) "1.0000" (seed cfg) (tag cfg))%string)
      (seq 0 (count_saved (Eff.trace (script cfg tb pretrained dir)))) /\
  (forall m idx acc st p obj,
     0 <= idx ->
     In (Saved p obj) (Eff.trace (save_checkpoint m idx acc cfg st)) ->
     p = ("checkpoint/" ++
          Spec.checkpoint_name idx (Py.format_4f acc) (seed cfg) (tag cfg))%string).
Proof.
  intros Hs. split.
  - rewrite (shape_paths _ _ _ _ _ _ (script_shape cfg tb pretrained dir)).
    apply map_ext. intros n. cbn [Z.add].
    now rewrite checkpoint_path_spec by lia.
  - intros m idx acc st p obj Hi H.
    apply save_checkpoint_written in H as [-> _].
    now apply checkpoint_path_spec.
Qed.

(** C7. When [save_checkpoint] returns, the directory ['checkpoint'] holds
    the file of the computed name with the saved dictionary; when nothing
    was at ['checkpoint'] the directory is created, before the file is
    written (it is there even if writing fails); an existing directory
    keeps its other files; and the call returns whenever the path is free
    or a directory and the tag has no separator. *)
Theorem C7_file_exists_after_save (m : Torch.nn_module) (idx : Z)
  (acc : Py.pyfloat) (cfg : config) (st : machine) :
  (Eff.result (save_checkpoint m idx acc cfg st) = inr tt ->
   checkpoint (Eff.final (save_checkpoint m idx acc cfg st)) =
   FS.Directory
     (FS.store (checkpoint_file idx acc cfg) (save_state m)
               (FS.files_of (checkpoint st))) /\
   FS.lookup (checkpoint_file idx acc cfg)
     (FS.files_of (checkpoint (Eff.final (save_checkpoint m idx acc cfg st)))) =
   Some (save_state m)) /\
  (checkpoint st = FS.Missing ->
   FS.isdir (checkpoint (Eff.final (save_checkpoint m idx acc cfg st))) = true) /\
  (writable cfg (checkpoint st) = true ->
   Eff.result (save_checkpoint m idx acc cfg st) = inr tt).
Proof.
  rewrite save_checkpoint_run. unfold writable.
  destruct (checkpoint st) as [| | files] eqn:D;
    destruct (Py.contains "/" (tag cfg));
    cbn [Eff.result Eff.final checkpoint set_checkpoint FS.files_of FS.isdir negb];
    (split;
     [ intros E;
       first [discriminate E | split; [reflexivity | apply lookup_store_eq]]
     | split; intros E; first [discriminate E | reflexivity] ]).
Qed.

(** C2. The dictionary [save_checkpoint] writes holds the entries of the
    state dictionary whose key contains one of the four names of the last
    two normalisation layers, in order, and nothing else. *)
Theorem C2_only_last_norms_saved (m : Torch.nn_module) (idx : Z)
  (acc : Py.pyfloat) (cfg : config) (st : machine) :
  (forall p obj,
     In (Saved p obj) (Eff.trace (save_checkpoint m idx acc cfg st)) ->
     obj = save_state m) /\
  map fst (save_state m) = filter any_norm_in (map fst (Torch.state_dict m)) /\
  (forall key v,
     In (key, v) (save_state m) <->
     (exists norm a b,
        In norm ["layer4.1.bn1.weight"; "layer4.1.bn1.bias";
                 "layer4.1.bn2.weight"; "layer4.1.bn2.bias"]%string /\
        key = (a ++ norm ++ b)%string) /\
     exists v0, In (key, v0) (Torch.state_dict m) /\
                v = Torch.to Torch.Float32 (Torch.cpu v0)).
Proof.
  split; [| split].
  - intros p obj H. now apply save_checkpoint_written in H.
  - apply save_state_keys.
  - intros key v. rewrite save_state_in, any_norm_in_spec. reflexivity.
Qed.

(** C9. Every tensor of the dictionary [save_checkpoint] writes is on the
    CPU with element type float32, whatever the device and the element type
    of the model's tensors. *)
Theorem C9_saved_on_cpu_float32 (m : Torch.nn_module) (idx : Z)
  (acc : Py.pyfloat) (cfg : config) (st : machine) :
  (forall p obj key v,
     In (Saved p obj) (Eff.trace (save_checkpoint m idx acc cfg st)) ->
     In (key, v) obj ->
     Torch.t_device v = Torch.CPU /\ Torch.t_dtype v = Torch.Float32) /\
  (forall files obj key v,
     Eff.result (save_checkpoint m idx acc cfg st) = inr tt ->
     checkpoint (Eff.final (save_checkpoint m idx acc cfg st)) =
       FS.Directory files ->
     FS.lookup (checkpoint_file idx acc cfg) files = Some obj ->
     In (key, v) obj ->
     Torch.t_device v = Torch.CPU /\ Torch.t_dtype v = Torch.Float32).
Proof.
  pose proof (save_state_cpu_float32 m) as F. rewrite Forall_forall in F.
  split.
  - intros p obj key v H I. apply save_checkpoint_written in H as [_ ->].
    exact (F _ I).
  - intros files obj key v R D L I.
    rewrite (save_checkpoint_stored _ _ _ _ _ R) in D. injection D as <-.
    rewrite lookup_store_eq in L. injection L as <-. exact (F _ I).
Qed.

Lemma get_optimizer_and_scheduler_eq (m : Torch.nn_module) (cfg : config)
  (tb : nat) :
  get_optimizer_and_scheduler m cfg tb =
  (map flagged m,
   Torch.Optimizer (snd (select_trainable 0 m)) (learning_rate cfg)
                   (weight_decay cfg),
   Torch.Scheduler (Z.of_nat tb) (save_learning_rate cfg)).
Proof.
  unfold get_optimizer_and_scheduler.
  rewrite <- (select_trainable_model m 0).
  now destruct (select_trainable 0 m).
Qed.

Lemma trained_frame (opt : Torch.optimizer) (j b : Z) (m : Torch.nn_module)
  (n : nat) (e : Torch.entry) :
  nth_error m n = Some e -> Torch.is_parameter e = true ->
  ~ In n (Torch.params opt) ->
  nth_error (trained opt j b m) n = Some e.
Proof.
  intros H P N. unfold trained.
  apply optimizer_step_frame; [| exact N].
  now apply forward_train_frame.
Qed.

(** C8. [get_optimizer_and_scheduler] sets [requires_grad = False] on
    every parameter whose name contains none of the four names and hands
    the optimizer exactly the other parameters; so an optimizer step, and
    with it the whole run, leaves every such parameter as it was. *)
Theorem C8_other_parameters_frozen (m : Torch.nn_module) (cfg : config)
  (tb : nat) :
  (forall i e,
     nth_error m i = Some e ->
     Torch.is_parameter e = true ->
     any_norm_in (Torch.e_name e) = false ->
     nth_error (fst (fst (get_optimizer_and_scheduler m cfg tb))) i =
       Some (Torch.set_requires_grad false e) /\
     ~ In i (Torch.params (snd (fst (get_optimizer_and_scheduler m cfg tb)))) /\
     (forall upd,
        nth_error
          (Torch.optimizer_step upd
             (snd (fst (get_optimizer_and_scheduler m cfg tb)))
             (fst (fst (get_optimizer_and_scheduler m cfg tb)))) i =
        Some (Torch.set_requires_grad false e)) /\
     (forall dir,
        nth_error (model (Eff.final (script cfg tb m dir))) i =
        Some (Torch.set_requires_grad false e))) /\
  (forall i,
     In i (Torch.params (snd (fst (get_optimizer_and_scheduler m cfg tb)))) <->
     exists e, nth_error m i = Some e /\ Torch.is_parameter e = true /\
               any_norm_in (Torch.e_name e) = true).
Proof.
  rewrite get_optimizer_and_scheduler_eq. cbn [fst snd Torch.params].
  assert (Held : forall i,
            In i (snd (select_trainable 0 m)) <->
            exists e, nth_error m i = Some e /\ Torch.is_parameter e = true /\
                      any_norm_in (Torch.e_name e) = true).
  { intros i. rewrite select_trainable_params. split.
    - intros [n [e [-> H]]]. now exists e.
    - intros [e H]. now exists i, e. }
  split; [| exact Held].
  intros i e H P A.
  assert (Fl : nth_error (map flagged m) i = Some (Torch.set_requires_grad false e)).
  { rewrite nth_error_map, H. cbn [option_map]. unfold flagged.
    now rewrite P, A. }
  assert (N : ~ In i (snd (select_trainable 0 m))).
  { rewrite Held. intros [e' [H' [_ A']]]. congruence. }
  split; [exact Fl |]. split; [exact N |]. split.
  - intros upd. now apply optimizer_step_frame.
  - intros dir. rewrite script_loop.
    apply (loop_model cfg tb _
             (fun m' => nth_error m' i = Some (Torch.set_requires_grad false e))).
    + intros j b m' H'. now apply trained_frame.
    + exact Fl.
Qed.

End Claims.

(** C1 as stated fails, on the 79 batches of STL-10.  With a quota of 0 the
    count is at the quota from the start, and the run still makes a
    training step before it exits; with a quota of -1 the zero saves of the
    run exceed the quota. *)
Lemma C1_quota_counterexample :
  ~ Spec.quota_respected Sample.config0
      (@Finetune.script Sample.backend Sample.training Sample.config0 79
         Sample.resnet FS.Missing) /\
  ~ Spec.quota_respected Sample.config_minus
      (@Finetune.script Sample.backend Sample.training Sample.config_minus 79
         Sample.resnet FS.Missing).
Proof.
  split; intros [C F].
  - assert (Q : Finetune.total_save_number Sample.config0
                <= Z.of_nat (@Finetune.count_saved Sample.backend []))
      by (vm_compute; discriminate).
    destruct (F [] _ eq_refl Q) as [S _].
    vm_compute in S. discriminate S.
  - vm_compute in C. apply C. reflexivity.
Qed.

Lemma C3_checkpoint_names_witness :
  0 <= Finetune.seed Sample.config3 /\
  Finetune.saved_paths
    (Eff.trace
       (@Finetune.script Sample.backend Sample.training Sample.config3 4
          Sample.resnet FS.Missing)) =
  ["checkpoint/0000_acc1.0000_seed0040_stl10_resnet18.pth";
   "checkpoint/0001_acc1.0000_seed0040_stl10_resnet18.pth";
   "checkpoint/0002_acc1.0000_seed0040_stl10_resnet18.pth"]%string.
Proof.
  assert (S : 0 <= Finetune.seed Sample.config3) by (vm_compute; discriminate).
  split; [exact S |].
  rewrite (proj1 (@C3_checkpoint_names Sample.backend Sample.training
                    Sample.config3 4 Sample.resnet FS.Missing S)).
  vm_compute. reflexivity.
Defined.

(* ================================================================== *)
(** * Facts about reselect.py                                           *)
(* ================================================================== *)

Ltac run_copy :=
  repeat first
    [ progress cbn [Eff.result Eff.final Eff.trace app Reselect.source
                    Reselect.dest FS.files_of FS.write_file FS.read_file
                    FS.makedirs_exist_ok FS.listdir]
    | progress unfold Eff.bind, Eff.get, Eff.put, Eff.emit, Eff.ret, Eff.raise,
        Reselect.lift ].

Section ReselectFacts.
Import Reselect.

Lemma valid_name_no_sep (name : string) :
  FS.valid_name name = true ->
  String.eqb name EmptyString = false /\ Py.contains "/" name = false.
Proof.
  unfold FS.valid_name. rewrite andb_true_iff, !negb_true_iff. tauto.
Qed.

(** The path of an entry of the source directory. *)
Lemma path_join_source (name : string) :
  FS.valid_name name = true ->
  Py.path_join source_dir name = ((source_dir ++ "/") ++ name)%string.
Proof.
  intros V. apply valid_name_no_sep in V as [_ V].
  unfold Py.path_join. rewrite (contains_sep_prefix _ V).
  now rewrite append_assoc.
Qed.

Lemma read_source (name : string) (w : world) :
  read_path ((source_dir ++ "/") ++ name) w = FS.read_file name (source w).
Proof. unfold read_path. now rewrite strip_prefix_app. Qed.

Lemma write_dest (target : string) (content : bytes)
  (files : list (string * bytes)) (dfiles : list (string * bytes)) :
  target = "origin.pth"%string \/ target = "repeat.pth"%string ->
  write_path (Py.path_join dst target) content
             (World (FS.Directory files) (FS.Directory dfiles)) =
  inr (World (FS.Directory files)
             (FS.Directory (FS.store target content dfiles))).
Proof. intros [-> | ->]; reflexivity. Qed.

(** One [shutil.copy] from the source directory to [./checkpoint]. *)
Lemma copy_run (name target : string) (content : bytes)
  (files dfiles : list (string * bytes)) :
  FS.valid_name name = true ->
  FS.lookup name files = Some content ->
  target = "origin.pth"%string \/ target = "repeat.pth"%string ->
  copy (Py.path_join source_dir name) (Py.path_join dst target)
       (World (FS.Directory files) (FS.Directory dfiles)) =
  Eff.Out [Copied (Py.path_join source_dir name) (Py.path_join dst target)]
          (World (FS.Directory files)
                 (FS.Directory (FS.store target content dfiles)))
          (inr tt).
Proof.
  intros V L T. unfold copy. run_copy.
  rewrite (path_join_source name V), read_source. run_copy. rewrite L. run_copy.
  rewrite <- (path_join_source name V), (write_dest _ _ _ _ T). run_copy.
  reflexivity.
Qed.

Lemma sort_joined_head (names : list string) (p : string) (rest : list string) :
  Forall (fun n => FS.valid_name n = true) names ->
  Py.sort (map (fun i => Py.path_join source_dir i) names) = p :: rest ->
  exists name,
    p = Py.path_join source_dir name /\ In name names /\
    forall other, In other names -> String.leb name other = true.
Proof.
  intros V E. rewrite Forall_forall in V.
  destruct (sort_head_least _ _ _ E) as [I Least].
  apply in_map_iff in I as [name [<- I]].
  exists name. split; [reflexivity |]. split; [exact I |].
  intros other O.
  specialize (Least (Py.path_join source_dir other) (in_map _ _ _ O)).
  rewrite (path_join_source _ (V _ I)), (path_join_source _ (V _ O)) in Least.
  now rewrite leb_app in Least.
Qed.

(** The script on an existing source directory, case by case. *)
Lemma reselect_run (files : list (string * bytes)) (d : FS.slot bytes) :
  Forall (fun n => FS.valid_name n = true) (map fst files) ->
  reselect (World (FS.Directory files) d) =
  match d with
  | FS.NotADirectory =>
      Eff.Out [] (World (FS.Directory files) d) (inl Py.FileExistsError)
  | _ =>
      match Py.sort (map (fun i => Py.path_join source_dir i) (map fst files)) with
      | [] =>
          Eff.Out [] (World (FS.Directory files) (FS.Directory (FS.files_of d)))
                  (inr tt)
      | p :: _ =>
          match FS.read_file
                  (match FS.strip_prefix (source_dir ++ "/") p with
                   | Some name => name
                   | None => EmptyString
                   end) (FS.Directory files) with
          | inr content =>
              Eff.Out [Copied p (Py.path_join dst "origin.pth");
                       Copied p (Py.path_join dst "repeat.pth")]
                      (World (FS.Directory files)
                             (FS.Directory
                                (FS.store "repeat.pth" content
                                   (FS.store "origin.pth" content
                                             (FS.files_of d)))))
                      (inr tt)
          | inl e =>
              Eff.Out [] (World (FS.Directory files)
                                (FS.Directory (FS.files_of d))) (inl e)
          end
      end
  end.
Proof.
  intros V. unfold reselect. run_copy.
  destruct d as [| | dfiles]; run_copy; try reflexivity.
  all: destruct (Py.sort (map (fun i => Py.path_join source_dir i) (map fst files)))
         as [| p rest] eqn:E; cbn [firstn Eff.for_each]; run_copy;
         try reflexivity.
  all: destruct (sort_joined_head _ _ _ V E) as [name [-> [I _]]].
  all: rewrite Forall_forall in V; specialize (V _ I).
  all: destruct (lookup_in _ _ I) as [content L].
  all: rewrite !(copy_run name _ content) by (auto using lookup_store_eq).
  all: run_copy.
  all: rewrite !(copy_run name _ content) by (auto using lookup_store_eq).
  all: run_copy.
  all: rewrite (path_join_source name V), strip_prefix_app.
  all: cbn [FS.read_file]; rewrite L; reflexivity.
Qed.

End ReselectFacts.

Section ReselectClaims.
Import Reselect.

(** C4. On a source directory with at least one entry the script copies
    one file, the entry that comes first in lexicographic order (the head
    of the sorted listing), to [./checkpoint/origin.pth] and then to
    [./checkpoint/repeat.pth]: both hold its content afterwards, nothing
    else is copied, and every other file of [./checkpoint] and the source
    directory stay as they were. *)
Theorem C4_first_checkpoint_copied_twice (w : world)
  (files : list (string * bytes)) :
  source w = FS.Directory files ->
  files <> [] ->
  Forall (fun n => FS.valid_name n = true) (map fst files) ->
  dest w <> FS.NotADirectory ->
  exists name content,
    In name (map fst files) /\
    (forall other, In other (map fst files) -> String.leb name other = true) /\
    hd_error (Py.sort (map (fun i => Py.path_join source_dir i) (map fst files)))
      = Some (Py.path_join source_dir name) /\
    FS.lookup name files = Some content /\
    Eff.result (reselect w) = inr tt /\
    Eff.trace (reselect w) =
      [Copied (Py.path_join source_dir name) "./checkpoint/origin.pth";
       Copied (Py.path_join source_dir name) "./checkpoint/repeat.pth"] /\
    source (Eff.final (reselect w)) = source w /\
    exists dfiles,
      dest (Eff.final (reselect w)) = FS.Directory dfiles /\
      FS.lookup "origin.pth" dfiles = Some content /\
      FS.lookup "repeat.pth" dfiles = Some content /\
      forall other,
        other <> "origin.pth"%string -> other <> "repeat.pth"%string ->
        FS.lookup other dfiles = FS.lookup other (FS.files_of (dest w)).
Proof.
  intros S N V D. destruct w as [s d]. cbn [source dest] in *. subst s.
  rewrite (reselect_run files d V).
  destruct (Py.sort (map (fun i => Py.path_join source_dir i) (map fst files)))
    as [| p rest] eqn:E.
  { apply sort_nil_inv in E. destruct files; [congruence | discriminate E]. }
  destruct (sort_joined_head _ _ _ V E) as [name [-> [I Least]]].
  destruct (lookup_in _ _ I) as [content L].
  pose proof V as V'. rewrite Forall_forall in V'. specialize (V' _ I).
  exists name, content.
  rewrite (path_join_source name V'), strip_prefix_app.
  cbn [FS.read_file]. rewrite L.
  split; [exact I |]. split; [exact Least |]. split; [reflexivity |].
  split; [reflexivity |].
  destruct d as [| | dfiles]; [| congruence |];
    cbn [Eff.result Eff.trace Eff.final source dest FS.files_of];
    (split; [reflexivity |]); (split; [reflexivity |]);
    (split; [reflexivity |]);
    eexists; (split; [reflexivity |]);
    (split; [rewrite lookup_store_ne by discriminate; apply lookup_store_eq |]);
    (split; [apply lookup_store_eq |]);
    intros other O R; rewrite !lookup_store_ne by congruence; reflexivity.
Qed.

(** C10. On an empty source directory the script copies nothing and ends
    without error; [./checkpoint] is a directory afterwards, created when it
    was missing and left as it was when it existed, so no [origin.pth] and
    no [repeat.pth] is produced. *)
Theorem C10_empty_source_copies_nothing (w : world) :
  source w = FS.Directory [] ->
  dest w <> FS.NotADirectory ->
  Eff.result (reselect w) = inr tt /\
  Eff.trace (reselect w) = [] /\
  source (Eff.final (reselect w)) = FS.Directory [] /\
  dest (Eff.final (reselect w)) = FS.Directory (FS.files_of (dest w)) /\
  FS.makedirs_exist_ok (dest (Eff.final (reselect w))) =
    inr (dest (Eff.final (reselect w))) /\
  (dest w = FS.Missing ->
   FS.lookup "origin.pth" (FS.files_of (dest (Eff.final (reselect w)))) = None /\
   FS.lookup "repeat.pth" (FS.files_of (dest (Eff.final (reselect w)))) = None).
Proof.
  intros S D. destruct w as [s d]. cbn [source dest] in *. subst s.
  rewrite (reselect_run [] d (Forall_nil _)). cbn [map Py.sort].
  destruct d as [| | dfiles]; [| congruence |];
    cbn [Eff.result Eff.trace Eff.final source dest FS.files_of
         FS.makedirs_exist_ok FS.lookup];
    repeat (split; [reflexivity |]);
    first [reflexivity | intros E; discriminate E].
Qed.

End ReselectClaims.

Lemma C4_first_checkpoint_copied_twice_witness :
  Reselect.source Sample.world = FS.Directory Sample.checkpoints /\
  Sample.checkpoints <> [] /\
  Forall (fun n => FS.valid_name n = true) (map fst Sample.checkpoints) /\
  Reselect.dest Sample.world <> FS.NotADirectory /\
  Eff.result (Reselect.reselect Sample.world) = inr tt.
Proof.
  assert (S : Reselect.source Sample.world = FS.Directory Sample.checkpoints)
    by reflexivity.
  assert (N : Sample.checkpoints <> []) by discriminate.
  assert (V : Forall (fun n => FS.valid_name n = true)
                     (map fst Sample.checkpoints))
    by (repeat constructor).
  assert (D : Reselect.dest Sample.world <> FS.NotADirectory) by discriminate.
  split; [exact S |]. split; [exact N |]. split; [exact V |].
  split; [exact D |].
  destruct (C4_first_checkpoint_copied_twice Sample.world Sample.checkpoints
              S N V D)
    as [name [content [_ [_ [_ [_ [R _]]]]]]].
  exact R.
Defined.

Lemma C10_empty_source_copies_nothing_witness :
  Reselect.source Sample.empty_world = FS.Directory [] /\
  Reselect.dest Sample.empty_world <> FS.NotADirectory /\
  Eff.result (Reselect.reselect Sample.empty_world) = inr tt /\
  Eff.trace (Reselect.reselect Sample.empty_world) = [].
Proof.
  assert (S : Reselect.source Sample.empty_world = FS.Directory [])
    by reflexivity.
  assert (D : Reselect.dest Sample.empty_world <> FS.NotADirectory)
    by discriminate.
  split; [exact S |]. split; [exact D |].
  destruct (C10_empty_source_copies_nothing Sample.empty_world S D)
    as [R [T _]].
  now split.
Defined.

Example reselect_sample :
  Reselect.reselect Sample.world =
  Eff.Out
    [Reselect.Copied
       "../../main/cifar100_resnet18/checkpoint/0000_acc1.0000_seed0040_cifar100_resnet18.pth"
       "./checkpoint/origin.pth";
     Reselect.Copied
       "../../main/cifar100_resnet18/checkpoint/0000_acc1.0000_seed0040_cifar100_resnet18.pth"
       "./checkpoint/repeat.pth"]%string
    (Reselect.World
       (FS.Directory Sample.checkpoints)
       (FS.Directory [("origin.pth"%string, [Byte.x00]);
                      ("repeat.pth"%string, [Byte.x00])]))
    (inr tt).
Proof. vm_compute. reflexivity. Qed.

Example reselect_no_source :
  Eff.result (Reselect.reselect (Reselect.World FS.Missing FS.Missing)) =
  inl Py.FileNotFoundError.
Proof. reflexivity. Qed.

Example reselect_checkpoint_is_a_file :
  Reselect.reselect (Reselect.World (FS.Directory []) FS.NotADirectory) =
  Eff.Out [] (Reselect.World (FS.Directory []) FS.NotADirectory)
          (inl Py.FileExistsError).
Proof. reflexivity. Qed.

(* ================================================================== *)
(** * The theorems on concrete inputs                                   *)
(* ================================================================== *)

Lemma C2_only_last_norms_saved_witness :
  map fst (@Finetune.save_state Sample.backend Sample.resnet) =
  ["layer4.1.bn1.weight"; "layer4.1.bn1.bias";
   "layer4.1.bn2.weight"; "layer4.1.bn2.bias"]%string.
Proof.
  rewrite (proj1 (proj2 (@C2_only_last_norms_saved Sample.backend
                           Sample.resnet 0 (Py.Finite (1 # 1)) Sample.config
                           Sample.machine))).
  vm_compute. reflexivity.
Defined.

Lemma C7_file_exists_after_save_witness :
  @Finetune.writable Sample.backend Sample.config
    (Finetune.checkpoint Sample.machine) = true /\
  Eff.result
    (@Finetune.save_checkpoint Sample.backend Sample.resnet 0 (Py.Finite (1 # 1))
       Sample.config Sample.machine) = inr tt.
Proof.
  assert (W : @Finetune.writable Sample.backend Sample.config
                (Finetune.checkpoint Sample.machine) = true) by reflexivity.
  split; [exact W |].
  exact (proj2 (proj2 (@C7_file_exists_after_save Sample.backend Sample.resnet
                         0 (Py.Finite (1 # 1)) Sample.config Sample.machine)) W).
Defined.

Lemma C8_other_parameters_frozen_witness :
  nth_error Sample.resnet 12 =
    Some (@Torch.Entry Sample.backend "fc.weight" (Torch.Param true)
            Sample.weights) /\
  nth_error
    (Finetune.model
       (Eff.final
          (@Finetune.script Sample.backend Sample.training Sample.config3 4
             Sample.resnet FS.Missing))) 12 =
    Some (@Torch.Entry Sample.backend "fc.weight" (Torch.Param false)
            Sample.weights).
Proof.
  assert (H : nth_error Sample.resnet 12 =
              Some (@Torch.Entry Sample.backend "fc.weight" (Torch.Param true)
                      Sample.weights)) by reflexivity.
  split; [exact H |].
  destruct (proj1 (@C8_other_parameters_frozen Sample.backend Sample.training
                     Sample.resnet Sample.config3 4) 12%nat _ H eq_refl eq_refl)
    as [_ [_ [_ F]]].
  exact (F FS.Missing).
Defined.

Lemma C9_saved_on_cpu_float32_witness :
  In (@Finetune.Saved Sample.backend
        (Finetune.checkpoint_path 0 (Py.Finite (1 # 1)) Sample.config)
        (Finetune.save_state Sample.resnet))
     (Eff.trace
        (@Finetune.save_checkpoint Sample.backend Sample.resnet 0 (Py.Finite (1 # 1))
           Sample.config Sample.machine)) /\
  In ("layer4.1.bn1.weight"%string,
      Torch.to Torch.Float32 (Torch.cpu Sample.weights))
     (@Finetune.save_state Sample.backend Sample.resnet) /\
  Torch.t_device (Torch.to Torch.Float32 (Torch.cpu Sample.weights)) = Torch.CPU /\
  Torch.t_dtype (Torch.to Torch.Float32 (Torch.cpu Sample.weights)) = Torch.Float32.
Proof.
  assert (S : In (@Finetune.Saved Sample.backend
                    (Finetune.checkpoint_path 0 (Py.Finite (1 # 1)) Sample.config)
                    (Finetune.save_state Sample.resnet))
                 (Eff.trace
                    (@Finetune.save_checkpoint Sample.backend Sample.resnet 0
                       (Py.Finite (1 # 1)) Sample.config Sample.machine)))
    by (vm_compute; left; reflexivity).
  assert (K : In ("layer4.1.bn1.weight"%string,
                  Torch.to Torch.Float32 (Torch.cpu Sample.weights))
                 (@Finetune.save_state Sample.backend Sample.resnet))
    by (vm_compute; left; reflexivity).
  split; [exact S |]. split; [exact K |].
  exact (proj1 (@C9_saved_on_cpu_float32 Sample.backend Sample.resnet 0 (Py.Finite (1 # 1))
                  Sample.config Sample.machine) _ _ _ _ S K).
Defined.

(* ================================================================== *)
(** * Examples                                                          *)
(* ================================================================== *)

Example str_300 : Py.str 300 = "300"%string. Proof. reflexivity. Qed.
Example str_neg : Py.str (-40) = "-40"%string. Proof. reflexivity. Qed.
Example str_0 : Py.str 0 = "0"%string. Proof. reflexivity. Qed.
Example zfill_7 : Py.zfill 4 (Py.str 7) = "0007"%string. Proof. reflexivity. Qed.
Example zfill_neg : Py.zfill 4 (Py.str (-7)) = "-007"%string. Proof. reflexivity. Qed.
Example zfill_long : Py.zfill 4 (Py.str 12345) = "12345"%string. Proof. reflexivity. Qed.
Example format_0d_40 : Py.format_0d 4 40 = "0040"%string. Proof. reflexivity. Qed.
Example format_0d_neg : Py.format_0d 4 (-40) = "-040"%string. Proof. reflexivity. Qed.
Example format_4f_one : Py.format_4f (Py.Finite (1 # 1)) = "1.0000"%string. Proof. reflexivity. Qed.
Example format_4f_tie : Py.format_4f (Py.Finite (1 # 32)) = "0.0312"%string. Proof. reflexivity. Qed.
Example format_4f_frac : Py.format_4f (Py.Finite (7709 # 8000)) = "0.9636"%string. Proof. reflexivity. Qed.
Example format_4f_small_negative :
  Py.format_4f (Py.Finite (-1 # 100000)) = "-0.0000"%string.
Proof. reflexivity. Qed.
Example format_4f_negative_zero : Py.format_4f Py.NegZero = "-0.0000"%string.
Proof. reflexivity. Qed.
Example format_4f_inf : Py.format_4f (Py.Inf false) = "inf"%string.
Proof. reflexivity. Qed.
Example format_4f_nan : Py.format_4f Py.NaN = "nan"%string.
Proof. reflexivity. Qed.
Example contains_yes :
  Py.contains "layer4.1.bn1.weight" "module.layer4.1.bn1.weight" = true.
Proof. reflexivity. Qed.
Example contains_no :
  Py.contains "layer4.1.bn1.weight" "layer4.1.bn1.running_mean" = false.
Proof. reflexivity. Qed.
Example join_rel : Py.path_join "./checkpoint" "origin.pth" = "./checkpoint/origin.pth"%string.
Proof. reflexivity. Qed.
Example sort_ex : Py.sort ["b"; "a"; "ab"]%string = ["a"; "ab"; "b"]%string.
Proof. reflexivity. Qed.

(** STL-10 has 5000 training images, 79 batches of 64: the quota of 300 is
    reached in the fourth pass, at batch 70. *)
Example finetune_stl10 :
  let r := @Finetune.script Sample.backend Sample.training Sample.config 79
             Sample.resnet FS.Missing in
  Finetune.count_saved (Eff.trace r) = 300%nat /\
  last (Finetune.steps (Eff.trace r)) (0, 0) = (3, 70) /\
  Eff.result r = inl (Py.SystemExit 0).
Proof. vm_compute. repeat split. Qed.

(** With a quota of three the run stops in the second pass. *)
Example finetune_quota_three :
  let r := @Finetune.script Sample.backend Sample.training Sample.config3 4
             Sample.resnet FS.Missing in
  Finetune.steps (Eff.trace r) =
    [(0, 0); (0, 1); (0, 2); (0, 3); (1, 0); (1, 1); (1, 2)] /\
  Finetune.ckpt_num (Eff.final r) = 3 /\
  Eff.result r = inl (Py.SystemExit 0).
Proof. vm_compute. repeat split. Qed.

(** A quota below zero is exceeded by the zero saves of the run, which
    exits after its first step. *)
Example finetune_negative_quota :
  let config :=
    Finetune.update Sample.config
      (Finetune.Additional None None None None None None None (Some (-1))
                           None None None) in
  let r := @Finetune.script Sample.backend Sample.training config 4
             Sample.resnet FS.Missing in
  Finetune.count_saved (Eff.trace r) = 0%nat /\
  Finetune.steps (Eff.trace r) = [(0, 0)] /\
  Eff.result r = inl (Py.SystemExit 0).
Proof. vm_compute. repeat split. Qed.

(** With a separator in the tag [torch.save] cannot open the file. *)
Example save_checkpoint_separator_in_tag :
  let config :=
    Finetune.update Sample.config
      (Finetune.Additional None None None None None None None None
                           (Some "a/b"%string) None None) in
  Eff.result
    (@Finetune.save_checkpoint Sample.backend Sample.resnet 0
       (Py.Finite (1 # 1)) config Sample.machine) = inl Py.RuntimeError.
Proof. vm_compute. reflexivity. Qed.

(** When ['checkpoint'] is a file, the first save raises. *)
Example finetune_checkpoint_is_a_file :
  let r := @Finetune.script Sample.backend Sample.training Sample.config 4
             Sample.resnet FS.NotADirectory in
  Finetune.steps (Eff.trace r) = [(0, 0); (0, 1); (0, 2)] /\
  Finetune.count_saved (Eff.trace r) = 0%nat /\
  Eff.result r = inl Py.FileExistsError.
Proof. vm_compute. repeat split. Qed.

(** The steps change the four selected parameters and the buffers only. *)
Example finetune_trained_values :
  map (fun e => (Torch.e_name e, Torch.t_data (Torch.e_value e)))
      (Finetune.model
         (Eff.final
            (@Finetune.script Sample.backend Sample.training Sample.config3 4
               Sample.resnet FS.Missing))) =
  [("layer4.1.conv1.weight", 0); ("layer4.1.bn1.weight", 7);
   ("layer4.1.bn1.bias", 7); ("layer4.1.bn1.running_mean", 7);
   ("layer4.1.bn1.running_var", 7); ("layer4.1.bn1.num_batches_tracked", 7);
   ("layer4.1.conv2.weight", 0); ("layer4.1.bn2.weight", 7);
   ("layer4.1.bn2.bias", 7); ("layer4.1.bn2.running_mean", 7);
   ("layer4.1.bn2.running_var", 7); ("layer4.1.bn2.num_batches_tracked", 7);
   ("fc.weight", 0); ("fc.bias", 0)]%string.
Proof. vm_compute. reflexivity. Qed.

(* ================================================================== *)
(** * Counting the saves and the steps of a run                         *)
(* ================================================================== *)


Section CountFacts.
Context {backend : Torch.Backend}.
Import Finetune.
Variable cfg : config.
Variable tb : nat.

Lemma dues_cons (j b : Z) (its : list (Z * Z)) :
  dues ((j, b) :: its) = ((if (1 <? b)%Z then 1 else 0) + dues its)%nat.
Proof. unfold dues. cbn [filter snd]. now destruct (1 <? b). Qed.

Lemma dues_app (l1 l2 : list (Z * Z)) :
  dues (l1 ++ l2) = (dues l1 + dues l2)%nat.
Proof. unfold dues. now rewrite filter_app, List.length_app. Qed.

Lemma dues_pass (j : Z) (n : nat) :
  dues (map (pair j) (Py.range n)) = (n - 2)%nat.
Proof.
  unfold Py.range. induction n as [| n IH]; [reflexivity |].
  rewrite seq_S, !map_app, dues_app, IH. cbn [map Nat.add].
  rewrite dues_cons. unfold dues. cbn [filter List.length].
  destruct (1 <? Z.of_nat n) eqn:E;
    [apply Z.ltb_lt in E | apply Z.ltb_ge in E]; lia.
Qed.

Lemma dues_schedule (passes n : nat) :
  dues (schedule passes n) = (passes * (n - 2))%nat.
Proof.
  unfold schedule.
  assert (G : forall l : list Z,
            dues (flat_map (fun j => map (pair j) (Py.range n)) l) =
            (List.length l * (n - 2))%nat).
  { induction l as [| j l IH]; [reflexivity |].
    cbn [flat_map List.length]. rewrite dues_app, dues_pass, IH. lia. }
  rewrite G. unfold Py.range. now rewrite length_map, length_seq.
Qed.

Lemma schedule_nil_iff (passes n : nat) :
  schedule (S passes) n = [] <-> n = O.
Proof.
  split.
  - destruct n as [| n]; [reflexivity |].
    unfold schedule, Py.range. cbn [seq map flat_map app]. discriminate.
  - intros ->. apply schedule_no_batches.
Qed.

(** The number of saves of a run in which no save fails. *)
Lemma shape_count_exact k its t r :
  shape cfg tb k its t r ->
  r = inr tt \/ r = inl (Py.SystemExit 0) ->
  k < total_save_number cfg \/ head_small its ->
  Z.of_nat (count_saved t) =
  Z.min (Z.max 0 (total_save_number cfg - k)) (Z.of_nat (dues its)).
Proof.
  unfold count_saved.
  induction 1 as [k | k j b its t r Due Q _ IH | k j b its Due Q
                 | k j b its obj t r Due Q _ IH | k j b its obj Due Q
                 | k j b its e Due E]; intros R I;
    cbn [saved_paths List.length]; rewrite ?dues_cons;
    try (rewrite save_due_gt in Due; rewrite Due).
  - cbn. lia.
  - apply geb_false in Q. specialize (IH R (or_introl Q)). lia.
  - apply geb_true in Q. lia.
  - apply geb_false in Q. specialize (IH R (or_introl Q)). lia.
  - apply geb_true in Q. apply Z.ltb_lt in Due.
    destruct I as [I | I]; cbn in I; lia.
  - destruct R as [R | R], E as [-> | ->]; discriminate R.
Qed.

(** When such a run ends by [exit(0)]. *)
Lemma shape_exit k its t r :
  shape cfg tb k its t r ->
  r = inr tt \/ r = inl (Py.SystemExit 0) ->
  k < total_save_number cfg \/ head_small its ->
  (r = inl (Py.SystemExit 0) <->
   (total_save_number cfg <= k /\ its <> []) \/
   (k < total_save_number cfg /\
    total_save_number cfg - k <= Z.of_nat (dues its))).
Proof.
  induction 1 as [k | k j b its t r Due Q _ IH | k j b its Due Q
                 | k j b its obj t r Due Q _ IH | k j b its obj Due Q
                 | k j b its e Due E]; intros R I; rewrite ?dues_cons;
    try (rewrite save_due_gt in Due; rewrite Due).
  - split; [discriminate |]. intros [[_ N] | [L D]]; [congruence | cbn in D; lia].
  - apply geb_false in Q. rewrite (IH R (or_introl Q)).
    split; (intros [[L N] | [L D]]; [lia | right; split; lia]).
  - apply geb_true in Q. split; [| reflexivity].
    intros _. left. split; [lia | discriminate].
  - apply geb_false in Q. rewrite (IH R (or_introl Q)).
    split; (intros [[L N] | [L D]]; [lia | right; split; lia]).
  - apply geb_true in Q. apply Z.ltb_lt in Due. split; [| reflexivity].
    intros _. right. destruct I as [I | I]; cbn in I; lia.
  - destruct R as [R | R], E as [-> | ->]; discriminate R.
Qed.

End CountFacts.

Section PlannedFacts.
Context {backend : Torch.Backend}.
Import Finetune.
Variable cfg : config.
Variable tb : nat.

(** The steps of a run in which no save fails. *)
Lemma shape_planned k its t r :
  shape cfg tb k its t r ->
  r = inr tt \/ r = inl (Py.SystemExit 0) ->
  steps t = planned (total_save_number cfg) k its.
Proof.
  induction 1 as [k | k j b its t r Due Q _ IH | k j b its Due Q
                 | k j b its obj t r Due Q _ IH | k j b its obj Due Q
                 | k j b its e Due E]; intros R;
    cbn [steps planned snd]; try (rewrite save_due_gt in Due; rewrite Due).
  - reflexivity.
  - rewrite Q. now rewrite IH.
  - now rewrite Q.
  - rewrite Q. now rewrite IH.
  - now rewrite Q.
  - destruct R as [R | R], E as [-> | ->]; discriminate R.
Qed.

End PlannedFacts.

Section EpochsClaim.
Context {backend : Torch.Backend} {training : Finetune.Training}.
Import Finetune.

(** C5 (the code against the claim). With the default configuration
    ([epochs] = 1, quota 300) and the 79 batches of 64 that the 5000
    training images of STL-10 give, one pass offers 77 saves, so the quota
    does not stop the run within one pass; the run goes on to 308 steps,
    three passes and 71 batches of the fourth, until the quota stops it.
    The loop is [for j in range(6)]: [config["epochs"]] is not read. *)
Theorem C5_more_than_one_epoch (pretrained : Torch.nn_module) :
  let cfg := get_config "stl10_resnet18" no_additional_config in
  let r := script cfg 79 pretrained FS.Missing in
  epochs cfg = 1 /\
  steps (Eff.trace r) = firstn 308 (schedule 6 79) /\
  count_saved (Eff.trace r) = 300%nat /\
  Eff.result r = inl (Py.SystemExit 0) /\
  ~ Spec.passes_as_configured cfg 79 r.
Proof.
  cbv zeta.
  set (cfg := get_config "stl10_resnet18" no_additional_config).
  assert (W : writable cfg (@FS.Missing saved) = true) by reflexivity.
  pose proof (script_shape cfg 79 pretrained FS.Missing) as Sh.
  pose proof (script_writable cfg 79 pretrained FS.Missing W) as R.
  pose proof (schedule_head_small 6 79) as Hd.
  assert (St : steps (Eff.trace (script cfg 79 pretrained FS.Missing)) =
               firstn 308 (schedule 6 79)).
  { rewrite (shape_planned cfg 79 _ _ _ _ Sh R).
    change (total_save_number cfg) with 300. vm_compute. reflexivity. }
  split; [reflexivity |]. split; [exact St |]. split; [| split].
  - apply Nat2Z.inj.
    rewrite (shape_count_exact cfg 79 _ _ _ _ Sh R (or_intror Hd)).
    rewrite dues_schedule. reflexivity.
  - apply (shape_exit cfg 79 _ _ _ _ Sh R (or_intror Hd)).
    right. rewrite dues_schedule. change (total_save_number cfg) with 300.
    split; [lia | vm_compute; discriminate].
  - intros [[n E] _]. rewrite St in E.
    apply (f_equal (@List.length _)) in E.
    change (Z.to_nat (epochs cfg)) with 1%nat in E.
    rewrite (List.length_firstn n (schedule 1 79)) in E.
    assert (A : List.length (firstn 308 (schedule 6 79)) = 308%nat)
      by (vm_compute; reflexivity).
    assert (B : List.length (schedule 1 79) = 79%nat)
      by (vm_compute; reflexivity).
    lia.
Qed.

End EpochsClaim.

(* ================================================================== *)
(** * Checkpoint names, field by field                                  *)
(* ================================================================== *)

Section DigitFacts.
Import Py.

Lemma is_digit_value (c : ascii) :
  is_digit c = true -> 0 <= digit_value c <= 9.
Proof.
  unfold is_digit, digit_value. rewrite andb_true_iff, !Nat.leb_le. lia.
Qed.

(** A string of digits of length [n] reads as a number below [10 ^ n]. *)
Lemma value_aux_bounds (s : string) :
  all_digits s = true ->
  forall a,
  a * 10 ^ Z.of_nat (String.length s) <= value_aux s a
  < (a + 1) * 10 ^ Z.of_nat (String.length s).
Proof.
  induction s as [| c s IH]; intros D a.
  - cbn [String.length value_aux]. change (10 ^ Z.of_nat 0) with 1. lia.
  - cbn [all_digits] in D. apply andb_true_iff in D as [Dc Ds].
    cbn [String.length value_aux]. rewrite Nat2Z.inj_succ, Z.pow_succ_r by lia.
    specialize (IH Ds (10 * a + digit_value c)).
    pose proof (is_digit_value c Dc) as V.
    assert (P : 0 < 10 ^ Z.of_nat (String.length s))
      by (apply Z.pow_pos_nonneg; lia).
    revert IH P.
    generalize (10 ^ Z.of_nat (String.length s)) (value_aux s (10 * a + digit_value c)).
    intros p v IH P. nia.
Qed.

Lemma digits_length_gt (n : Z) (k : nat) :
  10 ^ Z.of_nat k <= n -> (k < String.length (digits n))%nat.
Proof.
  intros H.
  assert (N : 0 <= n) by (pose proof (Z.pow_pos_nonneg 10 (Z.of_nat k)); lia).
  pose proof (value_aux_bounds _ (digits_all_digits n) 0) as B.
  fold (value (digits n)) in B. rewrite (digits_value n N) in B.
  destruct (Nat.lt_ge_cases k (String.length (digits n))) as [L | L];
    [exact L |].
  assert (10 ^ Z.of_nat (String.length (digits n)) <= 10 ^ Z.of_nat k)
    by (apply Z.pow_le_mono_r; lia).
  lia.
Qed.

(** Two strings of digits followed by something that is no digit are equal
    when the whole strings are. *)
Lemma digit_prefix_unique (a : string) :
  forall b c d r r',
  all_digits a = true -> all_digits b = true ->
  is_digit c = false -> is_digit d = false ->
  (a ++ String c r = b ++ String d r')%string -> a = b.
Proof.
  induction a as [| x a IH]; intros [| y b] c d r r' Da Db Nc Nd E;
    cbn [append all_digits] in *.
  - reflexivity.
  - injection E as -> _. apply andb_true_iff in Db as [Db _]. congruence.
  - injection E as -> _. apply andb_true_iff in Da as [Da _]. congruence.
  - injection E as -> E. apply andb_true_iff in Da as [_ Da].
    apply andb_true_iff in Db as [_ Db]. f_equal.
    exact (IH b c d r r' Da Db Nc Nd E).
Qed.

End DigitFacts.

Section NameTheorems.
Context {backend : Torch.Backend}.
Import Finetune.

Lemma zfill_str_spec (n : Z) :
  0 <= n -> Py.zfill 4 (Py.str n) = Spec.zero_padded 4 n.
Proof. intros H. now rewrite zfill_digits. Qed.

(** X8. The index field of a checkpoint name, [str(n).zfill(4)], consists
    of digits and reads back as [n]; it has exactly four characters for an
    index below 10000 and is the unpadded number, of five or more digits,
    from 10000 on. *)
Theorem X8_index_field (n : Z) :
  0 <= n ->
  Py.all_digits (Py.zfill 4 (Py.str n)) = true /\
  Py.value (Py.zfill 4 (Py.str n)) = n /\
  (n < 10000 -> String.length (Py.zfill 4 (Py.str n)) = 4%nat) /\
  (10000 <= n ->
   Py.zfill 4 (Py.str n) = Py.str n /\
   (5 <= String.length (Py.zfill 4 (Py.str n)))%nat).
Proof.
  intros H. rewrite zfill_str_spec by assumption.
  split; [apply zero_padded_all_digits |].
  split; [now apply zero_padded_value |].
  split.
  - intros L. apply (zero_padded_length 3). change (10 ^ Z.of_nat 4) with 10000.
    lia.
  - intros G. pose proof (digits_length_gt n 4 G) as L.
    unfold Spec.zero_padded, Py.str.
    destruct (n <? 0) eqn:E; [apply Z.ltb_lt in E; lia |].
    replace (4 - String.length (Py.digits n))%nat with O by lia.
    cbn [Py.zeros append]. split; [reflexivity | lia].
Qed.

Lemma checkpoint_path_inj (a b : Z) (acc : Py.pyfloat) (cfg : config) :
  0 <= a -> 0 <= b ->
  checkpoint_path a acc cfg = checkpoint_path b acc cfg -> a = b.
Proof.
  intros Ha Hb E. unfold checkpoint_path in E.
  cbn [append] in E. repeat (injection E as E).
  rewrite !zfill_str_spec in E by assumption.
  apply digit_prefix_unique in E;
    [ | apply zero_padded_all_digits | apply zero_padded_all_digits
      | reflexivity | reflexivity ].
  rewrite <- (zero_padded_value 4 a Ha), <- (zero_padded_value 4 b Hb).
  now rewrite E.
Qed.

Lemma checkpoint_file_differ (a b : Z) (acc : Py.pyfloat) (cfg : config) :
  0 <= a -> 0 <= b -> a <> b ->
  checkpoint_file a acc cfg <> checkpoint_file b acc cfg.
Proof.
  intros Ha Hb N E. apply N, (checkpoint_path_inj a b acc cfg Ha Hb).
  now rewrite !checkpoint_path_file, E.
Qed.

(** X7. Checkpoints of different indices get different file names (same
    accuracy, seed and tag), so one save never overwrites the file of
    another index. *)
Theorem X7_names_differ (a b : Z) (acc : Py.pyfloat) (cfg : config) :
  0 <= a -> 0 <= b -> a <> b ->
  checkpoint_path a acc cfg <> checkpoint_path b acc cfg /\
  checkpoint_file a acc cfg <> checkpoint_file b acc cfg.
Proof.
  intros Ha Hb N. split.
  - intros E. now apply N, (checkpoint_path_inj a b acc cfg).
  - now apply checkpoint_file_differ.
Qed.

End NameTheorems.

Lemma X7_names_differ_witness :
  0 <= 0 /\ 0 <= 1 /\ 0 <> 1 /\
  Finetune.checkpoint_path 0 (Py.Finite (1 # 1)) Sample.config <>
  Finetune.checkpoint_path 1 (Py.Finite (1 # 1)) Sample.config.
Proof.
  assert (A : 0 <= 0) by lia. assert (B : 0 <= 1) by lia.
  assert (N : 0 <> 1) by lia.
  split; [exact A |]. split; [exact B |]. split; [exact N |].
  exact (proj1 (X7_names_differ 0 1 (Py.Finite (1 # 1)) Sample.config A B N)).
Defined.

Lemma X8_index_field_witness :
  0 <= 7 /\ Py.value (Py.zfill 4 (Py.str 7)) = 7.
Proof.
  assert (A : 0 <= 7) by lia.
  split; [exact A |].
  exact (proj1 (proj2 (X8_index_field 7 A))).
Defined.

(* ================================================================== *)
(** * The files of a run                                                *)
(* ================================================================== *)


Section LoopFacts.
Context {backend : Torch.Backend} {training : Finetune.Training}.
Import Finetune.

(** The counter counts the files written. *)
Lemma loop_counter (cfg : config) (tb : nat) (opt : Torch.optimizer)
  (its : list (Z * Z)) :
  forall st,
  ckpt_num (Eff.final (loop cfg tb opt its st)) =
  ckpt_num st + Z.of_nat (count_saved (Eff.trace (loop cfg tb opt its st))).
Proof.
  unfold count_saved.
  induction its as [| [j b] its IH]; intros st.
  - cbn [loop Eff.for_each Eff.ret Eff.final Eff.trace saved_paths List.length].
    change (Z.of_nat 0) with 0. now rewrite Z.add_0_r.
  - rewrite loop_cons. unfold Eff.bind. rewrite body_run. cbv zeta.
    destruct (save_due b (Z.of_nat tb)).
    + destruct (checkpoint st) as [| | files];
        [ | run_eff; cbn [saved_paths List.length]; lia | ];
        (destruct (Py.contains "/" (tag cfg));
         [ run_eff; cbn [saved_paths List.length]; lia |];
         destruct (ckpt_num st + 1 >=? total_save_number cfg); run_eff;
         cbn [saved_paths List.length];
         [ lia | rewrite IH; cbn [ckpt_num]; lia ]).
    + destruct (ckpt_num st >=? total_save_number cfg); run_eff;
        cbn [saved_paths List.length]; [lia |].
      rewrite IH. cbn [ckpt_num set_model]. lia.
Qed.

(** The objects saved are the state of models that keep what the steps
    keep. *)
Lemma loop_saved_objects (cfg : config) (tb : nat) (opt : Torch.optimizer)
  (P : Torch.nn_module -> Prop) :
  (forall j b m, P m -> P (trained opt j b m)) ->
  forall its st, P (model st) ->
  Forall (fun obj => exists m, P m /\ obj = save_state m)
         (saved_objects (Eff.trace (loop cfg tb opt its st))).
Proof.
  intros Keep. induction its as [| [j b] its IH]; intros st H; [constructor |].
  rewrite loop_cons. unfold Eff.bind. rewrite body_run. cbv zeta.
  specialize (Keep j b _ H).
  destruct (save_due b (Z.of_nat tb)).
  - destruct (checkpoint st) as [| | files];
      [ | run_eff; constructor | ];
      (destruct (Py.contains "/" (tag cfg)); [ run_eff; constructor |];
       destruct (ckpt_num st + 1 >=? total_save_number cfg); run_eff;
       cbn [saved_objects];
       (constructor; [eauto |]); [constructor | now apply IH]).
  - destruct (ckpt_num st >=? total_save_number cfg); run_eff;
      cbn [saved_objects]; [constructor | now apply IH].
Qed.

(** Every file the loop saves is in the directory at the end, and the
    files of other names are as they were. *)
Lemma loop_persist (cfg : config) (tb : nat) (opt : Torch.optimizer)
  (its : list (Z * Z)) :
  forall st, 0 <= ckpt_num st ->
  (forall p obj,
     In (Saved p obj) (Eff.trace (loop cfg tb opt its st)) ->
     exists name,
       p = ("checkpoint/" ++ name)%string /\
       FS.lookup name
         (FS.files_of (checkpoint (Eff.final (loop cfg tb opt its st)))) =
       Some obj) /\
  (forall name,
     ~ In ("checkpoint/" ++ name)%string
          (saved_paths (Eff.trace (loop cfg tb opt its st))) ->
     FS.lookup name
       (FS.files_of (checkpoint (Eff.final (loop cfg tb opt its st)))) =
     FS.lookup name (FS.files_of (checkpoint st))).
Proof.
  induction its as [| [j b] its IH]; intros st K.
  { split; [intros p obj [] | reflexivity]. }
  rewrite loop_cons. unfold Eff.bind. rewrite body_run. cbv zeta.
  set (m := trained opt j b (model st)).
  set (k := ckpt_num st) in *.
  assert (Later : forall st', ckpt_num st' = k + 1 ->
            ~ In (checkpoint_path k (Py.Finite (1 # 1)) cfg)
                 (saved_paths (Eff.trace (loop cfg tb opt its st')))).
  { intros st' E I.
    rewrite (shape_paths _ _ _ _ _ _ (loop_shape cfg tb opt its st')) in I.
    apply in_map_iff in I as [n [I _]]. rewrite E in I.
    apply checkpoint_path_inj in I; lia. }
  destruct (save_due b (Z.of_nat tb)).
  - destruct (checkpoint st) as [| | files] eqn:D.
    + (* nothing at 'checkpoint' *)
      destruct (Py.contains "/" (tag cfg)); run_eff.
      * split; [intros p obj [E | []]; discriminate E | reflexivity].
      * destruct (k + 1 >=? total_save_number cfg); run_eff.
        -- split.
           ++ intros p obj [E | [E | [E | [E | []]]]]; try discriminate E.
              injection E as <- <-. exists (checkpoint_file k (Py.Finite (1 # 1)) cfg).
              split; [reflexivity | apply lookup_store_eq].
           ++ intros name N. cbn [saved_paths In] in N.
              apply lookup_store_ne. intros E. apply N. left.
              now rewrite checkpoint_path_file, E.
        -- match goal with
           | |- context [loop cfg tb opt its ?s] =>
               destruct (IH s ltac:(cbn [ckpt_num]; lia)) as [IH1 IH2];
               specialize (Later s eq_refl)
           end.
           cbn [checkpoint FS.files_of] in IH2. split.
           ++ intros p obj [E | [E | [E | I]]]; try discriminate E.
              ** injection E as <- <-. exists (checkpoint_file k (Py.Finite (1 # 1)) cfg).
                 split; [reflexivity |].
                 rewrite IH2 by exact Later. apply lookup_store_eq.
              ** now apply IH1.
           ++ intros name N. cbn [saved_paths In] in N.
              rewrite IH2 by tauto.
              apply lookup_store_ne. intros E. apply N. left.
              now rewrite checkpoint_path_file, E.
    + (* 'checkpoint' is no directory *)
      run_eff. rewrite D.
      split; [intros p obj [E | []]; discriminate E | reflexivity].
    + (* 'checkpoint' is a directory *)
      destruct (Py.contains "/" (tag cfg)); run_eff.
      * split; [intros p obj [E | []]; discriminate E | reflexivity].
      * destruct (k + 1 >=? total_save_number cfg); run_eff.
        -- split.
           ++ intros p obj [E | [E | [E | [E | []]]]]; try discriminate E.
              injection E as <- <-. exists (checkpoint_file k (Py.Finite (1 # 1)) cfg).
              split; [reflexivity | apply lookup_store_eq].
           ++ intros name N. cbn [saved_paths In] in N.
              apply lookup_store_ne. intros E. apply N. left.
              now rewrite checkpoint_path_file, E.
        -- match goal with
           | |- context [loop cfg tb opt its ?s] =>
               destruct (IH s ltac:(cbn [ckpt_num]; lia)) as [IH1 IH2];
               specialize (Later s eq_refl)
           end.
           cbn [checkpoint FS.files_of] in IH2. split.
           ++ intros p obj [E | [E | [E | I]]]; try discriminate E.
              ** injection E as <- <-. exists (checkpoint_file k (Py.Finite (1 # 1)) cfg).
                 split; [reflexivity |].
                 rewrite IH2 by exact Later. apply lookup_store_eq.
              ** now apply IH1.
           ++ intros name N. cbn [saved_paths In] in N.
              rewrite IH2 by tauto.
              apply lookup_store_ne. intros E. apply N. left.
              now rewrite checkpoint_path_file, E.
  - destruct (k >=? total_save_number cfg); run_eff.
    + split; [intros p obj [E | [E | []]]; discriminate E | reflexivity].
    + match goal with
      | |- context [loop cfg tb opt its ?s] =>
          destruct (IH s K) as [IH1 IH2]
      end.
      cbn [checkpoint set_model] in IH2. split.
      * intros p obj [E | I]; [discriminate E | now apply IH1].
      * intros name N. now apply IH2.
Qed.

End LoopFacts.

Section NamesKept.
Context {backend : Torch.Backend}.
Import Torch.

Lemma state_dict_keys (m : nn_module) : map fst (state_dict m) = map e_name m.
Proof. unfold state_dict. rewrite map_map. reflexivity. Qed.

Lemma step_from_names (upd : nat -> tensor -> tensor) (opt : optimizer)
  (m : nn_module) :
  forall i, map e_name (step_from i upd opt m) = map e_name m.
Proof.
  induction m as [| e m IH]; intros i; cbn [step_from map]; [reflexivity |].
  rewrite IH. f_equal.
  now destruct (existsb (Nat.eqb i) (params opt) && requires_grad e)%bool.
Qed.

Lemma buffers_from_names (stat : nat -> tensor -> tensor) (m : nn_module) :
  forall i, map e_name (buffers_from i stat m) = map e_name m.
Proof.
  induction m as [| e m IH]; intros i; cbn [buffers_from map]; [reflexivity |].
  rewrite IH. f_equal. now destruct (is_parameter e).
Qed.

Lemma flagged_names (m : nn_module) :
  map e_name (map Finetune.flagged m) = map e_name m.
Proof.
  rewrite map_map. apply map_ext. intros e. unfold Finetune.flagged.
  now destruct (is_parameter e).
Qed.

End NamesKept.

Section RunTheorems.
Context {backend : Torch.Backend} {training : Finetune.Training}.
Import Finetune.

Lemma trained_names (opt : Torch.optimizer) (j b : Z) (m : Torch.nn_module) :
  map Torch.e_name (trained opt j b m) = map Torch.e_name m.
Proof.
  unfold trained, Torch.optimizer_step, Torch.forward_train.
  now rewrite step_from_names, buffers_from_names.
Qed.

(** X4. No checkpoint of a run overwrites another: the paths written are
    pairwise different, every object written is in the directory under its
    name when the run ends, and a file of the directory whose name the run
    did not write is as it was before. *)
Theorem X4_checkpoints_persist (cfg : config) (tb : nat)
  (pretrained : Torch.nn_module) (dir : FS.slot saved) :
  NoDup (saved_paths (Eff.trace (script cfg tb pretrained dir))) /\
  (forall p obj,
     In (Saved p obj) (Eff.trace (script cfg tb pretrained dir)) ->
     exists name,
       p = ("checkpoint/" ++ name)%string /\
       FS.lookup name
         (FS.files_of (checkpoint (Eff.final (script cfg tb pretrained dir)))) =
       Some obj) /\
  (forall name,
     ~ In ("checkpoint/" ++ name)%string
          (saved_paths (Eff.trace (script cfg tb pretrained dir))) ->
     FS.lookup name
       (FS.files_of (checkpoint (Eff.final (script cfg tb pretrained dir)))) =
     FS.lookup name (FS.files_of dir)).
Proof.
  split.
  - rewrite (shape_paths _ _ _ _ _ _ (script_shape cfg tb pretrained dir)).
    apply Injective_map_NoDup; [| apply seq_NoDup].
    intros a b E. apply checkpoint_path_inj in E; lia.
  - rewrite script_loop.
    apply (loop_persist cfg tb _ (schedule 6 tb) (Machine dir _ 0)).
    cbn [ckpt_num]. lia.
Qed.

(** X6. All checkpoints of a run have the same keys, in the same order:
    the keys of the pretrained model's state dictionary that contain one of
    the four names. *)
Theorem X6_same_keys_in_every_checkpoint (cfg : config) (tb : nat)
  (pretrained : Torch.nn_module) (dir : FS.slot saved) :
  Forall (fun obj =>
            map fst obj =
            filter any_norm_in (map fst (Torch.state_dict pretrained)))
         (saved_objects (Eff.trace (script cfg tb pretrained dir))).
Proof.
  rewrite script_loop.
  eapply Forall_impl;
    [ | apply (loop_saved_objects cfg tb _
                 (fun m => map Torch.e_name m = map Torch.e_name pretrained)) ].
  - intros obj [m [P ->]]. cbv beta in P.
    now rewrite save_state_keys, !state_dict_keys, P.
  - intros j b m P. now rewrite trained_names.
  - cbn [model]. apply flagged_names.
Qed.

(** X5. When the path ['checkpoint'] holds something that is no directory
    (and the loader has at least three batches and the quota is positive),
    the run makes the three steps of batches 0, 1 and 2, then the first
    [save_checkpoint] raises [FileExistsError] from [os.mkdir]; no file is
    written and the path is left as it was. *)
Theorem X5_checkpoint_is_a_file (cfg : config) (tb : nat)
  (pretrained : Torch.nn_module) :
  (3 <= tb)%nat ->
  1 <= total_save_number cfg ->
  Eff.result (script cfg tb pretrained FS.NotADirectory) =
    inl Py.FileExistsError /\
  steps (Eff.trace (script cfg tb pretrained FS.NotADirectory)) =
    [(0, 0); (0, 1); (0, 2)] /\
  count_saved (Eff.trace (script cfg tb pretrained FS.NotADirectory)) = 0%nat /\
  checkpoint (Eff.final (script cfg tb pretrained FS.NotADirectory)) =
    FS.NotADirectory.
Proof.
  intros T Q. rewrite script_loop.
  destruct tb as [| [| [| n]]]; try lia.
  assert (S : exists rest,
            schedule 6 (S (S (S n))) = (0, 0) :: (0, 1) :: (0, 2) :: rest)
    by (eexists; reflexivity).
  destruct S as [rest ->].
  assert (Q0 : (0 >=? total_save_number cfg) = false)
    by (rewrite Z.geb_leb; apply Z.leb_gt; lia).
  rewrite loop_cons. unfold Eff.bind. rewrite body_run. cbv zeta.
  rewrite save_due_gt. change (1 <? 0) with false. cbn [ckpt_num].
  rewrite Q0. run_eff.
  rewrite loop_cons. unfold Eff.bind. rewrite body_run. cbv zeta.
  rewrite save_due_gt. change (1 <? 1) with false. cbn [ckpt_num set_model checkpoint].
  rewrite Q0. run_eff.
  rewrite loop_cons. unfold Eff.bind. rewrite body_run. cbv zeta.
  rewrite save_due_gt. change (1 <? 2) with true. run_eff.
  repeat split.
Qed.

End RunTheorems.


Lemma X5_checkpoint_is_a_file_witness :
  (3 <= 4)%nat /\
  1 <= Finetune.total_save_number Sample.config /\
  Eff.result
    (@Finetune.script Sample.backend Sample.training Sample.config 4
       Sample.resnet FS.NotADirectory) = inl Py.FileExistsError.
Proof.
  assert (T : (3 <= 4)%nat) by lia.
  assert (Q : 1 <= Finetune.total_save_number Sample.config)
    by (vm_compute; discriminate).
  split; [exact T |]. split; [exact Q |].
  exact (proj1 (@X5_checkpoint_is_a_file Sample.backend Sample.training
                  Sample.config 4 Sample.resnet T Q)).
Defined.

(* ================================================================== *)
(** * Saves, the model and the directory                                *)
(* ================================================================== *)

Lemma append_inj_l (p a b : string) : (p ++ a = p ++ b)%string -> a = b.
Proof.
  induction p as [| c p IH]; cbn [append]; intros E; [exact E |].
  injection E as E. now apply IH.
Qed.

Section SavedFacts.
Context {backend : Torch.Backend} {training : Finetune.Training}.
Import Finetune.

Lemma saved_paths_in (p : string) (t : list event) :
  In p (saved_paths t) -> exists obj, In (Saved p obj) t.
Proof.
  induction t as [| [j b | q o | line] t IH]; cbn [saved_paths In];
    [easy | | | ].
  - intros I. destruct (IH I) as [obj H]. eauto.
  - intros [-> | I]; [eauto |]. destruct (IH I) as [obj H]. eauto.
  - intros I. destruct (IH I) as [obj H]. eauto.
Qed.

Lemma model_after_cons (opt : Torch.optimizer) (j b : Z) (its : list (Z * Z))
  (m : Torch.nn_module) :
  model_after opt ((j, b) :: its) m = model_after opt its (trained opt j b m).
Proof. reflexivity. Qed.

(** The object of a save that follows a step is the selected state of the
    model as the steps up to that one have left it. *)
Lemma loop_saved_model (cfg : config) (tb : nat) (opt : Torch.optimizer)
  (its : list (Z * Z)) :
  forall st pre j b p o post,
  Eff.trace (loop cfg tb opt its st) = pre ++ Step j b :: Saved p o :: post ->
  o = save_state (model_after opt (steps pre ++ [(j, b)]) (model st)).
Proof.
  induction its as [| [j0 b0] its IH]; intros st pre j b p o post H.
  { cbn in H. peel. }
  revert H. rewrite loop_cons. unfold Eff.bind. rewrite body_run. cbv zeta.
  assert (Head : forall st' q u rest,
            Eff.trace (loop cfg tb opt its st') <> Saved q u :: rest).
  { intros st' q u rest E.
    destruct (shape_head _ _ _ _ _ _ (loop_shape cfg tb opt its st'))
      as [N | [j' [b' [t' N]]]]; rewrite N in E; discriminate E. }
  destruct (save_due b0 (Z.of_nat tb)).
  - destruct (checkpoint st) as [| | files];
      [ | run_eff; intros H; repeat peel | ];
      (destruct (Py.contains "/" (tag cfg));
       [ run_eff; intros H; repeat peel |];
       destruct (ckpt_num st + 1 >=? total_save_number cfg); run_eff;
       intros H; (peel; [reflexivity |]); peel; peel;
       [ repeat peel
       | cbn [steps app]; rewrite model_after_cons;
         match goal with
         | E : Eff.trace (loop cfg tb opt its ?s) = _ |- _ =>
             exact (IH s _ _ _ _ _ _ E)
         end ]).
  - destruct (ckpt_num st >=? total_save_number cfg); run_eff; intros H.
    + repeat peel.
    + peel.
      * match goal with
        | E : Eff.trace (loop cfg tb opt its ?s) = _ |- _ =>
            destruct (Head _ _ _ _ E)
        end.
      * cbn [steps app]. rewrite model_after_cons.
        match goal with
        | E : Eff.trace (loop cfg tb opt its ?s) = _ |- _ =>
            exact (IH s _ _ _ _ _ _ E)
        end.
Qed.

(** Every checkpoint a run has counted is a file of the directory when the
    run ends. *)
Lemma script_files (cfg : config) (tb : nat) (pretrained : Torch.nn_module)
  (dir : FS.slot saved) (n : nat) :
  (n < count_saved (Eff.trace (script cfg tb pretrained dir)))%nat ->
  exists obj,
    In (Saved (checkpoint_path (Z.of_nat n) (Py.Finite (1 # 1)) cfg) obj)
       (Eff.trace (script cfg tb pretrained dir)) /\
    FS.lookup (checkpoint_file (Z.of_nat n) (Py.Finite (1 # 1)) cfg)
      (FS.files_of (checkpoint (Eff.final (script cfg tb pretrained dir)))) =
    Some obj.
Proof.
  intros L.
  assert (I : In (checkpoint_path (Z.of_nat n) (Py.Finite (1 # 1)) cfg)
                 (saved_paths (Eff.trace (script cfg tb pretrained dir)))).
  { rewrite (shape_paths _ _ _ _ _ _ (script_shape cfg tb pretrained dir)).
    apply in_map_iff. exists n. split; [reflexivity |].
    apply in_seq. lia. }
  destruct (saved_paths_in _ _ I) as [obj H]. exists obj. split; [exact H |].
  revert H. rewrite script_loop. intros H.
  destruct (proj1 (loop_persist cfg tb _ (schedule 6 tb) (Machine dir _ 0)
                     ltac:(cbn [ckpt_num]; lia)) _ _ H) as [name [E F]].
  rewrite checkpoint_path_file in E. apply append_inj_l in E. now rewrite E.
Qed.

End SavedFacts.

Section SavingClaim.
Context {backend : Torch.Backend} {training : Finetune.Training}.
Import Finetune.

(** C6. With [save_interval = 1] the test of the loop is [batch_idx > 1];
    no save follows a step with batch index 0 or 1; and with a usable
    directory every step with a batch index above 1 is followed at once by
    the save of the next checkpoint: [torch.save] writes, under the name of
    the next index, the selected state of the model as that step has left
    it, and the file is in the directory with that content when the run
    ends. *)
Theorem C6_save_after_second_batch (cfg : config) (tb : nat)
  (pretrained : Torch.nn_module) (dir : FS.slot saved) :
  (forall b t, save_due b t = (1 <? b)) /\
  (forall pre j b post,
     Eff.trace (script cfg tb pretrained dir) = pre ++ Step j b :: post ->
     b <= 1 ->
     forall p o post', post <> Saved p o :: post') /\
  (writable cfg dir = true ->
   forall pre j b post,
     Eff.trace (script cfg tb pretrained dir) = pre ++ Step j b :: post ->
     1 < b ->
     let m :=
       model_after (snd (fst (get_optimizer_and_scheduler pretrained cfg tb)))
                   (steps pre ++ [(j, b)])
                   (fst (fst (get_optimizer_and_scheduler pretrained cfg tb))) in
     (exists post',
        post =
        Saved (checkpoint_path (Z.of_nat (count_saved pre)) (Py.Finite (1 # 1)) cfg)
              (save_state m)
        :: post') /\
     FS.lookup
       (checkpoint_file (Z.of_nat (count_saved pre)) (Py.Finite (1 # 1)) cfg)
       (FS.files_of (checkpoint (Eff.final (script cfg tb pretrained dir)))) =
     Some (save_state m)).
Proof.
  pose proof (script_shape cfg tb pretrained dir) as Sh.
  split; [exact save_due_gt |]. split.
  - exact (shape_no_save_after _ _ _ _ _ _ Sh).
  - intros W pre j b post E B. cbv zeta.
    destruct (shape_save_after _ _ _ _ _ _ Sh (script_writable _ _ _ _ W)
                pre j b post E B) as [o [post' ->]].
    rewrite Z.add_0_l in E.
    rewrite get_optimizer_and_scheduler_eq. cbn [fst snd].
    assert (O : o = save_state
                      (model_after
                         (Torch.Optimizer (snd (select_trainable 0 pretrained))
                            (learning_rate cfg) (weight_decay cfg))
                         (steps pre ++ [(j, b)]) (map flagged pretrained))).
    { revert E. rewrite script_loop. intros E.
      exact (loop_saved_model _ _ _ _ _ _ _ _ _ _ _ E). }
    subst o. rewrite Z.add_0_l. split; [eauto |].
    assert (I : In (Saved (checkpoint_path (Z.of_nat (count_saved pre))
                             (Py.Finite (1 # 1)) cfg)
                      (save_state
                         (model_after
                            (Torch.Optimizer (snd (select_trainable 0 pretrained))
                               (learning_rate cfg) (weight_decay cfg))
                            (steps pre ++ [(j, b)]) (map flagged pretrained))))
                   (Eff.trace (script cfg tb pretrained dir))).
    { rewrite E. apply in_or_app. right. right. now left. }
    revert I. rewrite script_loop. intros I.
    destruct (proj1 (loop_persist cfg tb _ (schedule 6 tb) (Machine dir _ 0)
                       ltac:(cbn [ckpt_num]; lia)) _ _ I) as [name [N F]].
    rewrite checkpoint_path_file in N. apply append_inj_l in N.
    now rewrite N.
Qed.

(** X3. At the end of every run, however it ends, the counter [ckpt_num]
    is the number of checkpoint files the run wrote, and the file of every
    index below it is in the directory. *)
Theorem X3_counter_counts_files (cfg : config) (tb : nat)
  (pretrained : Torch.nn_module) (dir : FS.slot saved) :
  ckpt_num (Eff.final (script cfg tb pretrained dir)) =
  Z.of_nat (count_saved (Eff.trace (script cfg tb pretrained dir))) /\
  forall n,
    0 <= n < ckpt_num (Eff.final (script cfg tb pretrained dir)) ->
    exists obj,
      FS.lookup (checkpoint_file n (Py.Finite (1 # 1)) cfg)
        (FS.files_of (checkpoint (Eff.final (script cfg tb pretrained dir)))) =
      Some obj.
Proof.
  assert (C : ckpt_num (Eff.final (script cfg tb pretrained dir)) =
              Z.of_nat (count_saved (Eff.trace (script cfg tb pretrained dir))))
    by (rewrite script_loop, loop_counter; reflexivity).
  split; [exact C |]. intros n N. rewrite C in N.
  destruct (script_files cfg tb pretrained dir (Z.to_nat n) ltac:(lia))
    as [obj [_ F]].
  rewrite Z2Nat.id in F by lia. eauto.
Qed.

(** X1. With a usable directory a run saves exactly as many checkpoints as
    the quota asks for, or as six passes have batches with an index above 1
    when these are fewer: [min (max quota 0) (6 * (total_batches - 2))]; and
    each of them is a file of the directory when the run ends. *)
Theorem X1_number_of_checkpoints (cfg : config) (tb : nat)
  (pretrained : Torch.nn_module) (dir : FS.slot saved) :
  writable cfg dir = true ->
  Z.of_nat (count_saved (Eff.trace (script cfg tb pretrained dir))) =
  Z.min (Z.max 0 (total_save_number cfg)) (Z.of_nat (6 * (tb - 2))) /\
  forall n,
    0 <= n < Z.min (Z.max 0 (total_save_number cfg)) (Z.of_nat (6 * (tb - 2))) ->
    exists obj,
      FS.lookup (checkpoint_file n (Py.Finite (1 # 1)) cfg)
        (FS.files_of (checkpoint (Eff.final (script cfg tb pretrained dir)))) =
      Some obj.
Proof.
  intros W.
  assert (C : Z.of_nat (count_saved (Eff.trace (script cfg tb pretrained dir))) =
              Z.min (Z.max 0 (total_save_number cfg)) (Z.of_nat (6 * (tb - 2)))).
  { rewrite (shape_count_exact cfg tb _ _ _ _ (script_shape cfg tb pretrained dir)
               (script_writable _ _ _ _ W) (or_intror (schedule_head_small 6 tb))).
    now rewrite dues_schedule, Z.sub_0_r. }
  split; [exact C |]. intros n N. rewrite <- C in N.
  destruct (script_files cfg tb pretrained dir (Z.to_nat n) ltac:(lia))
    as [obj [_ F]].
  rewrite Z2Nat.id in F by lia. eauto.
Qed.

(** X2. With a usable directory a run ends by [exit(0)] exactly when the
    training loader has a batch and six passes offer enough saves for the
    quota; otherwise it falls off the end of the loop. *)
Theorem X2_exit_when_quota_reachable (cfg : config) (tb : nat)
  (pretrained : Torch.nn_module) (dir : FS.slot saved) :
  writable cfg dir = true ->
  (Eff.result (script cfg tb pretrained dir) = inl (Py.SystemExit 0) <->
   (0 < tb)%nat /\ total_save_number cfg <= Z.of_nat (6 * (tb - 2))) /\
  (Eff.result (script cfg tb pretrained dir) = inr tt <->
   tb = O \/ Z.of_nat (6 * (tb - 2)) < total_save_number cfg).
Proof.
  intros W.
  pose proof (script_writable cfg tb pretrained dir W) as R.
  pose proof (shape_exit cfg tb _ _ _ _ (script_shape cfg tb pretrained dir) R
                (or_intror (schedule_head_small 6 tb))) as X.
  rewrite dues_schedule in X.
  assert (N : schedule 6 tb <> [] <-> (0 < tb)%nat).
  { rewrite schedule_nil_iff. lia. }
  assert (E : Eff.result (script cfg tb pretrained dir) = inl (Py.SystemExit 0) <->
              (0 < tb)%nat /\ total_save_number cfg <= Z.of_nat (6 * (tb - 2))).
  { rewrite X, N. lia. }
  split; [exact E |].
  destruct R as [R | R]; rewrite R in *.
  - split; [| reflexivity]. intros _.
    destruct (Nat.eq_dec tb 0) as [-> | T]; [now left | right].
    destruct (Z_lt_le_dec (Z.of_nat (6 * (tb - 2))) (total_save_number cfg))
      as [L | L]; [exact L |].
    assert (A : (0 < tb)%nat /\ total_save_number cfg <= Z.of_nat (6 * (tb - 2)))
      by (split; [lia | exact L]).
    apply E in A. discriminate A.
  - split; [discriminate |]. intros H.
    destruct (proj1 E eq_refl) as [T L]. lia.
Qed.

End SavingClaim.

Lemma C6_save_after_second_batch_witness :
  @Finetune.writable Sample.backend Sample.config3 FS.Missing = true /\
  FS.lookup
    (Finetune.checkpoint_file
       (Z.of_nat
          (@Finetune.count_saved Sample.backend
             [Finetune.Step 0 0; Finetune.Step 0 1]))
       (Py.Finite (1 # 1)) Sample.config3)
    (FS.files_of
       (@Finetune.checkpoint Sample.backend
          (Eff.final
             (@Finetune.script Sample.backend Sample.training Sample.config3 4
                Sample.resnet FS.Missing)))) =
  Some
    (@Finetune.save_state Sample.backend
       (@model_after Sample.backend Sample.training
          (snd (fst (@Finetune.get_optimizer_and_scheduler Sample.backend Sample.resnet
                       Sample.config3 4)))
          (@Finetune.steps Sample.backend [Finetune.Step 0 0; Finetune.Step 0 1] ++ [(0, 2)])
          (fst (fst (@Finetune.get_optimizer_and_scheduler Sample.backend Sample.resnet
                       Sample.config3 4))))).
Proof.
  assert (W : @Finetune.writable Sample.backend Sample.config3 FS.Missing = true)
    by reflexivity.
  split; [exact W |].
  assert (E : Eff.trace
                (@Finetune.script Sample.backend Sample.training Sample.config3
                   4 Sample.resnet FS.Missing) =
              [Finetune.Step 0 0; Finetune.Step 0 1] ++
              Finetune.Step 0 2 ::
              skipn 3
                (Eff.trace
                   (@Finetune.script Sample.backend Sample.training
                      Sample.config3 4 Sample.resnet FS.Missing)))
    by (vm_compute; reflexivity).
  exact (proj2 (proj2 (proj2 (@C6_save_after_second_batch Sample.backend
                                Sample.training Sample.config3 4 Sample.resnet
                                FS.Missing)) W _ _ _ _ E ltac:(lia))).
Defined.

Lemma X1_number_of_checkpoints_witness :
  Finetune.writable Sample.config3 (@FS.Missing (@Finetune.saved Sample.backend)) = true /\
  Z.of_nat
    (Finetune.count_saved
       (Eff.trace
          (@Finetune.script Sample.backend Sample.training Sample.config3 4
             Sample.resnet FS.Missing))) =
  Z.min (Z.max 0 (Finetune.total_save_number Sample.config3))
        (Z.of_nat (6 * (4 - 2))).
Proof.
  assert (W : Finetune.writable Sample.config3
                (@FS.Missing (@Finetune.saved Sample.backend)) = true)
    by reflexivity.
  split; [exact W |].
  exact (proj1 (@X1_number_of_checkpoints Sample.backend Sample.training
                  Sample.config3 4 Sample.resnet FS.Missing W)).
Defined.

Lemma X2_exit_when_quota_reachable_witness :
  Finetune.writable Sample.config3 (@FS.Missing (@Finetune.saved Sample.backend)) = true /\
  Eff.result
    (@Finetune.script Sample.backend Sample.training Sample.config3 4
       Sample.resnet FS.Missing) = inl (Py.SystemExit 0).
Proof.
  assert (W : Finetune.writable Sample.config3
                (@FS.Missing (@Finetune.saved Sample.backend)) = true)
    by reflexivity.
  split; [exact W |].
  apply (proj1 (@X2_exit_when_quota_reachable Sample.backend Sample.training
                  Sample.config3 4 Sample.resnet FS.Missing W)).
  split; [lia | vm_compute; discriminate].
Defined.

(* ================================================================== *)
(** * The accuracy field; the optimizer                                 *)
(* ================================================================== *)

Lemma round_half_even_nonneg (n : Z) (d : positive) :
  0 <= n -> 0 <= Py.round_half_even n d.
Proof.
  intros H. unfold Py.round_half_even.
  assert (0 <= n / Zpos d) by (apply Z.div_pos; lia).
  destruct (2 * (n mod Zpos d) ?= Zpos d); [destruct (Z.even _) | |]; lia.
Qed.

(** X9. The accuracy field [{acc:.4f}] of a checkpoint name.  For a finite
    accuracy it is a minus sign when the number is negative, the decimal
    digits of a whole number, a point and exactly four digits, and the
    number printed differs from the size of the accuracy by at most
    0.00005; for [-0.0] it is ["-0.0000"], for the infinities ["inf"] and
    ["-inf"], for a NaN ["nan"]. *)
Theorem X9_accuracy_field :
  (forall q : Q,
     exists units fraction,
       Py.format_4f (Py.Finite q) =
         ((if (Qnum q <? 0)%Z then "-" else EmptyString) ++
          Py.digits units ++ "." ++ fraction)%string /\
       0 <= units /\
       String.length fraction = 4%nat /\
       Py.all_digits fraction = true /\
       (Qabs (Qabs q - ((10000 * units + Py.value fraction) # 10000))
        <= 1 # 20000)%Q) /\
  Py.format_4f Py.NegZero = "-0.0000"%string /\
  Py.format_4f (Py.Inf false) = "inf"%string /\
  Py.format_4f (Py.Inf true) = "-inf"%string /\
  Py.format_4f Py.NaN = "nan"%string.
Proof.
  split; [| repeat split].
  intros q. rewrite (format_4f_shape q).
  set (s := Py.round_half_even (Z.abs (Qnum q) * 10000) (Qden q)).
  assert (S0 : 0 <= s) by (apply round_half_even_nonneg; lia).
  assert (M : 0 <= s mod 10000 < 10000) by (apply Z.mod_pos_bound; lia).
  exists (s / 10000), (Spec.zero_padded 4 (s mod 10000)).
  split; [reflexivity |].
  split; [apply Z.div_pos; lia |].
  split; [apply (zero_padded_length 3); exact M |].
  split; [apply zero_padded_all_digits |].
  rewrite zero_padded_value by lia.
  rewrite <- (Z.div_mod s 10000) by lia.
  pose proof (round_half_even_near (Z.abs (Qnum q) * 10000) (Qden q)) as N.
  fold s in N. destruct q as [n d]. cbn [Qnum Qden] in *.
  change (Qabs (n # d)) with (Z.abs n # d).
  revert N. generalize (Z.abs n). intros a N.
  unfold Qle, Qabs, Qminus, Qplus, Qopp. cbn [Qnum Qden].
  rewrite Pos2Z.inj_mul.
  replace (a * 10000 + - s * Z.pos d) with (- (s * Z.pos d - a * 10000)) by ring.
  rewrite Z.abs_opp.
  revert N. generalize (Z.abs (s * Z.pos d - a * 10000)). intros c N. lia.
Qed.

Section OptimizerTheorems.
Context {backend : Torch.Backend}.
Import Finetune.

Lemma flagged_state (m : Torch.nn_module) :
  Torch.state_dict (map flagged m) = Torch.state_dict m.
Proof.
  unfold Torch.state_dict. rewrite map_map. apply map_ext. intros e.
  unfold flagged. now destruct (Torch.is_parameter e).
Qed.

(** X10. [get_optimizer_and_scheduler] changes flags only: the state
    dictionary of the model is as before, every buffer is untouched, and
    every parameter gets [requires_grad] set to whether its name contains one
    of the four names, whatever the flag was. *)
Theorem X10_only_flags_change (m : Torch.nn_module) (cfg : config) (tb : nat) :
  Torch.state_dict (fst (fst (get_optimizer_and_scheduler m cfg tb))) =
    Torch.state_dict m /\
  forall i e,
    nth_error m i = Some e ->
    exists e',
      nth_error (fst (fst (get_optimizer_and_scheduler m cfg tb))) i = Some e' /\
      Torch.e_name e' = Torch.e_name e /\
      Torch.e_value e' = Torch.e_value e /\
      (Torch.is_parameter e = true ->
       Torch.e_kind e' = Torch.Param (any_norm_in (Torch.e_name e))) /\
      (Torch.is_parameter e = false -> e' = e).
Proof.
  rewrite get_optimizer_and_scheduler_eq. cbn [fst].
  split; [apply flagged_state |].
  intros i e H. exists (flagged e).
  split; [now rewrite nth_error_map, H |].
  unfold flagged. destruct (Torch.is_parameter e); repeat split;
    try reflexivity; discriminate.
Qed.

Lemma select_trainable_sorted (m : Torch.nn_module) :
  forall i,
  StronglySorted lt (snd (select_trainable i m)) /\
  Forall (fun p => (i <= p)%nat) (snd (select_trainable i m)) /\
  List.length (snd (select_trainable i m)) =
  List.length
    (filter (fun e => (Torch.is_parameter e && any_norm_in (Torch.e_name e))%bool) m).
Proof.
  induction m as [| e m IH]; intros i; cbn [select_trainable filter].
  - cbn. repeat constructor.
  - destruct (IH (S i)) as [Srt [F L]].
    destruct (select_trainable (S i) m) as [rest tr]. cbn [snd] in *.
    assert (F' : Forall (fun p => (i <= p)%nat) tr)
      by (eapply Forall_impl; [| exact F]; cbv beta; lia).
    destruct (Torch.is_parameter e);
      [destruct (any_norm_in (Torch.e_name e)) |]; cbn [snd andb List.length].
    + split; [| split].
      * constructor; [exact Srt |].
        eapply Forall_impl; [| exact F]. cbv beta. lia.
      * constructor; [lia | exact F'].
      * now rewrite L.
    + now split.
    + now split.
Qed.

(** X11. The optimizer gets each matching parameter once: the positions it
    holds are strictly increasing, and there are as many as the model has
    parameters whose name contains one of the four names. *)
Theorem X11_trainable_once (m : Torch.nn_module) (cfg : config) (tb : nat) :
  StronglySorted lt
    (Torch.params (snd (fst (get_optimizer_and_scheduler m cfg tb)))) /\
  NoDup (Torch.params (snd (fst (get_optimizer_and_scheduler m cfg tb)))) /\
  List.length (Torch.params (snd (fst (get_optimizer_and_scheduler m cfg tb)))) =
  List.length
    (filter (fun e => (Torch.is_parameter e && any_norm_in (Torch.e_name e))%bool) m).
Proof.
  rewrite get_optimizer_and_scheduler_eq. cbn [fst snd Torch.params].
  destruct (select_trainable_sorted m 0) as [Srt [_ L]].
  split; [exact Srt |]. split; [| exact L].
  clear L. induction Srt as [| p l Srt IH F]; constructor; [| exact IH].
  intros I. rewrite Forall_forall in F. specialize (F p I). lia.
Qed.

Lemma flagged_twice (e : Torch.entry) : flagged (flagged e) = flagged e.
Proof.
  unfold flagged. destruct (Torch.is_parameter e) eqn:P; [| now rewrite P].
  reflexivity.
Qed.

Lemma select_trainable_flagged (m : Torch.nn_module) :
  forall i,
  snd (select_trainable i (map flagged m)) = snd (select_trainable i m).
Proof.
  induction m as [| e m IH]; intros i; cbn [map select_trainable];
    [reflexivity |].
  specialize (IH (S i)).
  destruct (select_trainable (S i) (map flagged m)) as [rest' tr'].
  destruct (select_trainable (S i) m) as [rest tr]. cbn [snd] in IH. subst tr'.
  unfold flagged at 1 2.
  destruct (Torch.is_parameter e) eqn:P; cbn [Torch.is_parameter
    Torch.set_requires_grad Torch.e_kind Torch.e_name]; [| now rewrite P].
  now destruct (any_norm_in (Torch.e_name e)).
Qed.

(** X12. Calling [get_optimizer_and_scheduler] on the model it returns
    gives the same model, optimizer and scheduler again. *)
Theorem X12_get_optimizer_idempotent (m : Torch.nn_module) (cfg : config)
  (tb : nat) :
  get_optimizer_and_scheduler
    (fst (fst (get_optimizer_and_scheduler m cfg tb))) cfg tb =
  get_optimizer_and_scheduler m cfg tb.
Proof.
  rewrite !get_optimizer_and_scheduler_eq. cbn [fst].
  rewrite select_trainable_flagged, map_map.
  do 2 f_equal. apply map_ext, flagged_twice.
Qed.

End OptimizerTheorems.

(* ================================================================== *)
(** * reselect.py: errors, reruns, listing order                        *)
(* ================================================================== *)

Section MoreFSFacts.
Context {file : Type}.

(** Writing what is already there changes nothing. *)
Lemma store_same (name : string) (f : file) (files : list (string * file)) :
  FS.lookup name files = Some f -> FS.store name f files = files.
Proof.
  induction files as [| [n g] files IH]; cbn [FS.lookup FS.store]; [discriminate |].
  destruct (String.eqb n name); intros H.
  - now injection H as ->.
  - now rewrite IH.
Qed.

Lemma lookup_none (name : string) (files : list (string * file)) :
  ~ In name (map fst files) -> FS.lookup name files = None.
Proof.
  induction files as [| [n g] files IH]; cbn [map fst In FS.lookup];
    [reflexivity |].
  intros N. destruct (String.eqb_spec n name) as [-> | _]; [tauto |].
  apply IH. tauto.
Qed.

Lemma lookup_nodup (name : string) (f : file) (files : list (string * file)) :
  NoDup (map fst files) -> In (name, f) files -> FS.lookup name files = Some f.
Proof.
  induction files as [| [n g] files IH]; cbn [map fst In FS.lookup]; [easy |].
  intros D I. inversion D as [| ? ? N D']; subst.
  destruct (String.eqb_spec n name) as [-> | Ne].
  - destruct I as [E | I]; [now injection E as -> |].
    exfalso. apply N. now apply (in_map fst) in I.
  - destruct I as [E | I]; [injection E as -> _; congruence | now apply IH].
Qed.

Lemma lookup_some_in (name : string) (f : file) (files : list (string * file)) :
  FS.lookup name files = Some f -> In (name, f) files.
Proof.
  induction files as [| [n g] files IH]; cbn [FS.lookup In]; [discriminate |].
  destruct (String.eqb_spec n name) as [-> | _]; intros H.
  - injection H as ->. now left.
  - right. now apply IH.
Qed.

(** A directory read by name does not depend on the order of its listing. *)
Lemma lookup_perm (name : string) (files files' : list (string * file)) :
  NoDup (map fst files) -> Permutation files files' ->
  FS.lookup name files = FS.lookup name files'.
Proof.
  intros D P.
  assert (D' : NoDup (map fst files'))
    by (eapply Permutation_NoDup; [apply Permutation_map; exact P | exact D]).
  destruct (FS.lookup name files) as [f |] eqn:L.
  - symmetry. apply lookup_nodup; [exact D' |].
    eapply Permutation_in; [exact P | now apply lookup_some_in].
  - symmetry. apply lookup_none. intros I.
    apply (Permutation_in _ (Permutation_sym (Permutation_map fst P))) in I.
    destruct (lookup_in _ _ I) as [f F]. congruence.
Qed.

End MoreFSFacts.

(** An ascending list is determined by its elements. *)
Lemma ascending_unique (l : list string) :
  forall l', Spec.ascending l -> Spec.ascending l' -> Permutation l l' -> l = l'.
Proof.
  unfold Spec.ascending.
  induction l as [| x l IH]; intros l' A A' P.
  - now apply Permutation_nil in P.
  - destruct l' as [| y l'];
      [apply Permutation_sym, Permutation_nil in P; discriminate P |].
    inversion A as [| ? ? A1 F]; subst. inversion A' as [| ? ? A1' F']; subst.
    rewrite Forall_forall in F, F'.
    assert (E : x = y).
    { assert (Ix : In x (y :: l')) by (eapply Permutation_in; [exact P | now left]).
      assert (Iy : In y (x :: l))
        by (eapply Permutation_in; [exact (Permutation_sym P) | now left]).
      destruct Ix as [-> | Ix]; [reflexivity |].
      destruct Iy as [-> | Iy]; [reflexivity |].
      apply String.leb_antisym; [now apply F | now apply F']. }
    subst y. f_equal. apply IH; [assumption .. |].
    now apply Permutation_cons_inv in P.
Qed.

Lemma sort_perm_eq (l l' : list string) :
  Permutation l l' -> Py.sort l = Py.sort l'.
Proof.
  intros P. apply ascending_unique; try apply sort_ascending.
  rewrite (sort_perm l), P. symmetry. apply sort_perm.
Qed.

(** ["0000"] comes first among the strings of four digits. *)
Lemma leb_zeros (a : string) :
  forall r, Py.all_digits a = true ->
  String.leb (Py.zeros (String.length a) ++ r) (a ++ r) = true.
Proof.
  induction a as [| c a IH]; intros r D.
  - apply leb_refl.
  - cbn [Py.all_digits] in D. apply andb_true_iff in D as [Dc Da].
    specialize (IH r Da). unfold String.leb in *.
    cbn [String.length Py.zeros append String.compare].
    destruct (Ascii.compare "0" c) eqn:C.
    + exact IH.
    + reflexivity.
    + exfalso. unfold Ascii.compare in C. rewrite N.compare_gt_iff in C.
      unfold Py.is_digit in Dc. apply andb_true_iff in Dc as [Lo _].
      apply Nat.leb_le in Lo. unfold nat_of_ascii in Lo.
      change (N_of_ascii "0") with 48%N in C. lia.
Qed.

Section ReselectMore.
Import Reselect.

Lemma copy_effect (from target : string) (w : world) :
  target = "origin.pth"%string \/ target = "repeat.pth"%string ->
  source (Eff.final (copy from (Py.path_join dst target) w)) = source w /\
  (forall name, name <> target ->
     FS.lookup name (FS.files_of (dest (Eff.final (copy from (Py.path_join dst target) w)))) =
     FS.lookup name (FS.files_of (dest w))).
Proof.
  intros T. unfold copy. run_copy.
  destruct (read_path from w) as [e | content]; run_copy; [now split |].
  destruct w as [s d].
  destruct d as [| | dfiles];
    (destruct T as [-> | ->]; cbn; split; try reflexivity;
     intros name N; try reflexivity; now apply lookup_store_ne).
Qed.

End ReselectMore.

Section ReselectMoreFacts.
Import Reselect.


Lemma untouched_refl (w : world) : untouched w w.
Proof. now split. Qed.

Lemma untouched_trans (w1 w2 w3 : world) :
  untouched w1 w2 -> untouched w2 w3 -> untouched w1 w3.
Proof.
  intros [S1 L1] [S2 L2]. split; [congruence |].
  intros name N1 N2. now rewrite L2, L1.
Qed.

Lemma copy_untouched (from target : string) (w : world) :
  target = "origin.pth"%string \/ target = "repeat.pth"%string ->
  untouched w (Eff.final (copy from (Py.path_join dst target) w)).
Proof.
  intros T. destruct (copy_effect from target w T) as [S L].
  split; [exact S |]. intros name N1 N2. apply L.
  destruct T as [-> | ->]; assumption.
Qed.

Lemma copies_untouched (target : string) (l : list string) :
  target = "origin.pth"%string \/ target = "repeat.pth"%string ->
  forall w,
  untouched w
    (Eff.final (Eff.for_each l (fun i => copy i (Py.path_join dst target)) w)).
Proof.
  intros T. induction l as [| p l IH]; intros w; cbn [Eff.for_each].
  - apply untouched_refl.
  - unfold Eff.bind at 1.
    pose proof (copy_untouched p target w T) as U.
    destruct (copy p (Py.path_join dst target) w) as [t w1 [e | []]];
      cbn [Eff.final Eff.result Eff.trace] in *; [exact U |].
    eapply untouched_trans; [exact U | apply IH].
Qed.

End ReselectMoreFacts.

Section ReselectMoreTheorems.
Import Reselect.

(** X13. Without a source directory the script stops at [os.listdir]:
    with [FileNotFoundError] when the path is missing, with
    [NotADirectoryError] when it is not a directory; [./checkpoint] is
    not created and nothing is copied. *)
Theorem X13_source_unreadable (w : world) :
  FS.isdir (source w) = false ->
  Eff.trace (reselect w) = [] /\
  Eff.final (reselect w) = w /\
  Eff.result (reselect w) =
    inl (match source w with
         | FS.Missing => Py.FileNotFoundError
         | _ => Py.NotADirectoryError
         end).
Proof.
  destruct w as [s d]. cbn [source]. intros D.
  destruct s as [| | files]; [| | discriminate D]; now cbv.
Qed.

(** X14. When [./checkpoint] exists and is not a directory,
    [os.makedirs(dst, exist_ok=True)] raises [FileExistsError]: nothing is
    copied and nothing changes, whatever the source directory holds. *)
Theorem X14_destination_is_a_file (w : world) :
  FS.isdir (source w) = true ->
  dest w = FS.NotADirectory ->
  Eff.trace (reselect w) = [] /\
  Eff.final (reselect w) = w /\
  Eff.result (reselect w) = inl Py.FileExistsError.
Proof.
  destruct w as [s d]. cbn [source dest]. intros D ->.
  destruct s as [| | files]; try discriminate D.
  unfold reselect. run_copy. now repeat split.
Qed.

(** X15. Running the script a second time copies the same file to the same
    two places and leaves the two directories as the first run left
    them. *)
Theorem X15_rerun_changes_nothing (w : world) (files : list (string * bytes)) :
  source w = FS.Directory files ->
  Forall (fun n => FS.valid_name n = true) (map fst files) ->
  dest w <> FS.NotADirectory ->
  Eff.trace (reselect (Eff.final (reselect w))) = Eff.trace (reselect w) /\
  Eff.result (reselect (Eff.final (reselect w))) = Eff.result (reselect w) /\
  Eff.final (reselect (Eff.final (reselect w))) = Eff.final (reselect w).
Proof.
  destruct w as [s d]. cbn [source dest]. intros -> V N.
  rewrite (reselect_run files d V).
  destruct d as [| | dfiles]; [| congruence |].
  all: destruct (Py.sort (map (fun i => Py.path_join source_dir i) (map fst files)))
         as [| p rest] eqn:E.
  all: cbn [Eff.final FS.files_of].
  all: try (rewrite (reselect_run files _ V), E; cbn [FS.files_of];
            now repeat split).
  all: destruct (FS.read_file _ (FS.Directory files)) as [e | content] eqn:R;
         cbn [Eff.final Eff.trace Eff.result].
  all: rewrite (reselect_run files _ V), E, R; cbn [FS.files_of Eff.final Eff.trace Eff.result];
         try now repeat split.
  all: rewrite (store_same "origin.pth" content)
         by (rewrite lookup_store_ne by discriminate; apply lookup_store_eq).
  all: rewrite (store_same "repeat.pth" content) by apply lookup_store_eq.
  all: now repeat split.
Qed.

(** X16. The order in which [os.listdir] returns the entries does not
    matter: on two listings of the same files the script copies the same
    file, ends the same way and leaves the same [./checkpoint]. *)
Theorem X16_listing_order_irrelevant (files files' : list (string * bytes))
  (d : FS.slot bytes) :
  Permutation files files' ->
  NoDup (map fst files) ->
  Forall (fun n => FS.valid_name n = true) (map fst files) ->
  Eff.trace (reselect (World (FS.Directory files) d)) =
    Eff.trace (reselect (World (FS.Directory files') d)) /\
  Eff.result (reselect (World (FS.Directory files) d)) =
    Eff.result (reselect (World (FS.Directory files') d)) /\
  dest (Eff.final (reselect (World (FS.Directory files) d))) =
    dest (Eff.final (reselect (World (FS.Directory files') d))).
Proof.
  intros P D V.
  assert (V' : Forall (fun n => FS.valid_name n = true) (map fst files'))
    by (eapply Permutation_Forall; [apply Permutation_map; exact P | exact V]).
  rewrite (reselect_run files d V), (reselect_run files' d V').
  rewrite <- (sort_perm_eq _ _
    (Permutation_map (fun i => Py.path_join source_dir i)
       (Permutation_map fst P))).
  destruct d as [| | dfiles]; [| now repeat split |].
  all: destruct (Py.sort (map (fun i => Py.path_join source_dir i) (map fst files)))
         as [| p rest]; [now repeat split |].
  all: cbn [FS.read_file].
  all: rewrite <- (lookup_perm _ files files' D P).
  all: destruct (FS.lookup _ files); now repeat split.
Qed.

(** X17. Whatever the two directories hold and however the script ends, it
    leaves the source directory as it was and, in [./checkpoint], touches
    no file other than [origin.pth] and [repeat.pth]. *)
Theorem X17_only_two_files_touched (w : world) :
  source (Eff.final (reselect w)) = source w /\
  forall name, name <> "origin.pth"%string -> name <> "repeat.pth"%string ->
    FS.lookup name (FS.files_of (dest (Eff.final (reselect w)))) =
    FS.lookup name (FS.files_of (dest w)).
Proof.
  change (untouched w (Eff.final (reselect w))).
  unfold reselect. run_copy.
  destruct (FS.listdir (source w)) as [e | names]; run_copy;
    [apply untouched_refl |].
  destruct (FS.makedirs_exist_ok (dest w)) as [e | d] eqn:Mk; run_copy;
    [apply untouched_refl |].
  set (src := firstn 1 (Py.sort (map (fun i => Py.path_join source_dir i) names))).
  assert (U0 : untouched w (World (source w) d)).
  { split; [reflexivity |]. intros name _ _. cbn [dest].
    destruct (dest w); cbn in Mk; try discriminate Mk;
      injection Mk as <-; reflexivity. }
  pose proof (copies_untouched "origin.pth" src (or_introl eq_refl)
                (World (source w) d)) as U1.
  destruct (Eff.for_each src (fun i => copy i (Py.path_join dst "origin.pth"))
              (World (source w) d)) as [t1 w1 [e | []]];
    cbn [Eff.final Eff.result Eff.trace] in *.
  - eapply untouched_trans; eassumption.
  - pose proof (copies_untouched "repeat.pth" src (or_intror eq_refl) w1) as U2.
    destruct (Eff.for_each src (fun i => copy i (Py.path_join dst "repeat.pth")) w1)
      as [t2 w2 r2]; cbn [Eff.final] in *.
    eapply untouched_trans; [| exact U2].
    eapply untouched_trans; eassumption.
Qed.

End ReselectMoreTheorems.

Section RunThenReselect.
Context {backend : Torch.Backend}.
Import Finetune.

(** Index 0 has the least name among the indices of four digits. *)
Lemma checkpoint_file_zero_least (n : Z) (acc : Py.pyfloat) (cfg : config) :
  0 <= n < 10000 ->
  String.leb (checkpoint_file 0 acc cfg) (checkpoint_file n acc cfg) = true.
Proof.
  intros H. unfold checkpoint_file.
  rewrite (zfill_str_spec n) by lia.
  assert (L : String.length (Spec.zero_padded 4 n) = 4%nat)
    by (apply (zero_padded_length 3); change (10 ^ Z.of_nat 4) with 10000; lia).
  change (Py.zfill 4 (Py.str 0))
    with (Py.zeros 4).
  rewrite <- L at 1. apply leb_zeros, zero_padded_all_digits.
Qed.

Lemma checkpoint_file_valid (n : Z) (acc : Py.pyfloat) (cfg : config) :
  Py.contains "/" (tag cfg) = false ->
  FS.valid_name (checkpoint_file n acc cfg) = true.
Proof.
  intros T. unfold FS.valid_name.
  now rewrite checkpoint_file_not_empty, checkpoint_file_sep, T.
Qed.

(** X18. On a source directory that holds the checkpoints of one run, named
    as [save_checkpoint] names them with indices below 10000 and index 0
    among them, the script copies the checkpoint of index 0 to
    [origin.pth] and [repeat.pth]. *)
Theorem X18_first_checkpoint_of_a_run (w : Reselect.world)
  (files : list (string * Reselect.bytes)) (acc : Py.pyfloat) (cfg : config) :
  Reselect.source w = FS.Directory files ->
  Reselect.dest w <> FS.NotADirectory ->
  Py.contains "/" (tag cfg) = false ->
  (forall name, In name (map fst files) ->
     exists n, 0 <= n < 10000 /\ name = checkpoint_file n acc cfg) ->
  In (checkpoint_file 0 acc cfg) (map fst files) ->
  Eff.result (Reselect.reselect w) = inr tt /\
  Eff.trace (Reselect.reselect w) =
    [Reselect.Copied
       (Py.path_join Reselect.source_dir (checkpoint_file 0 acc cfg))
       (Py.path_join Reselect.dst "origin.pth");
     Reselect.Copied
       (Py.path_join Reselect.source_dir (checkpoint_file 0 acc cfg))
       (Py.path_join Reselect.dst "repeat.pth")] /\
  exists content,
    FS.lookup (checkpoint_file 0 acc cfg) files = Some content /\
    FS.lookup "origin.pth" (FS.files_of (Reselect.dest (Eff.final (Reselect.reselect w))))
      = Some content /\
    FS.lookup "repeat.pth" (FS.files_of (Reselect.dest (Eff.final (Reselect.reselect w))))
      = Some content.
Proof.
  destruct w as [s d]. cbn [Reselect.source Reselect.dest].
  intros -> N T Names Zero.
  assert (V : Forall (fun n => FS.valid_name n = true) (map fst files)).
  { apply Forall_forall. intros name I.
    destruct (Names name I) as [n [_ ->]]. now apply checkpoint_file_valid. }
  rewrite (reselect_run files d V).
  destruct (Py.sort (map (fun i => Py.path_join Reselect.source_dir i) (map fst files)))
    as [| p rest] eqn:E.
  { exfalso. apply sort_nil_inv in E. apply map_eq_nil in E.
    rewrite E in Zero. exact Zero. }
  destruct (sort_joined_head _ _ _ V E) as [name [-> [I Least]]].
  assert (name = checkpoint_file 0 acc cfg) as ->.
  { apply String.leb_antisym; [now apply Least |].
    destruct (Names name I) as [n [R ->]].
    now apply checkpoint_file_zero_least. }
  rewrite (path_join_source _ (checkpoint_file_valid 0 acc cfg T)), strip_prefix_app.
  destruct (lookup_in _ _ Zero) as [content L].
  cbn [FS.read_file]. rewrite L.
  destruct d as [| | dfiles]; [| congruence |];
    cbn [Eff.result Eff.trace Eff.final Reselect.dest FS.files_of].
  all: split; [reflexivity |]; split; [reflexivity |].
  all: exists content; split; [reflexivity |]; split;
         [rewrite lookup_store_ne by discriminate | ]; apply lookup_store_eq.
Qed.

End RunThenReselect.

Lemma X13_source_unreadable_witness :
  FS.isdir (Reselect.source Cases.no_source) = false /\
  Eff.final (Reselect.reselect Cases.no_source) = Cases.no_source /\
  Eff.result (Reselect.reselect Cases.no_source) = inl Py.FileNotFoundError.
Proof.
  assert (D : FS.isdir (Reselect.source Cases.no_source) = false) by reflexivity.
  split; [exact D |].
  exact (proj2 (X13_source_unreadable Cases.no_source D)).
Defined.

Lemma X14_destination_is_a_file_witness :
  FS.isdir (Reselect.source Cases.blocked) = true /\
  Reselect.dest Cases.blocked = FS.NotADirectory /\
  Eff.result (Reselect.reselect Cases.blocked) = inl Py.FileExistsError.
Proof.
  assert (S : FS.isdir (Reselect.source Cases.blocked) = true) by reflexivity.
  assert (D : Reselect.dest Cases.blocked = FS.NotADirectory) by reflexivity.
  split; [exact S |]. split; [exact D |].
  exact (proj2 (proj2 (X14_destination_is_a_file Cases.blocked S D))).
Defined.

Lemma X15_rerun_changes_nothing_witness :
  Reselect.source Sample.world = FS.Directory Sample.checkpoints /\
  Forall (fun n => FS.valid_name n = true) (map fst Sample.checkpoints) /\
  Reselect.dest Sample.world <> FS.NotADirectory /\
  Eff.final (Reselect.reselect (Eff.final (Reselect.reselect Sample.world))) =
  Eff.final (Reselect.reselect Sample.world).
Proof.
  assert (S : Reselect.source Sample.world = FS.Directory Sample.checkpoints)
    by reflexivity.
  assert (V : Forall (fun n => FS.valid_name n = true)
                     (map fst Sample.checkpoints))
    by (repeat constructor).
  assert (D : Reselect.dest Sample.world <> FS.NotADirectory) by discriminate.
  split; [exact S |]. split; [exact V |]. split; [exact D |].
  exact (proj2 (proj2 (X15_rerun_changes_nothing Sample.world
                         Sample.checkpoints S V D))).
Defined.

Lemma X16_listing_order_irrelevant_witness :
  Permutation Sample.checkpoints (rev Sample.checkpoints) /\
  NoDup (map fst Sample.checkpoints) /\
  Forall (fun n => FS.valid_name n = true) (map fst Sample.checkpoints) /\
  Eff.trace (Reselect.reselect
               (Reselect.World (FS.Directory Sample.checkpoints) FS.Missing)) =
  Eff.trace (Reselect.reselect
               (Reselect.World (FS.Directory (rev Sample.checkpoints)) FS.Missing)).
Proof.
  assert (P : Permutation Sample.checkpoints (rev Sample.checkpoints))
    by apply Permutation_rev.
  assert (N : NoDup (map fst Sample.checkpoints)).
  { repeat constructor; cbn [In]; intros H;
      repeat (destruct H as [H | H]; [discriminate H |]); exact H. }
  assert (V : Forall (fun n => FS.valid_name n = true)
                     (map fst Sample.checkpoints))
    by (repeat constructor).
  split; [exact P |]. split; [exact N |]. split; [exact V |].
  exact (proj1 (X16_listing_order_irrelevant Sample.checkpoints
                  (rev Sample.checkpoints) FS.Missing P N V)).
Defined.

Lemma X18_first_checkpoint_of_a_run_witness :
  Reselect.source Sample.world = FS.Directory Sample.checkpoints /\
  Reselect.dest Sample.world <> FS.NotADirectory /\
  Py.contains "/" (Finetune.tag Cases.cifar_config) = false /\
  (forall name, In name (map fst Sample.checkpoints) ->
     exists n, 0 <= n < 10000 /\
       name = Finetune.checkpoint_file n (Py.Finite (1 # 1)) Cases.cifar_config) /\
  In (Finetune.checkpoint_file 0 (Py.Finite (1 # 1)) Cases.cifar_config)
     (map fst Sample.checkpoints) /\
  Eff.result (Reselect.reselect Sample.world) = inr tt.
Proof.
  assert (S : Reselect.source Sample.world = FS.Directory Sample.checkpoints)
    by reflexivity.
  assert (D : Reselect.dest Sample.world <> FS.NotADirectory) by discriminate.
  assert (T : Py.contains "/" (Finetune.tag Cases.cifar_config) = false)
    by reflexivity.
  assert (Names : forall name, In name (map fst Sample.checkpoints) ->
            exists n, 0 <= n < 10000 /\
              name = Finetune.checkpoint_file n (Py.Finite (1 # 1)) Cases.cifar_config).
  { intros name [<- | [<- | [<- | []]]];
      [exists 2 | exists 0 | exists 1]; (split; [lia | reflexivity]). }
  assert (Z0 : In (Finetune.checkpoint_file 0 (Py.Finite (1 # 1)) Cases.cifar_config)
                  (map fst Sample.checkpoints))
    by (right; left; reflexivity).
  split; [exact S |]. split; [exact D |]. split; [exact T |].
  split; [exact Names |]. split; [exact Z0 |].
  exact (proj1 (X18_first_checkpoint_of_a_run Sample.world Sample.checkpoints
                  (Py.Finite (1 # 1)) Cases.cifar_config S D T Names Z0)).
Defined.

(* ================================================================== *)
(** * What the training loop prints                                     *)
(* ================================================================== *)



Section PrintFacts.
Context {backend : Torch.Backend} {training : Finetune.Training}.
Import Finetune.

Lemma shape_printed cfg tb k its t r :
  shape cfg tb k its t r ->
  printed t =
  (map (fun p => "Saved: " ++ p)%string (saved_paths t) ++ last_words r)%list.
Proof.
  induction 1; cbn [printed saved_paths map app last_words]; try congruence.
  destruct H0 as [-> | ->]; reflexivity.
Qed.

(** X19. What the training loop prints: one line ["Saved: "] and the path
    for every file it writes, in the order of the writes, and after them the
    line ["Fine-tuning completed."] exactly when the run ends by [exit]. *)
Theorem X19_printed_lines (cfg : config) (tb : nat)
  (pretrained : Torch.nn_module) (dir : FS.slot saved) :
  printed (Eff.trace (script cfg tb pretrained dir)) =
  (map (fun p => "Saved: " ++ p)%string
       (saved_paths (Eff.trace (script cfg tb pretrained dir)))
   ++ last_words (Eff.result (script cfg tb pretrained dir)))%list.
Proof. exact (shape_printed _ _ _ _ _ _ (script_shape cfg tb pretrained dir)). Qed.

End PrintFacts.
